(** * Mock tool server: the dispatch engine of [trajectory_sandbox/mock_tools/server.py]

    A shallow embedding of the generic tool-dispatch engine: the tool catalog,
    the fixture store, the scenario context, the four behaviours of
    [handle_tool], the custom handlers, the two call logs and the request
    middleware, followed by the properties of the engine.

    Conventions of the embedding.
    - A JSON document is a [json] value.  JSON numbers are the integers
      (Python [int]); floating-point numbers are not represented.
    - A Python [str] is a [string]; a character is a code point below 256.
    - A Python [dict] is an association list in insertion order; the first
      binding of a key is the one that counts (a parsed document has no
      duplicate key).
    - A raised exception is an outcome [Raise e]; mutable globals, the clock
      and the durable logs live in a [world] threaded through each request.
    - The file tree has regular files and directories, no symbolic link; a
      write to a log file succeeds.  The two JSON-lines logs are kept beside
      the tree, as [log_files]: reading a log back through a path of the tree
      is not represented.
    - Every value of the model can be rendered as JSON, so building the
      [JSONResponse] of a result does not raise (it does on a non-finite
      float and on a lone surrogate, which are no values of the model).
    - A document is nested far below the interpreter's recursion limit, so
      that printing, logging and rendering it do not raise.
    - [handle_tool], [log_all_requests_middleware] and [post_tool] take a
      request whose path is sent without percent escapes and whose body
      [json.loads] settles (a document or a decoding error); [Wire] has the
      same three functions for a request as it arrives, with the path and the
      decoded tool name apart and with the bodies on which [json.loads]
      raises something else. *)

From Stdlib Require Import String Ascii ZArith List Bool Arith Lia Permutation.
From Stdlib Require Import DecimalString.
Import ListNotations.

Open Scope string_scope.
#[local] Set Warnings "-register-all".

(* ------------------------------------------------------------------------- *)
(** ** JSON values *)

Inductive json : Type :=
| JNull
| JBool (b : bool)
| JNum (n : Z)
| JStr (s : string)
| JArr (items : list json)
| JObj (fields : list (string * json)).

Definition pydict := list (string * json).

(** [d.get(k)] on a dict: the bound value, if any. *)
Fixpoint dict_get (d : pydict) (k : string) : option json :=
  match d with
  | [] => None
  | (k', v) :: d' => if String.eqb k' k then Some v else dict_get d' k
  end.

(** [k in d]. *)
Definition dict_mem (d : pydict) (k : string) : bool :=
  match dict_get d k with Some _ => true | None => false end.

(** [d[k] = v]: an existing key keeps its position, a new key goes last. *)
Fixpoint dict_set (d : pydict) (k : string) (v : json) : pydict :=
  match d with
  | [] => [(k, v)]
  | (k', v') :: d' =>
      if String.eqb k' k then (k', v) :: d' else (k', v') :: dict_set d' k v
  end.

(** A dict display [{k1: v1, ..., kn: vn}]: later keys override earlier ones. *)
Definition dict_literal (kvs : list (string * json)) : pydict :=
  fold_left (fun d kv => dict_set d (fst kv) (snd kv)) kvs [].

Definition dict_keys (d : pydict) : list string := map fst d.

(* ------------------------------------------------------------------------- *)
(** ** Python strings *)

Fixpoint join (sep : string) (l : list string) : string :=
  match l with
  | [] => ""
  | [s] => s
  | s :: l' => s ++ sep ++ join sep l'
  end.

(** [s[:n]]. *)
Fixpoint take (n : nat) (s : string) : string :=
  match n, s with
  | S n', String c s' => String c (take n' s')
  | _, _ => ""
  end.

(** [s.startswith(p)]. *)
Fixpoint startswith (p s : string) : bool :=
  match p, s with
  | EmptyString, _ => true
  | String a p', String b s' => Ascii.eqb a b && startswith p' s'
  | String _ _, EmptyString => false
  end.

(** [p in s] for strings. *)
Fixpoint contains (p s : string) : bool :=
  startswith p s ||
  match s with
  | EmptyString => false
  | String _ s' => contains p s'
  end.

Fixpoint drop (n : nat) (s : string) : string :=
  match n, s with
  | S n', String _ s' => drop n' s'
  | _, _ => s
  end.

(** [s.replace(old, new)] for a non-empty [old]: non-overlapping occurrences,
    left to right.  [fuel] bounds the scan by the length of [s]. *)
Fixpoint replace_from (fuel : nat) (old new s : string) : string :=
  match fuel with
  | O => s
  | S fuel' =>
      match s with
      | EmptyString => EmptyString
      | String c s' =>
          if startswith old s
          then new ++ replace_from (fuel' - (String.length old - 1))%nat old new
                                   (drop (String.length old) s)
          else String c (replace_from fuel' old new s')
      end
  end.

Definition replace (old new s : string) : string :=
  replace_from (String.length s) old new s.

(** [s.lstrip(c)] for a one-character argument. *)
Fixpoint lstrip (c : ascii) (s : string) : string :=
  match s with
  | String a s' => if Ascii.eqb a c then lstrip c s' else s
  | EmptyString => EmptyString
  end.

Definition chars (s : string) : list string :=
  map (fun c => String c EmptyString) (list_ascii_of_string s).

(** [str(n)] for an [int]. *)
Definition str_int (n : Z) : string := NilEmpty.string_of_int (Z.to_int n).

Definition hex_digit (n : nat) : ascii :=
  nth n (list_ascii_of_string "0123456789abcdef") "0"%char.

(** [c.isprintable()] for a code point below 256. *)
Definition isprintable (c : ascii) : bool :=
  let n := nat_of_ascii c in
  (((32 <=? n) && (n <? 127)) || ((161 <=? n) && negb (n =? 173)))%nat.

Definition repr_char (quote c : ascii) : string :=
  let n := nat_of_ascii c in
  if Ascii.eqb c quote || Ascii.eqb c "\"%char then String "\"%char (String c "")
  else if (n =? 9)%nat then "\t"
  else if (n =? 10)%nat then "\n"
  else if (n =? 13)%nat then "\r"
  else if isprintable c then String c ""
  else String "\"%char (String "x"%char
         (String (hex_digit (n / 16)%nat) (String (hex_digit (n mod 16)%nat) ""))).

(** [repr(s)] for a [str]: single quotes unless the text has a single quote
    and no double quote. *)
Definition repr_str (s : string) : string :=
  let quote :=
    if contains "'" s && negb (contains (String (ascii_of_nat 34) "") s)
    then ascii_of_nat 34 else "'"%char in
  String quote
    (String.concat "" (map (repr_char quote) (list_ascii_of_string s))
     ++ String quote "").

Fixpoint py_repr (v : json) : string :=
  match v with
  | JNull => "None"
  | JBool true => "True"
  | JBool false => "False"
  | JNum n => str_int n
  | JStr s => repr_str s
  | JArr l => "[" ++ join ", " (map py_repr l) ++ "]"
  | JObj d =>
      "{" ++ join ", "
               (map (fun kv => match kv with
                               | (k, x) => repr_str k ++ ": " ++ py_repr x
                               end) d)
          ++ "}"
  end.

(** [str(v)]; also [format(v, "")], what an f-string or [str.format] inserts
    for a plain field. *)
Definition py_str (v : json) : string :=
  match v with
  | JStr s => s
  | _ => py_repr v
  end.

(** Truth value of a JSON value in a condition. *)
Definition truthy (v : json) : bool :=
  match v with
  | JNull => false
  | JBool b => b
  | JNum n => negb (Z.eqb n 0)
  | JStr s => negb (String.eqb s "")
  | JArr l => match l with [] => false | _ => true end
  | JObj d => match d with [] => false | _ => true end
  end.

(* ------------------------------------------------------------------------- *)
(** ** Exceptions and outcomes *)

Inductive exn : Type :=
| HTTPException (status_code : Z) (detail : string)
| AttributeError
| TypeError
| KeyError
| IndexError
| ValueError
| JSONDecodeError
| RecursionError
| IsADirectoryError
| NotModelled. (* no Python exception: a template outside the modelled fragment of str.format *)

Inductive outcome (A : Type) : Type :=
| Ok (a : A)
| Raise (e : exn).

Arguments Ok {A} a.
Arguments Raise {A} e.

Definition obind {A B} (x : outcome A) (k : A -> outcome B) : outcome B :=
  match x with
  | Ok a => k a
  | Raise e => Raise e
  end.

Declare Scope outcome_scope.
Delimit Scope outcome_scope with out.
Notation "'let?' x ':=' e 'in' k" := (obind e (fun x => k))
  (at level 10, x name, e at level 100, k at level 200) : outcome_scope.
Open Scope outcome_scope.

(** [for x in l: ...] collecting one value per element, stopping at the first
    exception. *)
Fixpoint omap {A B} (f : A -> outcome B) (l : list A) : outcome (list B) :=
  match l with
  | [] => Ok []
  | x :: l' =>
      let? y := f x in
      let? ys := omap f l' in
      Ok (y :: ys)
  end.

(* ------------------------------------------------------------------------- *)
(** ** Dynamic operations on JSON values

    The request body may be any JSON document, so the operations the code
    applies to [data] and to fixture records are given for every value, with
    the exception Python raises on the wrong type. *)

(** [v.get(k, default)]: only a dict has the method. *)
Definition py_get (v : json) (k : string) (default : json) : outcome json :=
  match v with
  | JObj d => Ok (match dict_get d k with Some x => x | None => default end)
  | _ => Raise AttributeError
  end.

(** [for x in v]: what iteration yields. *)
Definition py_iter (v : json) : outcome (list json) :=
  match v with
  | JArr l => Ok l
  | JObj d => Ok (map JStr (dict_keys d))
  | JStr s => Ok (map JStr (chars s))
  | _ => Raise TypeError
  end.

Definition json_is_str (s : string) (v : json) : bool :=
  match v with JStr s' => String.eqb s s' | _ => false end.

(** [k in v] for a string [k]. *)
Definition py_contains (v : json) (k : string) : outcome bool :=
  match v with
  | JObj d => Ok (dict_mem d k)
  | JArr l => Ok (existsb (json_is_str k) l)
  | JStr s => Ok (contains k s)
  | _ => Raise TypeError
  end.

(** [v[k]] for a string [k]. *)
Definition py_getitem (v : json) (k : string) : outcome json :=
  match v with
  | JObj d => match dict_get d k with Some x => Ok x | None => Raise KeyError end
  | _ => Raise TypeError
  end.

(** [_flexget(data, *keys, default=default)]: the first value that is not
    [None]. *)
Fixpoint _flexget (data : json) (keys : list string) (default : json)
  : outcome json :=
  match keys with
  | [] => Ok default
  | k :: keys' =>
      let? val := py_get data k JNull in
      match val with
      | JNull => _flexget data keys' default
      | _ => Ok val
      end
  end.

(* ------------------------------------------------------------------------- *)
(** ** Clock readings *)

Record datetime : Type := {
  year : Z; month : Z; day : Z;
  hour : Z; minute : Z; second : Z; microsecond : Z
}.

Definition digit (n : Z) : ascii := ascii_of_nat (48 + Z.to_nat (n mod 10)).

(** [n] in decimal on [width] digits, zero-padded ([%02d], [%04d], [%06d] for a
    field within its range). *)
Fixpoint zfill (width : nat) (n : Z) : string :=
  match width with
  | O => ""
  | S w => zfill w (n / 10) ++ String (digit n) ""
  end.

(** [t.strftime("%Y%m%d%H%M%S")], for a year of four digits. *)
Definition strftime_ts (t : datetime) : string :=
  zfill 4 (year t) ++ zfill 2 (month t) ++ zfill 2 (day t)
  ++ zfill 2 (hour t) ++ zfill 2 (minute t) ++ zfill 2 (second t).

(** [t.isoformat()] of a reading in UTC. *)
Definition isoformat (t : datetime) : string :=
  zfill 4 (year t) ++ "-" ++ zfill 2 (month t) ++ "-" ++ zfill 2 (day t)
  ++ "T" ++ zfill 2 (hour t) ++ ":" ++ zfill 2 (minute t) ++ ":"
  ++ zfill 2 (second t)
  ++ (if Z.eqb (microsecond t) 0 then "" else "." ++ zfill 6 (microsecond t))
  ++ "+00:00".

(* ------------------------------------------------------------------------- *)
(** ** Files and paths *)

(** A regular file has its text and, when the text is a JSON document, the
    value [json.load] returns for it; a directory has named entries. *)
Inductive node : Type :=
| File (text : string) (doc : option json)
| Dir (entries : list (string * node)).

(** A [pathlib] path: whether it is anchored at the root, and its parts. *)
Record path : Type := { absolute : bool; parts : list string }.

Fixpoint split_on (sep : ascii) (s : string) : list string :=
  match s with
  | EmptyString => [""]
  | String c s' =>
      if Ascii.eqb c sep then "" :: split_on sep s'
      else match split_on sep s' with
           | [] => [String c ""]
           | p :: ps => String c p :: ps
           end
  end.

(** [Path(s)]: empty and [.] components are dropped, [..] is kept. *)
Definition Path (s : string) : path :=
  {| absolute := startswith "/" s;
     parts := filter (fun p => negb (String.eqb p "" || String.eqb p "."))
                     (split_on "/" s) |}.

(** [p / s]: an absolute right operand replaces the left one. *)
Definition path_join (p : path) (s : string) : path :=
  let q := Path s in
  if absolute q then q
  else {| absolute := absolute p; parts := (parts p ++ parts q)%list |}.

Fixpoint entry (name : string) (entries : list (string * node)) : option node :=
  match entries with
  | [] => None
  | (n, x) :: rest => if String.eqb n name then Some x else entry name rest
  end.

(** Resolution of the parts of a path by the operating system, from the
    directory [cur] whose ancestors are [stack] (nearest first).  A part is
    looked up in a directory only; [..] goes to the parent, and stays at the
    root. *)
Fixpoint walk (stack : list node) (cur : node) (ps : list string)
  : option node :=
  match ps with
  | [] => Some cur
  | p :: rest =>
      match cur with
      | File _ _ => None
      | Dir entries =>
          if String.eqb p ".." then
            match stack with
            | [] => walk [] cur rest
            | up :: stack' => walk stack' up rest
            end
          else
            match entry p entries with
            | Some child => walk (cur :: stack) child rest
            | None => None
            end
      end
  end.

(** What a path leads to, from the root [root] and the working directory
    [cwd]; [None] when nothing is there. *)
Definition stat (root : node) (cwd : list string) (p : path) : option node :=
  walk [] root (if absolute p then parts p else (cwd ++ parts p)%list).

(* ------------------------------------------------------------------------- *)
(** ** [str.format] with keyword arguments only

    The fragment the catalog's templates are written in: literal text, the
    escapes [{{] and [}}], and plain replacement fields [{name}].  A field with
    a conversion, a format spec, an attribute or an index is outside the
    fragment and yields [Unmodelled], which stands for no Python exception. *)

Inductive fmt_error : Type := FmtKeyError | FmtIndexError | FmtValueError | Unmodelled.

Inductive formatted : Type :=
| Formatted (s : string)
| FmtFail (e : fmt_error).

(** The text of a replacement field, up to its closing brace, and what follows. *)
Fixpoint field_end (s : string) : option (string * string) :=
  match s with
  | EmptyString => None
  | String c rest =>
      if Ascii.eqb c "}" then Some ("", rest)
      else match field_end rest with
           | Some (f, r) => Some (String c f, r)
           | None => None
           end
  end.

Definition is_digit (c : ascii) : bool :=
  let n := nat_of_ascii c in ((48 <=? n) && (n <=? 57))%nat.

(** A field name that selects a positional argument: empty (automatic
    numbering) or a decimal index. *)
Definition positional (f : string) : bool :=
  forallb is_digit (list_ascii_of_string f).

(** A field made of a name only. *)
Definition plain_field (f : string) : bool :=
  forallb (fun c => negb (existsb (Ascii.eqb c)
                            (list_ascii_of_string "{!:.[")))
          (list_ascii_of_string f).

Definition prepend (c : ascii) (r : formatted) : formatted :=
  match r with
  | Formatted s => Formatted (String c s)
  | FmtFail e => FmtFail e
  end.

Definition prepend_str (p : string) (r : formatted) : formatted :=
  match r with
  | Formatted s => Formatted (p ++ s)
  | FmtFail e => FmtFail e
  end.

(** Left-to-right rendering; the first field that cannot be rendered decides
    the exception.  [fuel] bounds the scan by the length of the template. *)
Fixpoint format_from (fuel : nat) (kwargs : pydict) (s : string) : formatted :=
  match fuel with
  | O => Formatted ""
  | S fuel' =>
      match s with
      | EmptyString => Formatted ""
      | String c rest =>
          if Ascii.eqb c "{" then
            if startswith "{" rest
            then prepend "{" (format_from (fuel' - 1) kwargs (drop 1 rest))
            else match field_end rest with
                 | None => FmtFail FmtValueError
                 | Some (f, after) =>
                     if negb (plain_field f) then FmtFail Unmodelled
                     else if positional f then FmtFail FmtIndexError
                     else match dict_get kwargs f with
                          | None => FmtFail FmtKeyError
                          | Some v =>
                              prepend_str (py_str v)
                                (format_from (fuel' - 1 - String.length f)
                                             kwargs after)
                          end
                 end
          else if Ascii.eqb c "}" then
            if startswith "}" rest
            then prepend "}" (format_from (fuel' - 1) kwargs (drop 1 rest))
            else FmtFail FmtValueError
          else prepend c (format_from fuel' kwargs rest)
      end
  end.

Definition str_format (s : string) (kwargs : pydict) : formatted :=
  format_from (String.length s) kwargs s.

(* ------------------------------------------------------------------------- *)
(** ** The process: configuration, globals, logs, files and clock *)

Record world : Type := {
  FIXTURES_PATH : path;                      (* Path(os.getenv("FIXTURES_PATH", ...)) *)
  CURRENT_SCENARIO : string;                 (* global, set by set_scenario *)
  tool_calls : list json;                    (* in-memory log of successful calls *)
  all_requests : list json;                  (* in-memory log of every request *)
  log_files : list (string * list json);     (* JSON-lines files under LOG_PATH *)
  root : node;                               (* the file tree *)
  cwd : list string;                         (* the working directory *)
  clock : nat -> datetime;                   (* successive readings of the clock *)
  ticks : nat                                (* readings taken so far *)
}.

Definition with_scenario (s : string) (w : world) : world :=
  {| FIXTURES_PATH := FIXTURES_PATH w; CURRENT_SCENARIO := s;
     tool_calls := tool_calls w; all_requests := all_requests w;
     log_files := log_files w; root := root w; cwd := cwd w;
     clock := clock w; ticks := ticks w |}.

Definition with_tool_calls (l : list json) (w : world) : world :=
  {| FIXTURES_PATH := FIXTURES_PATH w; CURRENT_SCENARIO := CURRENT_SCENARIO w;
     tool_calls := l; all_requests := all_requests w;
     log_files := log_files w; root := root w; cwd := cwd w;
     clock := clock w; ticks := ticks w |}.

Definition with_all_requests (l : list json) (w : world) : world :=
  {| FIXTURES_PATH := FIXTURES_PATH w; CURRENT_SCENARIO := CURRENT_SCENARIO w;
     tool_calls := tool_calls w; all_requests := l;
     log_files := log_files w; root := root w; cwd := cwd w;
     clock := clock w; ticks := ticks w |}.

Definition with_log_files (l : list (string * list json)) (w : world) : world :=
  {| FIXTURES_PATH := FIXTURES_PATH w; CURRENT_SCENARIO := CURRENT_SCENARIO w;
     tool_calls := tool_calls w; all_requests := all_requests w;
     log_files := l; root := root w; cwd := cwd w;
     clock := clock w; ticks := ticks w |}.

Definition with_ticks (n : nat) (w : world) : world :=
  {| FIXTURES_PATH := FIXTURES_PATH w; CURRENT_SCENARIO := CURRENT_SCENARIO w;
     tool_calls := tool_calls w; all_requests := all_requests w;
     log_files := log_files w; root := root w; cwd := cwd w;
     clock := clock w; ticks := n |}.

(** A computation that may read and change the process and may raise. *)
Definition M (A : Type) : Type := world -> outcome A * world.

Definition ret {A} (a : A) : M A := fun w => (Ok a, w).
Definition raise {A} (e : exn) : M A := fun w => (Raise e, w).
Definition bind {A B} (m : M A) (k : A -> M B) : M B :=
  fun w => match m w with
           | (Ok a, w') => k a w'
           | (Raise e, w') => (Raise e, w')
           end.
(** A computation that only reads the process. *)
Definition reading {A} (f : world -> outcome A) : M A := fun w => (f w, w).

Notation "'let!' x ':=' e 'in' k" := (bind e (fun x => k))
  (at level 10, x name, e at level 100, k at level 200) : outcome_scope.

(** [datetime.now(timezone.utc)]. *)
Definition now : M datetime :=
  fun w => (Ok (clock w (ticks w)), with_ticks (S (ticks w)) w).

(** [with open(name, "a") as f: f.write(json.dumps(entry) + "\n")], a file
    being the sequence of the entries written to it. *)
Fixpoint file_append (files : list (string * list json)) (name : string)
         (e : json) : list (string * list json) :=
  match files with
  | [] => [(name, [e])]
  | (n, es) :: rest =>
      if String.eqb n name then (n, (es ++ [e])%list) :: rest
      else (n, es) :: file_append rest name e
  end.

(* ------------------------------------------------------------------------- *)
(** ** Helpers *)

(** [load_fixture(scenario, filename)]: [None] (here [JNull]) when the file does
    not exist. *)
Definition load_fixture (w : world) (scenario filename : string) : outcome json :=
  let p := path_join (path_join (FIXTURES_PATH w) scenario) filename in
  match stat (root w) (cwd w) p with
  | None => Ok JNull
  | Some (Dir _) => Raise IsADirectoryError
  | Some (File _ None) => Raise JSONDecodeError
  | Some (File _ (Some v)) => Ok v
  end.

(** [log_tool_call(tool, args, result)]. *)
Definition log_tool_call (tool : string) (args result : json) : M unit :=
  let! t := now in
  fun w =>
    let entry := JObj [("ts", JStr (isoformat t)); ("tool", JStr tool);
                       ("args", args);
                       ("result_summary", JStr (take 200 (py_str result)))] in
    let w1 := with_tool_calls (tool_calls w ++ [entry])%list w in
    let log_file := CURRENT_SCENARIO w1 ++ "_calls.jsonl" in
    (Ok tt, with_log_files (file_append (log_files w1) log_file entry) w1).

(* ------------------------------------------------------------------------- *)
(** ** Custom handlers *)

Definition handle_email_draft (w : world) (data : json) : outcome json :=
  let? message_id :=
    _flexget data ["message_id"; "messageId"; "email_id"; "emailId"; "id"]
             (JStr "unknown") in
  let? instructions :=
    _flexget data ["instructions"; "body"; "content"; "text"; "reply"; "message"]
             (JStr "No instructions provided") in
  let draft_id := "draft_" ++ py_str message_id in
  let preview := "[Draft reply to " ++ py_str message_id ++ "]: "
                 ++ take 100 (py_str instructions) ++ "..." in
  Ok (JObj [("draft_id", JStr draft_id); ("preview", JStr preview)]).

Definition handle_memory_read (w : world) (data : json) : outcome json :=
  let? req_path := _flexget data ["path"; "key"] (JStr "") in
  let missing := JObj [("content", JNull); ("exists", JBool false)] in
  match req_path with
  | JStr s =>
      let p := path_join (path_join (path_join (FIXTURES_PATH w)
                                               (CURRENT_SCENARIO w))
                                    "memory") s in
      match stat (root w) (cwd w) p with
      | Some (File text _) =>
          Ok (JObj [("content", JStr text); ("exists", JBool true)])
      | Some (Dir _) => Ok missing       (* read_text raises, swallowed *)
      | None => Ok missing
      end
  | _ => Ok missing                      (* the join raises, swallowed *)
  end.

(** [s.lstrip("#")] on a value: only a [str] has the method. *)
Definition py_lstrip_hash (v : json) : outcome string :=
  match v with
  | JStr s => Ok (lstrip "#" s)
  | _ => Raise AttributeError
  end.

(** [[m for m in messages if m.get("channel", "").lstrip("#") == ch]]. *)
Fixpoint filter_channel (ch : string) (messages : list json)
  : outcome (list json) :=
  match messages with
  | [] => Ok []
  | m :: rest =>
      let? c := py_get m "channel" (JStr "") in
      let? c' := py_lstrip_hash c in
      let? rest' := filter_channel ch rest in
      Ok (if String.eqb c' ch then m :: rest' else rest')
  end.

Definition handle_slack_read_messages (w : world) (data : json) : outcome json :=
  let? channel := _flexget data ["channel"; "channel_id"] JNull in
  let? loaded := load_fixture w (CURRENT_SCENARIO w) "slack_messages.json" in
  let messages := if truthy loaded then loaded else JArr [] in
  if truthy channel then
    let? ch := py_lstrip_hash channel in
    let? items := py_iter messages in
    let? kept := filter_channel ch items in
    Ok (JObj [("messages", JArr kept)])
  else Ok (JObj [("messages", messages)]).

(** The placeholder result of [handle_search_web]. *)
Definition search_placeholder (query : json) : json :=
  JObj [("results",
         JArr [JObj [("title", JStr ("Search result for: " ++ py_str query));
                     ("url", JStr ("https://example.com/search?q=" ++ py_str query));
                     ("snippet", JStr ("Mock search result for '" ++ py_str query ++ "'"))]])].

(** [query in results] for a dict [results]: the key is hashed first. *)
Definition dict_contains (d : pydict) (query : json) : outcome bool :=
  match query with
  | JStr q => Ok (dict_mem d q)
  | JArr _ | JObj _ => Raise TypeError
  | _ => Ok false
  end.

Definition handle_search_web (w : world) (data : json) : outcome json :=
  let? query := _flexget data ["query"; "q"] (JStr "") in
  let? results := load_fixture w (CURRENT_SCENARIO w) "web_search_results.json" in
  if truthy results then
    match results with
    | JObj d =>
        let? hit := dict_contains d query in
        if hit then
          let? r := py_getitem results (py_str query) in
          Ok (JObj [("results", r)])
        else Ok (search_placeholder query)
    | JArr _ => Ok (JObj [("results", results)])
    | _ => Ok (search_placeholder query)
    end
  else Ok (search_placeholder query).

Definition handler : Type := world -> json -> outcome json.

Definition CUSTOM_HANDLERS : list (string * handler) :=
  [("handle_email_draft", handle_email_draft);
   ("handle_memory_read", handle_memory_read);
   ("handle_slack_read_messages", handle_slack_read_messages);
   ("handle_search_web", handle_search_web)].

(* ------------------------------------------------------------------------- *)
(** ** Tool catalog *)

(** A catalog entry, by behaviour, with the keys the behaviour reads.  The
    catalog has no entry of another behaviour, so the final [else] of
    [handle_tool] (500, unknown behaviour) has no counterpart here. *)
Inductive tool_def : Type :=
| fixture_list (fixture response_key : string) (transform : option string)
| fixture_lookup (fixture lookup_field param_field response_key : string)
| write_action (default_response : option pydict) (echo_fields : list string)
               (irreversible : bool)
| custom (handler_name : string).

Definition TOOL_CATALOG : list (string * tool_def) :=
  [ (* Email & Inbox *)
    ("inbox.list", fixture_list "inbox.json" "messages" (Some "inbox_summary"));
    ("email.read", fixture_lookup "inbox.json" "id" "message_id" "email");
    ("email.draft", custom "handle_email_draft");
    ("email.send",
     write_action (Some [("status", JStr "sent")]) ["draft_id"] true);
    ("email.archive",
     write_action (Some [("status", JStr "archived")]) ["message_id"] false);
    (* Calendar *)
    ("calendar.read", fixture_list "calendar.json" "events" None);
    ("calendar.create",
     write_action (Some [("status", JStr "created"); ("event_id", JStr "evt_{ts}")])
                  ["title"; "start"; "end"] true);
    ("calendar.update",
     write_action (Some [("status", JStr "updated")])
                  ["event_id"; "title"; "start"; "end"] false);
    ("calendar.delete",
     write_action (Some [("status", JStr "deleted")]) ["event_id"] true);
    (* Messaging *)
    ("slack.list_channels", fixture_list "slack_channels.json" "channels" None);
    ("slack.read_messages", custom "handle_slack_read_messages");
    ("slack.post_message",
     write_action (Some [("status", JStr "posted");
                         ("message_id", JStr "slack_msg_{ts}")])
                  ["channel"; "text"] true);
    ("slack.send_dm",
     write_action (Some [("status", JStr "sent"); ("message_id", JStr "dm_{ts}")])
                  ["user"; "text"] true);
    (* Tasks *)
    ("task.list", fixture_list "tasks.json" "tasks" None);
    ("task.get", fixture_lookup "tasks.json" "id" "task_id" "task");
    ("task.create",
     write_action (Some [("status", JStr "created"); ("task_id", JStr "task_{ts}")])
                  ["title"; "description"; "assignee"; "priority"] false);
    ("task.update",
     write_action (Some [("status", JStr "updated")])
                  ["task_id"; "status"; "priority"] false);
    (* Documents *)
    ("doc.list", fixture_list "documents.json" "documents" None);
    ("doc.read", fixture_lookup "documents.json" "id" "document_id" "document");
    ("doc.create",
     write_action (Some [("status", JStr "created"); ("document_id", JStr "doc_{ts}")])
                  ["title"; "content"] false);
    (* Contacts *)
    ("contacts.list", fixture_list "contacts.json" "contacts" None);
    ("contacts.get", fixture_lookup "contacts.json" "id" "contact_id" "contact");
    (* Memory / Notes *)
    ("memory.read", custom "handle_memory_read");
    ("memory.write", write_action (Some [("success", JBool true)]) ["path"] false);
    (* Web Search *)
    ("search.web", custom "handle_search_web") ].

(** [d.get(k)] on a table keyed by strings. *)
Fixpoint table_get {A} (t : list (string * A)) (k : string) : option A :=
  match t with
  | [] => None
  | (k', a) :: t' => if String.eqb k' k then Some a else table_get t' k
  end.

(** [sorted(names)], by code points. *)
Fixpoint insert_sorted (s : string) (l : list string) : list string :=
  match l with
  | [] => [s]
  | x :: l' => if String.leb s x then s :: l else x :: insert_sorted s l'
  end.

Fixpoint sorted (l : list string) : list string :=
  match l with
  | [] => []
  | s :: l' => insert_sorted s (sorted l')
  end.

(* ------------------------------------------------------------------------- *)
(** ** Generic tool dispatch *)

(** The body of a request to [/tools/...], by what [json.loads] makes of it,
    for the bodies it settles: it returns a document or raises a decoding
    error.  ([Wire.body] adds the bodies on which it raises something else.) *)
Inductive request_body : Type :=
| EmptyBody                    (* no byte *)
| Malformed (raw : string)     (* json.loads raises json.JSONDecodeError, or
                                  another ValueError on bytes that are not UTF-8 *)
| Document (v : json).         (* json.loads returns v *)

(** [data = json.loads(body) if body else {}], with [{}] on a decoding error
    (lines 368-373, for the bodies of [request_body]). *)
Definition parse_body (body : request_body) : json :=
  match body with
  | EmptyBody => JObj []
  | Malformed _ => JObj []
  | Document v => v
  end.

(** The summary transform of [fixture_list]. *)
Definition inbox_summary (msg : json) : outcome json :=
  let? id := py_get msg "id" JNull in
  let? sender := py_get msg "sender" JNull in
  let? subject := py_get msg "subject" JNull in
  let? body := py_get msg "body" (JStr "") in
  let? received_ts := py_get msg "received_ts" (JStr "") in
  let? labels := py_get msg "labels" (JArr []) in
  let? is_urgent := py_get msg "is_urgent" (JBool false) in
  Ok (JObj [("id", id); ("sender", sender); ("subject", subject);
            ("snippet", JStr (take 100 (py_str body)));
            ("received_ts", received_ts); ("labels", labels);
            ("is_urgent", is_urgent)]).

Definition run_fixture_list (w : world) (fixture response_key : string)
           (transform : option string) : outcome json :=
  let? loaded := load_fixture w (CURRENT_SCENARIO w) fixture in
  let fixture_data := match loaded with JNull => JArr [] | _ => loaded end in
  let? fixture_data :=
    match transform with
    | Some t =>
        if String.eqb t "inbox_summary" then
          let? items := py_iter fixture_data in
          let? summaries := omap inbox_summary items in
          Ok (JArr summaries)
        else Ok fixture_data
    | None => Ok fixture_data
    end in
  Ok (JObj (dict_literal [(response_key, fixture_data)])).

(** [next((x for x in items if str(x.get(field)) == str(lookup_val)), None)]. *)
Fixpoint first_match (field : string) (lookup_val : json) (items : list json)
  : outcome json :=
  match items with
  | [] => Ok JNull
  | x :: rest =>
      let? v := py_get x field JNull in
      if String.eqb (py_str v) (py_str lookup_val) then Ok x
      else first_match field lookup_val rest
  end.

Definition is_not_none (v : json) : bool :=
  match v with JNull => false | _ => true end.

Definition run_fixture_lookup (w : world) (data : json)
           (fixture lookup_field param_field response_key : string)
  : outcome json :=
  let? fixture_data := load_fixture w (CURRENT_SCENARIO w) fixture in
  match fixture_data with
  | JNull =>
      Ok (JObj (dict_literal [(response_key, JNull); ("found", JBool false)]))
  | _ =>
      let? lookup_val := _flexget data [param_field; "id"] (JStr "") in
      let? items := py_iter fixture_data in
      let? item := first_match lookup_field lookup_val items in
      Ok (JObj (dict_literal [(response_key, item);
                              ("found", JBool (is_not_none item))]))
  end.

(** The keyword arguments of [val.format(ts=ts, **data)]: [data] must be a
    mapping, and must not bind [ts] a second time. *)
Definition format_kwargs (ts : string) (data : json) : outcome pydict :=
  match data with
  | JObj d => if dict_mem d "ts" then Raise TypeError else Ok (("ts", JStr ts) :: d)
  | _ => Raise TypeError
  end.

(** The [try]/[except (KeyError, IndexError)] around [val.format]. *)
Definition fill_template (ts : string) (data : json) (val : string)
  : outcome string :=
  let? kwargs := format_kwargs ts data in
  match str_format val kwargs with
  | Formatted s => Ok s
  | FmtFail FmtKeyError => Ok (replace "{ts}" ts val)
  | FmtFail FmtIndexError => Ok (replace "{ts}" ts val)
  | FmtFail FmtValueError => Raise ValueError
  | FmtFail Unmodelled => Raise NotModelled
  end.

(** [for key, val in list(result.items()): ...]. *)
Fixpoint template_loop (ts : string) (data : json) (items : list (string * json))
         (result : pydict) : outcome pydict :=
  match items with
  | [] => Ok result
  | (key, val) :: rest =>
      match val with
      | JStr s =>
          if contains "{" s then
            let? s' := fill_template ts data s in
            template_loop ts data rest (dict_set result key (JStr s'))
          else template_loop ts data rest result
      | _ => template_loop ts data rest result
      end
  end.

(** [for field in echo_fields: if field in data: result[field] = data[field]]. *)
Fixpoint echo_loop (data : json) (fields : list string) (result : pydict)
  : outcome pydict :=
  match fields with
  | [] => Ok result
  | field :: rest =>
      let? present := py_contains data field in
      if present then
        let? v := py_getitem data field in
        echo_loop data rest (dict_set result field v)
      else echo_loop data rest result
  end.

Definition run_write_action (data : json) (default_response : option pydict)
           (echo_fields : list string) : M json :=
  let result := match default_response with
                | Some d => d
                | None => [("success", JBool true)]
                end in
  let! t := now in
  let ts := strftime_ts t in
  reading (fun _ =>
    let? result := template_loop ts data result result in
    let? result := echo_loop data echo_fields result in
    Ok (JObj result)).

Definition run_custom (data : json) (handler_name : string) : M json :=
  match table_get CUSTOM_HANDLERS handler_name with
  | None => raise (HTTPException 500 ("Missing handler: " ++ handler_name))
  | Some h => reading (fun w => h w data)
  end.

Definition run_behavior (t : tool_def) (data : json) : M json :=
  match t with
  | fixture_list fixture response_key transform =>
      reading (fun w => run_fixture_list w fixture response_key transform)
  | fixture_lookup fixture lookup_field param_field response_key =>
      reading (fun w => run_fixture_lookup w data fixture lookup_field
                                           param_field response_key)
  | write_action default_response echo_fields _ =>
      run_write_action data default_response echo_fields
  | custom handler_name => run_custom data handler_name
  end.

Definition unknown_tool_detail (tool_name : string) : string :=
  "Unknown tool: " ++ tool_name ++ ". Known tools: "
  ++ py_str (JArr (map JStr (sorted (map fst TOOL_CATALOG)))).

(** [handle_tool(tool_name, request)]: the result is the content of the
    [JSONResponse], which is built once the call is logged. *)
Definition handle_tool (tool_name : string) (body : request_body) : M json :=
  match table_get TOOL_CATALOG tool_name with
  | None => raise (HTTPException 404 (unknown_tool_detail tool_name))
  | Some tool_def =>
      let data := parse_body body in
      let! result := run_behavior tool_def data in
      let! _ := log_tool_call tool_name data result in
      ret result
  end.

(* ------------------------------------------------------------------------- *)
(** ** Middleware: the log of every request to [/tools/...] *)

Record response : Type := { status : Z; content : json }.

(** [await call_next(request)]: the route handler behind the framework's
    exception layer.  A returned result is a 200 response; an [HTTPException]
    is turned into a response with its status and [{"detail": ...}] by the
    exception handlers, which run inside the middleware; any other exception
    is raised again by [call_next] in the middleware (Starlette's
    [BaseHTTPMiddleware], which [@app.middleware("http")] installs). *)
Definition call_next (tool_name : string) (body : request_body) : M response :=
  fun w =>
    match handle_tool tool_name body w with
    | (Ok result, w') => (Ok {| status := 200; content := result |}, w')
    | (Raise (HTTPException code detail), w') =>
        (Ok {| status := code; content := JObj [("detail", JStr detail)] |}, w')
    | (Raise e, w') => (Raise e, w')
    end.

(** [body_json] of the middleware (lines 326-329, for the bodies of
    [request_body]). *)
Definition logged_body (body : request_body) : json :=
  match body with
  | EmptyBody => JNull
  | Malformed raw => JObj [("_raw", JStr raw)]
  | Document v => v
  end.

(** The middleware around a request whose path is ["/tools/" ++ tool_name]:
    that is [request.url.path] when the path is sent without percent escapes
    ([Wire.log_all_requests_middleware] has the general case). *)
Definition log_all_requests_middleware (tool_name : string)
           (body : request_body) : M response :=
  let body_json := logged_body body in
  let! resp := call_next tool_name body in
  let! t := now in
  fun w =>
    let entry :=
      JObj [("ts", JStr (isoformat t));
            ("tool", JStr (replace "/tools/" "" ("/tools/" ++ tool_name)));
            ("request_body", body_json);
            ("status_code", JNum (status resp));
            ("success", JBool ((200 <=? status resp)%Z && (status resp <? 300)%Z))] in
    let w1 := with_all_requests (all_requests w ++ [entry])%list w in
    let debug_log := CURRENT_SCENARIO w1 ++ "_all_requests.jsonl" in
    (Ok resp, with_log_files (file_append (log_files w1) debug_log entry) w1).

(** A request [POST /tools/{tool_name}] as the client sees it: an exception
    that leaves the middleware is answered by the server's 500 page. *)
Definition post_tool (tool_name : string) (body : request_body) (w : world)
  : response * world :=
  match log_all_requests_middleware tool_name body w with
  | (Ok resp, w') => (resp, w')
  | (Raise _, w') =>
      ({| status := 500; content := JStr "Internal Server Error" |}, w')
  end.

(* ------------------------------------------------------------------------- *)
(** ** The request as it arrives *)

(** [isinstance(e, (json.JSONDecodeError, ValueError))]: what both [except]
    clauses around [json.loads] catch.  [RecursionError] is a [RuntimeError]. *)
Definition is_ValueError (e : exn) : bool :=
  match e with
  | ValueError | JSONDecodeError => true
  | _ => false
  end.

(** [try: x  except (json.JSONDecodeError, ValueError): fallback]. *)
Definition except_ValueError {A} (x : outcome A) (fallback : A) : outcome A :=
  match x with
  | Ok a => Ok a
  | Raise e => if is_ValueError e then Ok fallback else Raise e
  end.

Module Wire.

(** The bytes of a body, by what [json.loads] does with them. *)
Inductive body : Type :=
| Settled (b : request_body)   (* a document or a decoding error, or no byte *)
| Overnested (raw : string).   (* brackets nested deeper than the interpreter's
                                  recursion limit: json.loads raises
                                  RecursionError *)

(** A request [POST /tools/...]: [request.url.path], in which percent
    escapes are kept, and the [tool_name] the router hands to [handle_tool],
    in which they are decoded (for the name [a?b], requested as
    [/tools/a%3Fb], the path is [/tools/a%3Fb]). *)
Record tool_request : Type := {
  url_path : string;
  tool_name : string;
  payload : body
}.

Definition has_bytes (b : body) : bool :=
  match b with
  | Settled EmptyBody => false
  | _ => true
  end.

(** [json.loads(body)]. *)
Definition json_loads (b : body) : outcome json :=
  match b with
  | Settled EmptyBody => Raise JSONDecodeError
  | Settled (Malformed _) => Raise JSONDecodeError
  | Settled (Document v) => Ok v
  | Overnested _ => Raise RecursionError
  end.

(** [body_bytes.decode("utf-8", errors="replace")]. *)
Definition decoded (b : body) : string :=
  match b with
  | Settled (Malformed raw) => raw
  | Overnested raw => raw
  | _ => ""
  end.

(** Lines 368-373 of [handle_tool]. *)
Definition parse_body (b : body) : outcome json :=
  except_ValueError (if has_bytes b then json_loads b else Ok (JObj []))
                    (JObj []).

(** [handle_tool(tool_name, request)]. *)
Definition handle_tool (tool_name : string) (b : body) : M json :=
  match table_get TOOL_CATALOG tool_name with
  | None => raise (HTTPException 404 (unknown_tool_detail tool_name))
  | Some tool_def =>
      let! data := reading (fun _ => parse_body b) in
      let! result := run_behavior tool_def data in
      let! _ := log_tool_call tool_name data result in
      ret result
  end.

(** [await call_next(request)], as [call_next] above. *)
Definition call_next (r : tool_request) : M response :=
  fun w =>
    match handle_tool (tool_name r) (payload r) w with
    | (Ok result, w') => (Ok {| status := 200; content := result |}, w')
    | (Raise (HTTPException code detail), w') =>
        (Ok {| status := code; content := JObj [("detail", JStr detail)] |}, w')
    | (Raise e, w') => (Raise e, w')
    end.

(** Lines 326-329 of the middleware. *)
Definition body_json (b : body) : outcome json :=
  except_ValueError (if has_bytes b then json_loads b else Ok JNull)
                    (JObj [("_raw", JStr (decoded b))]).

(** [log_all_requests_middleware(request, call_next)] for a [POST]. *)
Definition log_all_requests_middleware (r : tool_request) : M response :=
  let to_tools := startswith "/tools/" (url_path r) in
  let! body_json :=
    reading (fun _ => if to_tools then body_json (payload r) else Ok JNull) in
  let! resp := call_next r in
  if to_tools then
    let! t := now in
    fun w =>
      let entry :=
        JObj [("ts", JStr (isoformat t));
              ("tool", JStr (replace "/tools/" "" (url_path r)));
              ("request_body", body_json);
              ("status_code", JNum (status resp));
              ("success",
               JBool ((200 <=? status resp)%Z && (status resp <? 300)%Z))] in
      let w1 := with_all_requests (all_requests w ++ [entry])%list w in
      let debug_log := CURRENT_SCENARIO w1 ++ "_all_requests.jsonl" in
      (Ok resp, with_log_files (file_append (log_files w1) debug_log entry) w1)
  else ret resp.

(** The request as the client sees it. *)
Definition post_tool (r : tool_request) (w : world) : response * world :=
  match log_all_requests_middleware r w with
  | (Ok resp, w') => (resp, w')
  | (Raise _, w') =>
      ({| status := 500; content := JStr "Internal Server Error" |}, w')
  end.

(** A request sent without percent escapes, with a body [json.loads]
    settles. *)
Definition plain_request (tool_name : string) (b : request_body) : tool_request :=
  {| url_path := "/tools/" ++ tool_name; tool_name := tool_name;
     payload := Settled b |}.

End Wire.

(* ------------------------------------------------------------------------- *)
(** ** Control endpoints *)

Definition health (w : world) : json :=
  JObj [("status", JStr "ok"); ("scenario", JStr (CURRENT_SCENARIO w));
        ("tools_available", JNum (Z.of_nat (List.length TOOL_CATALOG)))].

(** [set_scenario(scenario)]. *)
Definition set_scenario (scenario : string) : M json :=
  fun w =>
    let w1 := with_scenario scenario w in
    let w2 := with_tool_calls [] w1 in
    let w3 := with_all_requests [] w2 in
    (Ok (JObj [("scenario", JStr (CURRENT_SCENARIO w3))]), w3).

Definition get_tool_calls (w : world) : json :=
  JObj [("calls", JArr (tool_calls w))].

Definition request_succeeded (r : json) : bool :=
  match r with
  | JObj d => match dict_get d "success" with Some v => truthy v | None => false end
  | _ => false
  end.

Definition get_all_requests (w : world) : json :=
  JObj [("requests", JArr (all_requests w));
        ("summary",
         JObj [("total", JNum (Z.of_nat (List.length (all_requests w))));
               ("success",
                JNum (Z.of_nat (List.length (filter request_succeeded (all_requests w)))));
               ("failed",
                JNum (Z.of_nat (List.length
                   (filter (fun r => negb (request_succeeded r)) (all_requests w)))))])].

Definition irreversible_of (t : tool_def) : bool :=
  match t with write_action _ _ b => b | _ => false end.

Definition fixture_of (t : tool_def) : json :=
  match t with
  | fixture_list f _ _ => JStr f
  | fixture_lookup f _ _ _ => JStr f
  | _ => JNull
  end.

Definition behavior_of (t : tool_def) : string :=
  match t with
  | fixture_list _ _ _ => "fixture_list"
  | fixture_lookup _ _ _ _ => "fixture_lookup"
  | write_action _ _ _ => "write_action"
  | custom _ => "custom"
  end.

Definition list_tools : json :=
  let tools :=
    map (fun nd => JObj [("name", JStr (fst nd));
                         ("behavior", JStr (behavior_of (snd nd)));
                         ("irreversible", JBool (irreversible_of (snd nd)));
                         ("fixture", fixture_of (snd nd))]) TOOL_CATALOG in
  JObj [("tools", JArr tools); ("count", JNum (Z.of_nat (List.length tools)))].

(* ------------------------------------------------------------------------- *)
(** ** A sample process *)

Definition noon : datetime :=
  {| year := 2024; month := 3; day := 9; hour := 12; minute := 0; second := 5;
     microsecond := 0 |}.

Definition sample_inbox : json :=
  JArr [JObj [("id", JStr "41"); ("sender", JStr "b@x.com"); ("subject", JStr "Yo")];
        JObj [("id", JNum 42); ("sender", JStr "a@x.com"); ("subject", JStr "Hi")]].

Definition sample_root : node :=
  Dir [("etc", Dir [("passwd", File "root:x:0:0" None)]);
       ("srv", Dir [("secret.txt", File "s3cret" None);
                    ("fixtures",
                     Dir [("inbox_triage",
                           Dir [("inbox.json", File "[...]" (Some sample_inbox));
                                ("memory", Dir [("notes.md", File "remember" None)])]);
                          ("standup",
                           Dir [("calendar.json",
                                 File "[...]"
                                      (Some (JArr [JObj [("title", JStr "Standup")]])))])])])].

Definition sample_world : world :=
  {| FIXTURES_PATH := Path "./fixtures";
     CURRENT_SCENARIO := "inbox_triage";
     tool_calls := []; all_requests := []; log_files := [];
     root := sample_root; cwd := ["srv"];
     clock := fun _ => noon; ticks := 0 |}.

(* ------------------------------------------------------------------------- *)
(** ** Vocabulary of the properties *)

(** The path of a fixture file. *)
Definition fixture_path (w : world) (scenario filename : string) : path :=
  path_join (path_join (FIXTURES_PATH w) scenario) filename.

(** A value that is there and is not [None]. *)
Definition non_null (o : option json) : option json :=
  match o with
  | Some JNull => None
  | _ => o
  end.

(** The first non-null among [d[param_field]] and [d["id"]], else [""]. *)
Definition lookup_value (d : pydict) (param_field : string) : json :=
  match non_null (dict_get d param_field) with
  | Some v => v
  | None => match non_null (dict_get d "id") with
            | Some v => v
            | None => JStr ""
            end
  end.

Definition is_record (v : json) : Prop :=
  match v with JObj _ => True | _ => False end.

(** The lookup field of a record, [None] when the record has none. *)
Definition field_of (field : string) (r : json) : json :=
  match r with
  | JObj m => match dict_get m field with Some v => v | None => JNull end
  | _ => JNull
  end.

(** String comparison of a record's lookup field with the lookup value. *)
Definition matches (field : string) (lookup_val r : json) : Prop :=
  py_str (field_of field r) = py_str lookup_val.

(** What a request leaves alone: the configuration, the scenario and the
    files. *)
Definition same_context (w w' : world) : Prop :=
  FIXTURES_PATH w' = FIXTURES_PATH w /\ CURRENT_SCENARIO w' = CURRENT_SCENARIO w
  /\ root w' = root w /\ cwd w' = cwd w.

(** The entry [log_tool_call] writes at clock reading [t]. *)
Definition call_entry (t : datetime) (tool : string) (args result : json) : json :=
  JObj [("ts", JStr (isoformat t)); ("tool", JStr tool); ("args", args);
        ("result_summary", JStr (take 200 (py_str result)))].

(** The entry the middleware writes at clock reading [t] for a response with
    status [code]. *)
Definition request_entry (t : datetime) (tool_name : string)
           (body : request_body) (code : Z) : json :=
  JObj [("ts", JStr (isoformat t));
        ("tool", JStr (replace "/tools/" "" ("/tools/" ++ tool_name)));
        ("request_body", logged_body body);
        ("status_code", JNum code);
        ("success", JBool ((200 <=? code)%Z && (code <? 300)%Z))].

(** What is at the path of a fixture of the current scenario. *)
Definition fixture_file (w : world) (filename : string) : option node :=
  stat (root w) (cwd w) (fixture_path w (CURRENT_SCENARIO w) filename).

(** A list fixture as the data model has it: no file, or a JSON array of
    records. *)
Definition list_fixture (o : option node) : Prop :=
  match o with
  | None => True
  | Some (File _ (Some (JArr records))) => Forall is_record records
  | _ => False
  end.

(** A fixture of a custom handler: no file, or any JSON document. *)
Definition document_fixture (o : option node) : Prop :=
  match o with
  | None => True
  | Some (File _ (Some _)) => True
  | _ => False
  end.

(** The fixture files the catalog names. *)
Definition catalog_fixtures : list string :=
  ["inbox.json"; "calendar.json"; "slack_channels.json"; "tasks.json";
   "documents.json"; "contacts.json"].

(** Every fixture of the current scenario is absent or well formed. *)
Definition fixtures_well_formed (w : world) : Prop :=
  (forall f, In f catalog_fixtures -> list_fixture (fixture_file w f))
  /\ list_fixture (fixture_file w "slack_messages.json")
  /\ document_fixture (fixture_file w "web_search_results.json").

(** The query of a web search: the first non-null among [d["query"]] and
    [d["q"]], else [""]. *)
Definition search_query (d : pydict) : json :=
  match non_null (dict_get d "query") with
  | Some v => v
  | None => match non_null (dict_get d "q") with
            | Some v => v
            | None => JStr ""
            end
  end.


(** A world whose only fixture is one message of the channel [general]. *)
Definition one_message_world : world :=
  {| FIXTURES_PATH := Path "./fixtures";
     CURRENT_SCENARIO := "inbox_triage";
     tool_calls := []; all_requests := []; log_files := [];
     root := Dir [("fixtures",
                   Dir [("inbox_triage",
                         Dir [("slack_messages.json",
                               File "[...]"
                                    (Some (JArr [JObj [("channel", JStr "general");
                                                       ("text", JStr "hello")]])))])])];
     cwd := [];
     clock := fun _ => noon; ticks := 0 |}.

(** No channel argument: neither [channel] nor [channel_id] has a non-null
    value. *)
Definition no_channel (d : pydict) : Prop :=
  non_null (dict_get d "channel") = None
  /\ non_null (dict_get d "channel_id") = None.

(** The channel of a message record, stripped of its leading markers. *)
Definition stripped_channel (m : json) : string :=
  match field_of "channel" m with
  | JStr s => lstrip "#" s
  | _ => ""
  end.

(** A message record: an object whose [channel], if any, is a string. *)
Definition is_message (m : json) : Prop :=
  match m with
  | JObj f => match dict_get f "channel" with
              | Some (JStr _) | None => True
              | Some _ => False
              end
  | _ => False
  end.

(** What the echo loop makes of a response for an argument object [d]: each
    field of the echo list that [d] has is set to its value in [d]. *)
Definition echoed (d : pydict) (fields : list string) (result : pydict) : pydict :=
  fold_left (fun res f => match dict_get d f with
                          | Some v => dict_set res f v
                          | None => res
                          end) fields result.

(** A template has a placeholder: one of its values is a string with a brace. *)
Definition has_placeholder (template : pydict) : Prop :=
  exists key s, In (key, JStr s) template /\ contains "{" s = true.

(** The template of a [write_action] entry. *)
Definition template_of (default_response : option pydict) : pydict :=
  match default_response with
  | Some d => d
  | None => [("success", JBool true)]
  end.

Definition all_digits (s : string) : bool :=
  forallb is_digit (list_ascii_of_string s).

(** A template value with its [{ts}] placeholders replaced. *)
Definition filled (ts : string) (v : json) : json :=
  match v with
  | JStr s => if contains "{" s then JStr (replace "{ts}" ts s) else v
  | _ => v
  end.

Definition filled_template (ts : string) (template : pydict) : pydict :=
  map (fun kv => (fst kv, filled ts (snd kv))) template.

(** The 500 page of the server. *)
Definition internal_server_error : response :=
  {| status := 500; content := JStr "Internal Server Error" |}.

(** The path a note is asked by: the first non-null among [d["path"]] and
    [d["key"]], else [""]. *)
Definition requested_path (d : pydict) : json :=
  match non_null (dict_get d "path") with
  | Some v => v
  | None => match non_null (dict_get d "key") with
            | Some v => v
            | None => JStr ""
            end
  end.

(** The name of a directory entry: not empty, not [.], without a slash. *)
Definition no_slash (n : string) : bool :=
  forallb (fun c => negb (Ascii.eqb c "/")) (list_ascii_of_string n).

Definition valid_name (n : string) : bool :=
  negb (String.eqb n "") && negb (String.eqb n ".") && no_slash n.

(** The parts that lead from the root to the memory directory of the current
    scenario. *)
Definition memory_dir_parts (w : world) : list string :=
  let m := path_join (path_join (FIXTURES_PATH w) (CURRENT_SCENARIO w)) "memory" in
  if absolute m then parts m else (cwd w ++ parts m)%list.

(** [walk], with the ancestors of the node it ends at. *)
Fixpoint walk_to (stack : list node) (cur : node) (ps : list string)
  : option (list node * node) :=
  match ps with
  | [] => Some (stack, cur)
  | p :: rest =>
      match cur with
      | File _ _ => None
      | Dir entries =>
          if String.eqb p ".." then
            match stack with
            | [] => walk_to [] cur rest
            | up :: stack' => walk_to stack' up rest
            end
          else
            match entry p entries with
            | Some child => walk_to (cur :: stack) child rest
            | None => None
            end
      end
  end.

Definition is_dir (n : node) : Prop :=
  match n with Dir _ => True | File _ _ => False end.

(** The answer of [handle_memory_read] that discloses [text]. *)
Definition disclosed (text : string) : json :=
  JObj [("content", JStr text); ("exists", JBool true)].

(** The components [Path] keeps. *)
Definition kept (p : string) : bool :=
  negb (String.eqb p "" || String.eqb p ".").

(** The node at the bottom of a chain of ancestors. *)
Fixpoint bottom (stack : list node) (cur : node) : node :=
  match stack with
  | [] => cur
  | up :: stack' => bottom stack' up
  end.

(** A key with no value, or with the value [None]. *)
Definition unset (d : pydict) (k : string) : Prop :=
  non_null (dict_get d k) = None.

(** The first non-null value among the keys, in their order, else the
    default. *)
Fixpoint first_non_null (d : pydict) (keys : list string) (default : json)
  : json :=
  match keys with
  | [] => default
  | k :: keys' =>
      match non_null (dict_get d k) with
      | Some v => v
      | None => first_non_null d keys' default
      end
  end.

(** The aliases [handle_email_draft] accepts, in priority order. *)
Definition message_id_aliases : list string :=
  ["message_id"; "messageId"; "email_id"; "emailId"; "id"].

Definition instructions_aliases : list string :=
  ["instructions"; "body"; "content"; "text"; "reply"; "message"].

(** The keys of a message summary, in order. *)
Definition summary_keys : list string :=
  ["id"; "sender"; "subject"; "snippet"; "received_ts"; "labels"; "is_urgent"].

(** A message summary: the seven keys, a snippet of at most 100 characters. *)
Definition summary_shape (s : json) : Prop :=
  exists fields snippet,
    s = JObj fields /\ dict_keys fields = summary_keys
    /\ dict_get fields "snippet" = Some (JStr snippet)
    /\ (String.length snippet <= 100)%nat.

(** The summary of a record that has no field at all. *)
Definition blank_summary : json :=
  JObj [("id", JNull); ("sender", JNull); ("subject", JNull);
        ("snippet", JStr ""); ("received_ts", JStr "");
        ("labels", JArr []); ("is_urgent", JBool false)].

(** The entries written so far to a log file. *)
Fixpoint file_entries (files : list (string * list json)) (name : string)
  : list json :=
  match files with
  | [] => []
  | (n, es) :: rest => if String.eqb n name then es else file_entries rest name
  end.

(** The two log files of a scenario. *)
Definition calls_log (scenario : string) : string := scenario ++ "_calls.jsonl".
Definition requests_log (scenario : string) : string :=
  scenario ++ "_all_requests.jsonl".

(** An outcome that is not an [HTTPException]. *)
Definition plain {A} (o : outcome A) : Prop :=
  match o with
  | Raise (HTTPException _ _) => False
  | _ => True
  end.

(** The requests that change the process. *)
Inductive request : Type :=
| PostTool (tool_name : string) (body : request_body)   (* POST /tools/{tool_name} *)
| SetScenario (scenario : string).                      (* POST /set_scenario/{scenario} *)

(** The process after a request, and after a sequence of requests. *)
Definition serve (w : world) (r : request) : world :=
  match r with
  | PostTool tool_name body => snd (post_tool tool_name body w)
  | SetScenario scenario => snd (set_scenario scenario w)
  end.

Definition serve_all (w : world) (rs : list request) : world :=
  fold_left serve rs w.

(** The process as it starts: both in-memory logs are empty. *)
Definition started (w : world) : Prop :=
  tool_calls w = [] /\ all_requests w = [].

(** The three ways a request to a tool ends, with everything it changes. *)
Inductive tool_step (tool_name : string) (body : request_body) (w w' : world)
  : response -> Prop :=
| step_returned t1 t2 result :
    In tool_name (map fst TOOL_CATALOG) ->
    fst (handle_tool tool_name body w) = Ok result ->
    tool_calls w'
    = (tool_calls w ++ [call_entry t1 tool_name (parse_body body) result])%list ->
    all_requests w'
    = (all_requests w ++ [request_entry t2 tool_name body 200])%list ->
    log_files w'
    = file_append
        (file_append (log_files w) (calls_log (CURRENT_SCENARIO w))
                     (call_entry t1 tool_name (parse_body body) result))
        (requests_log (CURRENT_SCENARIO w))
        (request_entry t2 tool_name body 200) ->
    tool_step tool_name body w w' {| status := 200; content := result |}
| step_unknown t2 :
    ~ In tool_name (map fst TOOL_CATALOG) ->
    tool_calls w' = tool_calls w ->
    all_requests w'
    = (all_requests w ++ [request_entry t2 tool_name body 404])%list ->
    log_files w'
    = file_append (log_files w) (requests_log (CURRENT_SCENARIO w))
                  (request_entry t2 tool_name body 404) ->
    tool_step tool_name body w w'
              {| status := 404;
                 content := JObj [("detail", JStr (unknown_tool_detail tool_name))] |}
| step_crashed e :
    In tool_name (map fst TOOL_CATALOG) ->
    fst (handle_tool tool_name body w) = Raise e ->
    (forall code detail, e <> HTTPException code detail) ->
    tool_calls w' = tool_calls w ->
    all_requests w' = all_requests w ->
    log_files w' = log_files w ->
    tool_step tool_name body w w' internal_server_error.

(** The in-memory logs are the tails of the two log files of the current
    scenario. *)
Definition logs_mirrored (w : world) : Prop :=
  (exists older,
      file_entries (log_files w) (calls_log (CURRENT_SCENARIO w))
      = (older ++ tool_calls w)%list)
  /\ (exists older,
         file_entries (log_files w) (requests_log (CURRENT_SCENARIO w))
         = (older ++ all_requests w)%list).

(** An entry of the log of successful calls: four fields, a tool of the
    catalog, a result summary of at most 200 characters. *)
Definition logged_call (e : json) : Prop :=
  exists ts tool args summary,
    e = JObj [("ts", JStr ts); ("tool", JStr tool); ("args", args);
              ("result_summary", JStr summary)]
    /\ In tool (map fst TOOL_CATALOG)
    /\ (String.length summary <= 200)%nat.


(** A tool that only reads: its entry, if any, is not a [write_action]. *)
Definition read_tool (tool_name : string) : Prop :=
  match table_get TOOL_CATALOG tool_name with
  | Some (write_action _ _ _) => False
  | _ => True
  end.

(** A sequence of requests to tools, without a scenario switch. *)
Definition only_tools (rs : list request) : Prop :=
  Forall (fun r => match r with PostTool _ _ => True | SetScenario _ => False end)
         rs.

(** The answer of [handle_memory_read] when nothing could be read. *)
Definition missing_note : json :=
  JObj [("content", JNull); ("exists", JBool false)].

(** The path of a note, as [handle_memory_read] joins it. *)
Definition note_path (w : world) (s : string) : path :=
  path_join (path_join (path_join (FIXTURES_PATH w) (CURRENT_SCENARIO w))
                       "memory") s.

Definition is_string (v : json) : Prop :=
  match v with JStr _ => True | _ => False end.

(** A query that cannot be a dict key: a list or a dict. *)
Definition unhashable (v : json) : Prop :=
  match v with JArr _ | JObj _ => True | _ => False end.


(** A world whose inbox fixture has a record followed by an element that is
    not a record. *)
Definition junk_tail_world : world :=
  {| FIXTURES_PATH := Path "./fixtures";
     CURRENT_SCENARIO := "inbox_triage";
     tool_calls := []; all_requests := []; log_files := [];
     root := Dir [("fixtures",
                   Dir [("inbox_triage",
                         Dir [("inbox.json",
                               File "[...]"
                                    (Some (JArr [JObj [("id", JNum 7)];
                                                 JStr "junk"])))])])];
     cwd := [];
     clock := fun _ => noon; ticks := 0 |}.

(** A world whose only fixture is a mapping of search results. *)
Definition search_map_world : world :=
  {| FIXTURES_PATH := Path "./fixtures";
     CURRENT_SCENARIO := "inbox_triage";
     tool_calls := []; all_requests := []; log_files := [];
     root := Dir [("fixtures",
                   Dir [("inbox_triage",
                         Dir [("web_search_results.json",
                               File "{...}"
                                    (Some (JObj [("rocq", JArr [JStr "hit"])])))])])];
     cwd := [];
     clock := fun _ => noon; ticks := 0 |}.

(** The directory of the current scenario. *)
Definition scenario_dir (w : world) : path :=
  path_join (FIXTURES_PATH w) (CURRENT_SCENARIO w).

(** A path continued by further parts. *)
Definition path_extend (p : path) (extra : list string) : path :=
  {| absolute := absolute p; parts := (parts p ++ extra)%list |}.

(* ------------------------------------------------------------------------- *)
(** ** The episode runner ([scripts/run_episode_openai.py])

    The runner reaches the server over HTTP.  Its requests are modelled on
    the process of the server, which is taken to be up: the branch of each
    helper for a transport error has no counterpart here. *)

(** A parameter of a tool schema. *)
Definition schema_param (type description : string) : json :=
  JObj [("type", JStr type); ("description", JStr description)].

(** [{"type": "function", "function": {"name": ..., "description": ...,
    "parameters": {"type": "object", "properties": ..., "required": ...}}}]. *)
Definition tool_schema (name description : string) (properties : pydict)
           (required : list string) : json :=
  JObj [("type", JStr "function");
        ("function",
         JObj [("name", JStr name);
               ("description", JStr description);
               ("parameters",
                JObj [("type", JStr "object");
                      ("properties", JObj properties);
                      ("required", JArr (map JStr required))])])].

Definition TOOL_SCHEMAS : list json :=
  [ tool_schema "exec"
      ("Execute a shell command. Supports: "
       ++ "himalaya (email: envelope list, message read <id>, template write, message send), "
       ++ "curl to Notion API (task queries, page get/create), "
       ++ "curl to Google Calendar API or gcalcli (calendar events), "
       ++ "gh (GitHub CLI).")
      [("command", schema_param "string" "The shell command to execute")]
      ["command"];
    tool_schema "slack"
      ("Interact with Slack. Use 'action' to specify the operation: "
       ++ "readMessages (channelId, limit), sendMessage (to, content), "
       ++ "react (channelId, messageId, emoji), memberInfo (userId), listPins, emojiList.")
      [("action", schema_param "string"
          "Action: readMessages, sendMessage, react, memberInfo, listPins, emojiList");
       ("channelId", schema_param "string"
          "Channel ID (e.g. C_ENG, C_INCIDENTS, C_GENERAL)");
       ("to", schema_param "string" "Channel or user to send to");
       ("content", schema_param "string" "Message content");
       ("limit", schema_param "integer" "Max messages to return");
       ("userId", schema_param "string" "User ID for memberInfo");
       ("messageId", schema_param "string" "Message ID");
       ("emoji", schema_param "string" "Emoji name")]
      ["action"];
    tool_schema "memory_search"
      "Search memory files by query. Returns matching snippets from stored notes."
      [("query", schema_param "string" "Search query");
       ("maxResults", schema_param "integer" "Max results to return")]
      ["query"];
    tool_schema "memory_get"
      "Read a specific file from memory storage by path."
      [("path", schema_param "string"
          "File path to read (e.g. goals.md, sprint_state.json)");
       ("from", schema_param "integer" "Start line number");
       ("lines", schema_param "integer" "Number of lines to read")]
      ["path"];
    tool_schema "web_search"
      "Search the web. Returns a list of results with title, URL, and snippet."
      [("query", schema_param "string" "Search query");
       ("count", schema_param "integer" "Number of results")]
      ["query"];
    tool_schema "read"
      "Read a file from the workspace (e.g. USER.md, AGENTS.md)."
      [("path", schema_param "string" "File path relative to workspace")]
      ["path"] ].

(** The name a schema offers to the model, [schema["function"]["name"]]. *)
Definition schema_name (schema : json) : string :=
  match field_of "name" (field_of "function" schema) with
  | JStr n => n
  | _ => ""
  end.

(** The tools the model is offered. *)
Definition offered_tools : list string := map schema_name TOOL_SCHEMAS.

(** [reset_scenario(scenario)]: the answer is dropped. *)
Definition reset_scenario (scenario : string) (w : world) : world :=
  snd (set_scenario scenario w).

(** [call_mock_tool(tool_name, args)]: [args] is sent as the JSON body of
    [POST /tools/{tool_name}], and the body of the response comes back, for
    a tool name that the URL carries as it is. *)
Definition call_mock_tool (tool_name : string) (args : json) (w : world)
  : json * world :=
  let (resp, w') := post_tool tool_name (Document args) w in
  (content resp, w').

(** [get_tool_calls_log()]: [r.json().get("calls", [])] of [GET /tool_calls]. *)
Definition get_tool_calls_log (w : world) : outcome json :=
  py_get (get_tool_calls w) "calls" (JArr []).

(** [a == b] for two keys of a dict that come from JSON: [None], booleans,
    integers and strings, a boolean being equal to the integer 0 or 1. *)
Definition py_key_eqb (a b : json) : bool :=
  match a, b with
  | JNull, JNull => true
  | JStr s, JStr t => String.eqb s t
  | JNum n, JNum m => Z.eqb n m
  | JBool x, JBool y => Bool.eqb x y
  | JNum n, JBool y => Z.eqb n (if y then 1 else 0)
  | JBool x, JNum m => Z.eqb (if x then 1 else 0) m
  | _, _ => false
  end.

(** Whether a value can be a dict key. *)
Definition hashable (v : json) : bool :=
  match v with
  | JArr _ | JObj _ => false
  | _ => true
  end.

(** [counts.get(t)] and [counts[t] = n] for a dict of counts. *)
Fixpoint counts_get (counts : list (json * Z)) (t : json) : option Z :=
  match counts with
  | [] => None
  | (k, n) :: rest => if py_key_eqb k t then Some n else counts_get rest t
  end.

Fixpoint counts_set (counts : list (json * Z)) (t : json) (n : Z)
  : list (json * Z) :=
  match counts with
  | [] => [(t, n)]
  | (k, m) :: rest =>
      if py_key_eqb k t then (k, n) :: rest else (k, m) :: counts_set rest t n
  end.

(** The loop of [_count_by_type], from the counts so far. *)
Fixpoint count_loop (calls : list json) (counts : list (json * Z))
  : outcome (list (json * Z)) :=
  match calls with
  | [] => Ok counts
  | c :: rest =>
      let? t := py_get c "tool" (JStr "unknown") in
      if hashable t then
        let n := match counts_get counts t with Some n => n | None => 0%Z end in
        count_loop rest (counts_set counts t (n + 1)%Z)
      else Raise TypeError
  end.

(** [_count_by_type(calls)]. *)
Definition _count_by_type (calls : list json) : outcome (list (json * Z)) :=
  count_loop calls [].

(** The tool a call is counted under. *)
Definition counted_tool (c : json) : string :=
  match c with
  | JObj f => match dict_get f "tool" with
              | Some (JStr s) => s
              | _ => "unknown"
              end
  | _ => "unknown"
  end.

(** A call record whose tool, if it has one, is a string. *)
Definition tool_named (c : json) : Prop :=
  match c with
  | JObj f => match dict_get f "tool" with
              | Some (JStr _) | None => True
              | Some _ => False
              end
  | _ => False
  end.

(** The count of a tool name, 0 when the name is no key. *)
Definition count_of (counts : list (json * Z)) (name : string) : Z :=
  match counts_get counts (JStr name) with
  | Some n => n
  | None => 0%Z
  end.

(** The sum of the counts. *)
Definition total_count (counts : list (json * Z)) : Z :=
  fold_right (fun kn acc => (snd kn + acc)%Z) 0%Z counts.

(** The calls counted under a tool name. *)
Definition calls_of (name : string) (calls : list json) : list json :=
  filter (fun c => String.eqb (counted_tool c) name) calls.

(** The requests of an episode: one [call_mock_tool] per tool call of the
    model, with its name and arguments. *)
Definition episode_requests (calls : list (string * json)) : list request :=
  map (fun c => PostTool (fst c) (Document (snd c))) calls.

(** A world whose message fixture has a message with a numeric channel. *)
Definition numeric_channel_world : world :=
  {| FIXTURES_PATH := Path "./fixtures";
     CURRENT_SCENARIO := "inbox_triage";
     tool_calls := []; all_requests := []; log_files := [];
     root := Dir [("fixtures",
                   Dir [("inbox_triage",
                         Dir [("slack_messages.json",
                               File "[...]"
                                    (Some (JArr [JObj [("channel", JStr "general")];
                                                 JObj [("channel", JNum 7)]])))])])];
     cwd := [];
     clock := fun _ => noon; ticks := 0 |}.

(** A tool of the catalog with a custom handler. *)
Definition custom_tool (tool_name : string) : Prop :=
  exists handler_name,
    table_get TOOL_CATALOG tool_name = Some (custom handler_name).

(** Descent from a node along names, with no way up. *)
Fixpoint descend (cur : node) (names : list string) : option node :=
  match names with
  | [] => Some cur
  | n :: rest =>
      match cur with
      | File _ _ => None
      | Dir entries =>
          match entry n entries with
          | Some child => descend child rest
          | None => None
          end
      end
  end.

(** A name that is a valid entry name and is not [..]. *)
Definition plain_name (n : string) : bool :=
  valid_name n && negb (String.eqb n "..").

(** A body of [n] opening brackets. *)
Fixpoint brackets (n : nat) : string :=
  match n with
  | O => ""
  | S n' => String "[" (brackets n')
  end.

(** What [json.loads] raises on 2000 opening brackets is a [RecursionError]:
    the nesting is beyond the interpreter's recursion limit before the text
    ends. *)
Definition deep_body : Wire.body := Wire.Overnested (brackets 2000).




(** A tool that answers from the fixtures of the scenario or from its
    arguments alone: not a [write_action], and not [memory.read], which reads
    any file it is asked for. *)
Definition fixture_reader (tool_name : string) : Prop :=
  match table_get TOOL_CATALOG tool_name with
  | Some (write_action _ _ _) => False
  | Some (custom h) => h <> "handle_memory_read"
  | _ => True
  end.



(** The fixture files the tools of the catalog read. *)
Definition fixture_names : list string :=
  (catalog_fixtures ++ ["slack_messages.json"; "web_search_results.json"])%list.

(** The last character of a file name. *)
Fixpoint last_char (s : string) : option ascii :=
  match s with
  | "" => None
  | String c rest =>
      match rest with
      | "" => Some c
      | _ => last_char rest
      end
  end.

(* ------------------------------------------------------------------------- *)
(** * Properties *)

(** ** The model on concrete inputs *)

Example py_str_int : py_str (JNum 42) = "42". Proof. reflexivity. Qed.
Example py_str_neg : py_str (JNum (-7)) = "-7". Proof. reflexivity. Qed.
Example py_str_zero : py_str (JNum 0) = "0". Proof. reflexivity. Qed.
Example py_str_obj :
  py_str (JObj [("status", JStr "sent"); ("ids", JArr [JNum 1; JNull])])
  = "{'status': 'sent', 'ids': [1, None]}".
Proof. reflexivity. Qed.

Example py_repr_quote : py_repr (JStr "it's") = String (ascii_of_nat 34) ("it's" ++ String (ascii_of_nat 34) "").
Proof. reflexivity. Qed.

Example replace_ts : replace "{ts}" "T" "a_{ts}_{x}_{ts}" = "a_T_{x}_T".
Proof. reflexivity. Qed.

Example lstrip_hash : lstrip "#" "##general" = "general".
Proof. reflexivity. Qed.

Example Path_rel : Path "./fixtures" = {| absolute := false; parts := ["fixtures"] |}.
Proof. reflexivity. Qed.

Example Path_abs : Path "/etc//passwd" = {| absolute := true; parts := ["etc"; "passwd"] |}.
Proof. reflexivity. Qed.

Example path_join_abs :
  path_join (path_join (Path "./fixtures") "inbox_triage") "/etc/passwd"
  = {| absolute := true; parts := ["etc"; "passwd"] |}.
Proof. reflexivity. Qed.

Example path_join_up :
  parts (path_join (path_join (Path "fx") "memory") "../../x") = ["fx"; "memory"; ".."; ".."; "x"].
Proof. reflexivity. Qed.

Example format_ts : str_format "evt_{ts}" [("ts", JStr "20240101120000")]
                    = Formatted "evt_20240101120000".
Proof. reflexivity. Qed.

Example format_two :
  str_format "{a}-{{x}}-{n}" [("n", JNum 3); ("a", JStr "A")] = Formatted "A-{x}-3".
Proof. reflexivity. Qed.

Example format_missing : str_format "evt_{ts}_{title}" [("ts", JStr "T")] = FmtFail FmtKeyError.
Proof. reflexivity. Qed.

Example format_auto : str_format "evt_{}" [("ts", JStr "T")] = FmtFail FmtIndexError.
Proof. reflexivity. Qed.

Example format_single : str_format "evt_{ts" [("ts", JStr "T")] = FmtFail FmtValueError.
Proof. reflexivity. Qed.

Example format_key_first : str_format "{a} }" [] = FmtFail FmtKeyError.
Proof. reflexivity. Qed.

Example email_read_42 :
  fst (handle_tool "email.read" (Document (JObj [("message_id", JStr "42")])) sample_world)
  = Ok (JObj [("email", JObj [("id", JNum 42); ("sender", JStr "a@x.com");
                              ("subject", JStr "Hi")]);
              ("found", JBool true)]).
Proof. reflexivity. Qed.

Example email_read_99 :
  fst (handle_tool "email.read" (Document (JObj [("message_id", JStr "99")])) sample_world)
  = Ok (JObj [("email", JNull); ("found", JBool false)]).
Proof. reflexivity. Qed.

Example calendar_create_standup :
  fst (handle_tool "calendar.create" (Document (JObj [("title", JStr "Standup")]))
                   sample_world)
  = Ok (JObj [("status", JStr "created"); ("event_id", JStr "evt_20240309120005");
              ("title", JStr "Standup")]).
Proof. reflexivity. Qed.

Example memory_read_note :
  fst (handle_tool "memory.read" (Document (JObj [("path", JStr "notes.md")])) sample_world)
  = Ok (JObj [("content", JStr "remember"); ("exists", JBool true)]).
Proof. reflexivity. Qed.

(* ------------------------------------------------------------------------- *)
(** ** Dispatch of a known tool *)

Lemma table_get_In {A} (t : list (string * A)) k a :
  table_get t k = Some a -> In (k, a) t.
Proof.
  induction t as [|[k' a'] t IH]; simpl; [discriminate|].
  destruct (String.eqb k' k) eqn:E.
  - apply String.eqb_eq in E. intros [= ->]. left. now subst.
  - intros H. right. auto.
Qed.

Lemma log_tool_call_ok tool args result w :
  exists w', log_tool_call tool args result w = (Ok tt, w').
Proof. unfold log_tool_call, bind, now. simpl. eauto. Qed.

(** The outcome of a dispatch is the outcome of the behaviour of its entry. *)
Lemma handle_tool_known tool_name body t w :
  table_get TOOL_CATALOG tool_name = Some t ->
  fst (handle_tool tool_name body w) = fst (run_behavior t (parse_body body) w).
Proof.
  intros H. unfold handle_tool. rewrite H. unfold bind.
  destruct (run_behavior t (parse_body body) w) as [[r|e] w1]; [|reflexivity].
  destruct (log_tool_call_ok tool_name (parse_body body) r w1) as [w2 ->].
  reflexivity.
Qed.

(* ------------------------------------------------------------------------- *)
(** ** Lookup in a fixture *)

Lemma flexget_lookup_value d param_field :
  _flexget (JObj d) [param_field; "id"] (JStr "") = Ok (lookup_value d param_field).
Proof.
  unfold lookup_value, non_null. simpl.
  destruct (dict_get d param_field) as [[]|]; simpl; try reflexivity;
    destruct (dict_get d "id") as [[]|]; reflexivity.
Qed.

Lemma first_match_found field v pre r post :
  Forall is_record pre -> is_record r ->
  Forall (fun x => ~ matches field v x) pre -> matches field v r ->
  first_match field v (pre ++ r :: post) = Ok r.
Proof.
  unfold matches.
  induction pre as [|x pre IH]; simpl; intros Hrec Hr Hno Hm.
  - destruct r; try contradiction. simpl in *.
    apply String.eqb_eq in Hm. now rewrite Hm.
  - inversion Hrec; subst. inversion Hno; subst.
    destruct x; try contradiction. simpl in *.
    destruct (String.eqb _ _) eqn:E.
    + apply String.eqb_eq in E. contradiction.
    + now apply IH.
Qed.

Lemma first_match_none field v records :
  Forall is_record records ->
  Forall (fun x => ~ matches field v x) records ->
  first_match field v records = Ok JNull.
Proof.
  unfold matches.
  induction records as [|x l IH]; simpl; intros Hrec Hno; [reflexivity|].
  inversion Hrec; subst. inversion Hno; subst.
  destruct x; try contradiction. simpl in *.
  destruct (String.eqb _ _) eqn:E.
  - apply String.eqb_eq in E. contradiction.
  - now apply IH.
Qed.

Lemma load_fixture_absent w scenario filename :
  stat (root w) (cwd w) (fixture_path w scenario filename) = None ->
  load_fixture w scenario filename = Ok JNull.
Proof. unfold load_fixture, fixture_path. now intros ->. Qed.

Lemma load_fixture_doc w scenario filename text v :
  stat (root w) (cwd w) (fixture_path w scenario filename) = Some (File text (Some v)) ->
  load_fixture w scenario filename = Ok v.
Proof. unfold load_fixture, fixture_path. now intros ->. Qed.

Lemma lookup_response_key tool_name fixture lookup_field param_field response_key :
  table_get TOOL_CATALOG tool_name
  = Some (fixture_lookup fixture lookup_field param_field response_key) ->
  response_key <> "found".
Proof.
  intros H. apply table_get_In in H. simpl in H.
  repeat (destruct H as [H|H]; [inversion H; subst; discriminate|]).
  contradiction.
Qed.

Lemma dict_literal_pair k v b :
  k <> "found" ->
  dict_literal [(k, v); ("found", b)] = [(k, v); ("found", b)].
Proof.
  intros Hk. unfold dict_literal. simpl.
  destruct (String.eqb k "found") eqn:E; [|reflexivity].
  apply String.eqb_eq in E. contradiction.
Qed.

(** C1. A [fixture_lookup] tool called with an argument object: with no fixture
    file the answer is [{key: null, found: false}]; with a fixture that is a
    sequence of records, the lookup value is the first non-null of the
    primary parameter and [id] (else the empty string), and the answer holds
    the first record, in file order, whose lookup field has the same [str] as
    the lookup value, with [found: true], or [null] and [found: false] when no
    record matches.  The comparison is on strings: a record whose field is the
    number [n] matches the argument that is the text of [n]. *)
Theorem fixture_lookup_dispatch
        tool_name fixture lookup_field param_field response_key body d w :
  table_get TOOL_CATALOG tool_name
  = Some (fixture_lookup fixture lookup_field param_field response_key) ->
  parse_body body = JObj d ->
  let file := stat (root w) (cwd w) (fixture_path w (CURRENT_SCENARIO w) fixture) in
  let lookup_val := lookup_value d param_field in
  let answer := fst (handle_tool tool_name body w) in
  (file = None ->
   answer = Ok (JObj [(response_key, JNull); ("found", JBool false)]))
  /\ (forall text records,
        file = Some (File text (Some (JArr records))) ->
        Forall is_record records ->
        (forall pre r post,
            records = (pre ++ r :: post)%list ->
            Forall (fun x => ~ matches lookup_field lookup_val x) pre ->
            matches lookup_field lookup_val r ->
            answer = Ok (JObj [(response_key, r); ("found", JBool true)]))
        /\ (Forall (fun x => ~ matches lookup_field lookup_val x) records ->
            answer = Ok (JObj [(response_key, JNull); ("found", JBool false)])))
  /\ (forall n m, dict_get m lookup_field = Some (JNum n) ->
                  matches lookup_field (JStr (str_int n)) (JObj m)).
Proof.
  intros Hcat Hbody file lookup_val answer.
  pose proof (lookup_response_key _ _ _ _ _ Hcat) as Hkey.
  assert (Hans : answer = run_fixture_lookup w (JObj d) fixture lookup_field
                                             param_field response_key).
  { unfold answer. rewrite (handle_tool_known _ _ _ _ Hcat), Hbody. reflexivity. }
  split; [|split].
  - intros Habs. rewrite Hans. unfold run_fixture_lookup.
    rewrite (load_fixture_absent _ _ _ Habs). simpl.
    now rewrite dict_literal_pair.
  - intros text records Hfile Hrec.
    assert (Hrun : answer =
                   (let? item := first_match lookup_field lookup_val records in
                    Ok (JObj (dict_literal [(response_key, item);
                                            ("found", JBool (is_not_none item))])))).
    { rewrite Hans. unfold run_fixture_lookup.
      rewrite (load_fixture_doc _ _ _ _ _ Hfile). cbn [obind].
      rewrite flexget_lookup_value. reflexivity. }
    split.
    + intros pre r post -> Hno Hm.
      apply Forall_app in Hrec as [Hpre Hr]. inversion Hr; subst.
      rewrite Hrun, (first_match_found _ _ _ _ _ Hpre H1 Hno Hm). simpl.
      rewrite dict_literal_pair by assumption.
      destruct r; try contradiction. reflexivity.
    + intros Hno. rewrite Hrun, (first_match_none _ _ _ Hrec Hno). simpl.
      now rewrite dict_literal_pair.
  - intros n m Hm. unfold matches. simpl. now rewrite Hm.
Qed.

Lemma fixture_lookup_dispatch_witness :
  fst (handle_tool "email.read" (Document (JObj [("message_id", JStr "42")]))
                   sample_world)
  = Ok (JObj [("email", JObj [("id", JNum 42); ("sender", JStr "a@x.com");
                              ("subject", JStr "Hi")]);
              ("found", JBool true)]).
Proof.
  destruct (fixture_lookup_dispatch
              "email.read" "inbox.json" "id" "message_id" "email"
              (Document (JObj [("message_id", JStr "42")]))
              [("message_id", JStr "42")] sample_world eq_refl eq_refl)
    as [_ [H _]].
  destruct (H "[...]"
              [JObj [("id", JStr "41"); ("sender", JStr "b@x.com"); ("subject", JStr "Yo")];
               JObj [("id", JNum 42); ("sender", JStr "a@x.com"); ("subject", JStr "Hi")]]
              eq_refl) as [Hfound _].
  - repeat constructor.
  - apply (Hfound [JObj [("id", JStr "41"); ("sender", JStr "b@x.com");
                         ("subject", JStr "Yo")]]
                  (JObj [("id", JNum 42); ("sender", JStr "a@x.com");
                         ("subject", JStr "Hi")]) [] eq_refl).
    + constructor; [|constructor]. unfold matches. simpl. discriminate.
    + reflexivity.
Defined.

(* ------------------------------------------------------------------------- *)
(** ** Unknown tools *)

Lemma table_get_None {A} (t : list (string * A)) k :
  ~ In k (map fst t) -> table_get t k = None.
Proof.
  induction t as [|[k' a] t IH]; simpl; intros H; [reflexivity|].
  destruct (String.eqb k' k) eqn:E.
  - apply String.eqb_eq in E. exfalso. apply H. now left.
  - apply IH. intros Hin. apply H. now right.
Qed.

Lemma insert_sorted_perm s l : Permutation (insert_sorted s l) (s :: l).
Proof.
  induction l as [|x l IH]; simpl; [reflexivity|].
  destruct (String.leb s x); [reflexivity|].
  rewrite IH. apply perm_swap.
Qed.

Lemma sorted_perm l : Permutation (sorted l) l.
Proof.
  induction l as [|s l IH]; simpl; [reflexivity|].
  rewrite insert_sorted_perm. now constructor.
Qed.

Lemma contains_app_r p a b : contains p b = true -> contains p (a ++ b) = true.
Proof.
  intros H. induction a as [|c a IH]; simpl; [assumption|].
  rewrite IH. apply orb_true_r.
Qed.

(** C4. A tool name that is not in the catalog: the dispatch raises the 404
    error, the client gets it with a body that names every registered tool
    (the sorted catalog keys), and neither the scenario nor the log of
    successful calls changes. *)
Theorem unknown_tool_404 tool_name body w :
  ~ In tool_name (map fst TOOL_CATALOG) ->
  let known := sorted (map fst TOOL_CATALOG) in
  let detail := "Unknown tool: " ++ tool_name ++ ". Known tools: "
                ++ py_str (JArr (map JStr known)) in
  handle_tool tool_name body w = (Raise (HTTPException 404 detail), w)
  /\ fst (post_tool tool_name body w)
     = {| status := 404; content := JObj [("detail", JStr detail)] |}
  /\ Permutation known (map fst TOOL_CATALOG)
  /\ (forall name, In name (map fst TOOL_CATALOG) ->
                   contains ("'" ++ name ++ "'") detail = true)
  /\ CURRENT_SCENARIO (snd (post_tool tool_name body w)) = CURRENT_SCENARIO w
  /\ tool_calls (snd (post_tool tool_name body w)) = tool_calls w.
Proof.
  intros Hnot known detail.
  assert (Hh : handle_tool tool_name body w = (Raise (HTTPException 404 detail), w)).
  { unfold handle_tool. now rewrite (table_get_None _ _ Hnot). }
  assert (Hp : post_tool tool_name body w
               = ({| status := 404; content := JObj [("detail", JStr detail)] |},
                  snd (post_tool tool_name body w))).
  { unfold post_tool, log_all_requests_middleware, bind, call_next.
    rewrite Hh. reflexivity. }
  repeat split.
  - exact Hh.
  - now rewrite Hp.
  - apply sorted_perm.
  - intros name Hin. unfold detail.
    apply contains_app_r. apply contains_app_r. apply contains_app_r.
    simpl in Hin.
    repeat (destruct Hin as [<-|Hin]; [vm_compute; reflexivity|]).
    contradiction.
  - unfold post_tool, log_all_requests_middleware, bind, call_next.
    rewrite Hh. reflexivity.
  - unfold post_tool, log_all_requests_middleware, bind, call_next.
    rewrite Hh. reflexivity.
Qed.

Lemma unknown_tool_404_witness :
  fst (post_tool "email.delete" EmptyBody sample_world)
  = {| status := 404;
       content := JObj [("detail",
                         JStr ("Unknown tool: email.delete. Known tools: "
                               ++ py_str (JArr (map JStr (sorted (map fst TOOL_CATALOG))))))] |}.
Proof.
  refine (proj1 (proj2 (unknown_tool_404 "email.delete" EmptyBody sample_world _))).
  simpl. intros H.
  repeat (destruct H as [H|H]; [discriminate H|]). exact H.
Defined.

(* ------------------------------------------------------------------------- *)
(** ** What a dispatch changes *)

Lemma with_ticks_same w : with_ticks (ticks w) w = w.
Proof. now destruct w. Qed.

(** A behaviour changes nothing but the number of clock readings. *)
Lemma run_behavior_world t data w :
  exists n, snd (run_behavior t data w) = with_ticks n w.
Proof.
  destruct t as [f k tr|f lf pf k|dr ef irr|h]; simpl.
  - exists (ticks w). now rewrite with_ticks_same.
  - exists (ticks w). now rewrite with_ticks_same.
  - exists (S (ticks w)). unfold run_write_action, bind, now, reading. reflexivity.
  - exists (ticks w). rewrite with_ticks_same. unfold run_custom.
    destruct (table_get CUSTOM_HANDLERS h); reflexivity.
Qed.

(** A dispatch that returns appends one entry to the log of successful calls;
    a dispatch that raises appends none.  Neither touches the log of all
    requests, the scenario or the files. *)
Lemma handle_tool_effect tool_name body w :
  match handle_tool tool_name body w with
  | (Ok result, w') =>
      (exists t, tool_calls w'
                 = (tool_calls w
                    ++ [call_entry t tool_name (parse_body body) result])%list)
      /\ all_requests w' = all_requests w /\ same_context w w'
  | (Raise e, w') =>
      tool_calls w' = tool_calls w
      /\ all_requests w' = all_requests w /\ same_context w w'
  end.
Proof.
  unfold handle_tool.
  destruct (table_get TOOL_CATALOG tool_name) as [t|]; simpl.
  - unfold bind.
    destruct (run_behavior_world t (parse_body body) w) as [n Hn].
    destruct (run_behavior t (parse_body body) w) as [[r|e] w1]; simpl in Hn; subst w1.
    + unfold log_tool_call, bind, now, ret. simpl.
      split; [eexists; reflexivity|]. repeat split.
    + simpl. repeat split.
  - repeat split.
Qed.

(** The three ways a request to [/tools/...] ends.  The middleware records the
    request when the route handler returned or raised an [HTTPException]; any
    other exception leaves the middleware before its log is written. *)
Lemma post_tool_effect tool_name body w :
  let w' := snd (post_tool tool_name body w) in
  same_context w w' /\
  match handle_tool tool_name body w with
  | (Ok result, w1) =>
      fst (post_tool tool_name body w) = {| status := 200; content := result |}
      /\ tool_calls w' = tool_calls w1
      /\ exists t, all_requests w'
                   = (all_requests w ++ [request_entry t tool_name body 200])%list
  | (Raise (HTTPException code detail), w1) =>
      fst (post_tool tool_name body w)
      = {| status := code; content := JObj [("detail", JStr detail)] |}
      /\ tool_calls w' = tool_calls w
      /\ exists t, all_requests w'
                   = (all_requests w ++ [request_entry t tool_name body code])%list
  | (Raise _, w1) =>
      fst (post_tool tool_name body w)
      = {| status := 500; content := JStr "Internal Server Error" |}
      /\ tool_calls w' = tool_calls w
      /\ all_requests w' = all_requests w
  end.
Proof.
  pose proof (handle_tool_effect tool_name body w) as H.
  unfold post_tool, log_all_requests_middleware, bind, call_next, now.
  destruct (handle_tool tool_name body w) as [[r|e] w1].
  - destruct H as [_ [Hall [H1 [H2 [H3 H4]]]]]. simpl.
    split; [repeat split; assumption|].
    split; [reflexivity|]. split; [reflexivity|].
    eexists. rewrite Hall. reflexivity.
  - destruct H as [Hcalls [Hall [H1 [H2 [H3 H4]]]]].
    destruct e; simpl;
      (split; [repeat split; assumption|]);
      (split; [reflexivity|]);
      (split; [assumption|]);
      try assumption.
    eexists. rewrite Hall. reflexivity.
Qed.

(* ------------------------------------------------------------------------- *)
(** ** Switching scenarios *)

(** C5. After [set_scenario B]: the answer and the health report name [B],
    both in-memory logs are empty (so the log endpoints show no call of the
    previous scenario), a fixture is resolved under [B]'s directory, which a
    [fixture_list] dispatch then reads, and the scenario stays [B] across the
    requests to the tools that follow. *)
Theorem set_scenario_resets B w :
  let w' := snd (set_scenario B w) in
  fst (set_scenario B w) = Ok (JObj [("scenario", JStr B)])
  /\ CURRENT_SCENARIO w' = B
  /\ tool_calls w' = [] /\ all_requests w' = []
  /\ get_tool_calls w' = JObj [("calls", JArr [])]
  /\ get_all_requests w'
     = JObj [("requests", JArr []);
             ("summary", JObj [("total", JNum 0); ("success", JNum 0);
                               ("failed", JNum 0)])]
  /\ (forall filename,
         fixture_path w' (CURRENT_SCENARIO w') filename
         = path_join (path_join (FIXTURES_PATH w) B) filename)
  /\ (forall tool_name fixture response_key body,
         table_get TOOL_CATALOG tool_name
         = Some (fixture_list fixture response_key None) ->
         let file := stat (root w) (cwd w)
                          (path_join (path_join (FIXTURES_PATH w) B) fixture) in
         (file = None ->
          fst (handle_tool tool_name body w') = Ok (JObj [(response_key, JArr [])]))
         /\ (forall text records,
                file = Some (File text (Some (JArr records))) ->
                fst (handle_tool tool_name body w')
                = Ok (JObj [(response_key, JArr records)])))
  /\ (forall tool_name body,
         CURRENT_SCENARIO (snd (post_tool tool_name body w')) = B).
Proof.
  intros w'.
  assert (Hrun : forall tool_name fixture response_key body,
             table_get TOOL_CATALOG tool_name
             = Some (fixture_list fixture response_key None) ->
             fst (handle_tool tool_name body w')
             = run_fixture_list w' fixture response_key None).
  { intros tool_name fixture response_key body Hcat.
    now rewrite (handle_tool_known _ _ _ _ Hcat). }
  split; [reflexivity|]. split; [reflexivity|]. split; [reflexivity|].
  split; [reflexivity|]. split; [reflexivity|]. split; [reflexivity|].
  split; [reflexivity|]. split.
  - intros tool_name fixture response_key body Hcat file.
    rewrite (Hrun _ _ _ _ Hcat). unfold run_fixture_list, load_fixture. simpl.
    fold file.
    split; [intros ->; reflexivity|intros text records ->; reflexivity].
  - intros tool_name body.
    destruct (post_tool_effect tool_name body w') as [[_ [H _]] _].
    exact H.
Qed.

Lemma set_scenario_resets_witness :
  fst (handle_tool "calendar.read" EmptyBody
                   (snd (set_scenario "standup" sample_world)))
  = Ok (JObj [("events", JArr [JObj [("title", JStr "Standup")]])]).
Proof.
  pose proof (set_scenario_resets "standup" sample_world) as H.
  destruct H as [_ [_ [_ [_ [_ [_ [_ [H _]]]]]]]].
  destruct (H "calendar.read" "calendar.json" "events" EmptyBody eq_refl) as [_ Hfile].
  exact (Hfile "[...]" [JObj [("title", JStr "Standup")]] eq_refl).
Defined.

(* ------------------------------------------------------------------------- *)
(** ** Bodies that are not JSON *)

Lemma omap_inbox_summary_ok records :
  Forall is_record records -> exists l, omap inbox_summary records = Ok l.
Proof.
  induction 1 as [|x l Hx _ [l' IH]]; simpl; [eauto|].
  destruct x; try contradiction. simpl. rewrite IH. simpl. eauto.
Qed.

Lemma first_match_ok field v records :
  Forall is_record records -> exists item, first_match field v records = Ok item.
Proof.
  induction 1 as [|x l Hx _ [item IH]]; simpl; [eauto|].
  destruct x; try contradiction. simpl.
  destruct (String.eqb _ _); eauto.
Qed.

Lemma run_fixture_list_ok w fixture response_key transform :
  list_fixture (fixture_file w fixture) ->
  exists r, run_fixture_list w fixture response_key transform = Ok (JObj r).
Proof.
  unfold list_fixture, fixture_file, run_fixture_list, load_fixture, fixture_path.
  destruct (stat _ _ _) as [[text [[| | | |records|]|]|]|]; try contradiction;
    intros H; simpl.
  - destruct transform as [t|]; [destruct (String.eqb t "inbox_summary")|]; simpl;
      try (eexists; reflexivity).
    destruct (omap_inbox_summary_ok _ H) as [l ->]. simpl. eauto.
  - destruct transform as [t|]; [destruct (String.eqb t "inbox_summary")|]; simpl;
      eexists; reflexivity.
Qed.

Lemma run_fixture_lookup_ok w d fixture lookup_field param_field response_key :
  list_fixture (fixture_file w fixture) ->
  exists r, run_fixture_lookup w (JObj d) fixture lookup_field param_field
                               response_key = Ok (JObj r).
Proof.
  unfold list_fixture, fixture_file, run_fixture_lookup, load_fixture, fixture_path.
  destruct (stat _ _ _) as [[text [[| | | |records|]|]|]|]; try contradiction;
    intros H; cbn [obind].
  - rewrite flexget_lookup_value. cbn [obind py_iter].
    destruct (first_match_ok lookup_field (lookup_value d param_field) _ H)
      as [item ->].
    simpl. eauto.
  - eauto.
Qed.

Lemma handle_slack_read_messages_empty_ok w :
  list_fixture (fixture_file w "slack_messages.json") ->
  exists r, handle_slack_read_messages w (JObj []) = Ok (JObj r).
Proof.
  unfold list_fixture, fixture_file, handle_slack_read_messages, load_fixture,
    fixture_path.
  destruct (stat _ _ _) as [[text [[| | | |records|]|]|]|]; try contradiction;
    intros H; simpl; eauto.
Qed.

Lemma handle_search_web_empty_ok w :
  document_fixture (fixture_file w "web_search_results.json") ->
  exists r, handle_search_web w (JObj []) = Ok (JObj r).
Proof.
  unfold document_fixture, fixture_file, handle_search_web, load_fixture,
    fixture_path.
  destruct (stat _ _ _) as [[text [v|]|]|]; try contradiction;
    intros _; simpl; try (eexists; reflexivity).
  destruct (truthy v); try (eexists; reflexivity).
  destruct v as [| | | | |d]; simpl; try (eexists; reflexivity).
  unfold dict_mem. destruct (dict_get d ""); eexists; reflexivity.
Qed.

Lemma handle_memory_read_ok w d :
  exists r, handle_memory_read w (JObj d) = Ok (JObj r).
Proof.
  unfold handle_memory_read.
  assert (H : exists v, _flexget (JObj d) ["path"; "key"] (JStr "") = Ok v).
  { simpl. destruct (dict_get d "path") as [[]|]; simpl; eauto;
      destruct (dict_get d "key") as [[]|]; simpl; eauto. }
  destruct H as [v ->]. cbn [obind].
  destruct v; try (eexists; reflexivity).
  destruct (stat _ _ _) as [[|]|]; eexists; reflexivity.
Qed.

(** A known tool called with a body on which [json.loads] raises a decoding
    error, or with no body, is dispatched as with the empty object [{}]: same
    outcome, same effect on the process.  With the scenario's fixtures absent
    or well formed, that outcome is a result object, not an error. *)
Lemma malformed_body_dispatch tool_name raw w :
  In tool_name (map fst TOOL_CATALOG) ->
  fixtures_well_formed w ->
  handle_tool tool_name (Malformed raw) w
  = handle_tool tool_name (Document (JObj [])) w
  /\ handle_tool tool_name EmptyBody w
     = handle_tool tool_name (Document (JObj [])) w
  /\ (exists r, fst (handle_tool tool_name (Malformed raw) w) = Ok (JObj r))
  /\ (exists r, fst (handle_tool tool_name EmptyBody w) = Ok (JObj r)).
Proof.
  intros Hin [Hcat [Hslack Hsearch]].
  split; [reflexivity|]. split; [reflexivity|].
  assert (Hlist : forall f k tr,
             In f catalog_fixtures ->
             exists r, run_fixture_list w f k tr = Ok (JObj r)).
  { intros f k tr Hf. apply run_fixture_list_ok. auto. }
  assert (Hlook : forall f lf pf k,
             In f catalog_fixtures ->
             exists r, run_fixture_lookup w (JObj []) f lf pf k = Ok (JObj r)).
  { intros f lf pf k Hf. apply run_fixture_lookup_ok. auto. }
  assert (Hres : exists r,
             fst (handle_tool tool_name (Document (JObj [])) w) = Ok (JObj r)).
  { simpl in Hin.
    repeat (destruct Hin as [<-|Hin];
            [erewrite handle_tool_known by reflexivity; simpl;
             first [ apply Hlist; simpl; tauto
                   | apply Hlook; simpl; tauto
                   | apply handle_memory_read_ok
                   | apply handle_slack_read_messages_empty_ok; assumption
                   | apply handle_search_web_empty_ok; assumption
                   | eexists; reflexivity ]|]).
    contradiction. }
  split; exact Hres.
Qed.

Lemma sample_fixtures_well_formed : fixtures_well_formed sample_world.
Proof.
  split; [|split].
  - intros f Hf. simpl in Hf.
    repeat (destruct Hf as [<-|Hf]; [vm_compute; try exact I; repeat constructor|]).
    contradiction.
  - exact I.
  - exact I.
Defined.

Lemma malformed_body_dispatch_witness :
  exists r, fst (handle_tool "calendar.create" (Malformed "title=Standup") sample_world)
            = Ok (JObj r).
Proof.
  refine (proj1 (proj2 (proj2
            (malformed_body_dispatch "calendar.create" "title=Standup" sample_world
                                     _ sample_fixtures_well_formed)))).
  simpl. tauto.
Defined.

(** On the bodies [json.loads] settles, the request as it arrives is
    dispatched as [handle_tool] has it. *)
Lemma wire_parse_body_settled b : Wire.parse_body (Wire.Settled b) = Ok (parse_body b).
Proof. now destruct b. Qed.

Lemma wire_handle_tool_settled tool_name b w :
  Wire.handle_tool tool_name (Wire.Settled b) w = handle_tool tool_name b w.
Proof.
  unfold Wire.handle_tool, handle_tool.
  destruct (table_get TOOL_CATALOG tool_name) as [t|]; [|reflexivity].
  unfold bind at 1, reading. now rewrite wire_parse_body_settled.
Qed.

(** C9. A body whose brackets nest deeper than the interpreter's recursion
    limit is not parseable: [json.loads] raises [RecursionError], which is no
    [ValueError], so the [except] clause of the dispatch does not catch it.
    For every known tool the dispatch then raises instead of proceeding with
    [{}] (with which, the fixtures being absent or well formed, it returns a
    result object), and the client is answered by the server's 500 page, the
    process being left as it was: the error is raised by the middleware's
    own [json.loads] when the path starts with [/tools/], by the dispatch
    otherwise. *)
Theorem overnested_body_raises tool_name raw path w :
  In tool_name (map fst TOOL_CATALOG) ->
  fixtures_well_formed w ->
  Wire.parse_body (Wire.Overnested raw) = Raise RecursionError
  /\ Wire.handle_tool tool_name (Wire.Overnested raw) w = (Raise RecursionError, w)
  /\ (exists r,
         fst (Wire.handle_tool tool_name (Wire.Settled (Document (JObj []))) w)
         = Ok (JObj r))
  /\ Wire.post_tool {| Wire.url_path := path; Wire.tool_name := tool_name;
                       Wire.payload := Wire.Overnested raw |} w
     = (internal_server_error, w).
Proof.
  intros Hin Hfix.
  assert (Hh : Wire.handle_tool tool_name (Wire.Overnested raw) w
               = (Raise RecursionError, w)).
  { pose proof Hin as Hknown. simpl in Hknown.
    repeat (destruct Hknown as [<-|Hknown]; [reflexivity|]).
    contradiction. }
  split; [reflexivity|]. split; [exact Hh|]. split.
  - rewrite wire_handle_tool_settled.
    destruct (malformed_body_dispatch tool_name "" w Hin Hfix) as [_ [E [_ [r Hr]]]].
    exists r. now rewrite <- E.
  - unfold Wire.post_tool, Wire.log_all_requests_middleware, bind, reading.
    cbn [Wire.url_path Wire.payload].
    destruct (startswith "/tools/" path); [reflexivity|].
    unfold Wire.call_next. cbn [Wire.tool_name Wire.payload].
    now rewrite Hh.
Qed.

Lemma overnested_body_raises_witness :
  Wire.post_tool {| Wire.url_path := "/tools/inbox.list";
                    Wire.tool_name := "inbox.list";
                    Wire.payload := deep_body |} sample_world
  = (internal_server_error, sample_world).
Proof.
  refine (proj2 (proj2 (proj2
            (overnested_body_raises "inbox.list" (brackets 2000)
                                    "/tools/inbox.list" sample_world
                                    _ sample_fixtures_well_formed)))).
  simpl. tauto.
Defined.

(* ------------------------------------------------------------------------- *)
(** ** Web search *)

Lemma flexget_search_query d :
  _flexget (JObj d) ["query"; "q"] (JStr "") = Ok (search_query d).
Proof.
  unfold search_query, non_null. simpl.
  destruct (dict_get d "query") as [[]|]; simpl; try reflexivity;
    destruct (dict_get d "q") as [[]|]; reflexivity.
Qed.




(* ------------------------------------------------------------------------- *)
(** ** Messages of a channel *)

Lemma lstrip_marker c : lstrip "#" (String "#" c) = lstrip "#" c.
Proof. reflexivity. Qed.

(** With the empty identifier the two calls differ: [""] is no filter, ["#"]
    filters. *)
Lemma channel_marker_empty_identifier :
  ~ (forall w rest c,
        handle_slack_read_messages w (JObj (("channel", JStr ("#" ++ c)) :: rest))
        = handle_slack_read_messages w (JObj (("channel", JStr c) :: rest))).
Proof.
  intros H. specialize (H one_message_world [] "").
  vm_compute in H. discriminate H.
Qed.

Lemma filter_channel_messages ch records :
  Forall is_message records ->
  filter_channel ch records
  = Ok (filter (fun m => String.eqb (stripped_channel m) ch) records).
Proof.
  induction 1 as [|m l Hm _ IH]; simpl; [reflexivity|].
  destruct m as [| | | | |f]; try contradiction.
  unfold stripped_channel. simpl in *.
  destruct (dict_get f "channel") as [[]|]; try contradiction; simpl;
    rewrite IH; reflexivity.
Qed.

(** C7, as the code has it.  For a non-empty channel identifier [c], the
    calls with [#c] and with [c] have the same outcome, whatever the fixture:
    both filter on [c] stripped of its leading markers, and on a fixture of
    message records the answer holds the records whose stripped channel is
    that.  With no channel argument the whole sequence is returned, empty
    when there is no fixture. *)
Theorem channel_marker_ignored w :
  let file := fixture_file w "slack_messages.json" in
  (forall rest c,
      c <> "" ->
      handle_slack_read_messages w (JObj (("channel", JStr ("#" ++ c)) :: rest))
      = handle_slack_read_messages w (JObj (("channel", JStr c) :: rest)))
  /\ (forall rest c text records,
         c <> "" ->
         file = Some (File text (Some (JArr records))) ->
         Forall is_message records ->
         handle_slack_read_messages w (JObj (("channel", JStr c) :: rest))
         = Ok (JObj [("messages",
                      JArr (filter (fun m => String.eqb (stripped_channel m)
                                                        (lstrip "#" c))
                                   records))]))
  /\ (forall d, no_channel d -> file = None ->
                handle_slack_read_messages w (JObj d)
                = Ok (JObj [("messages", JArr [])]))
  /\ (forall d text records,
         no_channel d ->
         file = Some (File text (Some (JArr records))) ->
         handle_slack_read_messages w (JObj d)
         = Ok (JObj [("messages", JArr records)])).
Proof.
  intros file.
  assert (Hnone : forall d, no_channel d ->
             _flexget (JObj d) ["channel"; "channel_id"] JNull = Ok JNull).
  { intros d [H1 H2]. unfold non_null in *. simpl.
    destruct (dict_get d "channel") as [[]|]; try discriminate; simpl;
      destruct (dict_get d "channel_id") as [[]|]; try discriminate; reflexivity. }
  split; [|split; [|split]].
  - intros rest c Hc. unfold handle_slack_read_messages.
    cbn [_flexget py_get dict_get String.eqb Ascii.eqb Bool.eqb obind].
    destruct c as [|a c]; [contradiction|].
    cbn [truthy String.eqb append negb py_lstrip_hash obind].
    rewrite lstrip_marker. reflexivity.
  - intros rest c text records Hc Hfile Hmsg. unfold handle_slack_read_messages.
    cbn [_flexget py_get dict_get String.eqb Ascii.eqb Bool.eqb obind].
    unfold load_fixture. unfold file, fixture_file, fixture_path in Hfile.
    rewrite Hfile. cbn [obind].
    destruct c as [|a c]; [contradiction|].
    cbn [truthy String.eqb negb py_lstrip_hash obind].
    destruct records as [|m l].
    + reflexivity.
    + cbn [truthy py_iter obind]. rewrite (filter_channel_messages _ _ Hmsg).
      reflexivity.
  - intros d Hd Hfile. unfold handle_slack_read_messages.
    rewrite (Hnone d Hd). cbn [obind].
    unfold load_fixture. unfold file, fixture_file, fixture_path in Hfile.
    rewrite Hfile. reflexivity.
  - intros d text records Hd Hfile. unfold handle_slack_read_messages.
    rewrite (Hnone d Hd). cbn [obind].
    unfold load_fixture. unfold file, fixture_file, fixture_path in Hfile.
    rewrite Hfile. cbn [obind truthy]. destruct records; reflexivity.
Qed.

Lemma channel_marker_ignored_witness :
  handle_slack_read_messages one_message_world (JObj [("channel", JStr "#general")])
  = handle_slack_read_messages one_message_world (JObj [("channel", JStr "general")]).
Proof.
  refine (proj1 (channel_marker_ignored one_message_world) [] "general" _).
  discriminate.
Defined.

(* ------------------------------------------------------------------------- *)
(** ** Write actions *)

Lemma dict_get_set_same d k v : dict_get (dict_set d k v) k = Some v.
Proof.
  induction d as [|[k' v'] d IH]; simpl.
  - now rewrite String.eqb_refl.
  - destruct (String.eqb k' k) eqn:E; simpl; rewrite E; [reflexivity|exact IH].
Qed.

Lemma dict_get_set_other d k v k' :
  k <> k' -> dict_get (dict_set d k v) k' = dict_get d k'.
Proof.
  intros Hne. induction d as [|[k0 v0] d IH]; simpl.
  - destruct (String.eqb k k') eqn:E; [|reflexivity].
    apply String.eqb_eq in E. contradiction.
  - destruct (String.eqb k0 k) eqn:E; simpl.
    + apply String.eqb_eq in E. subst k0.
      destruct (String.eqb k k') eqn:E'; [|reflexivity].
      apply String.eqb_eq in E'. contradiction.
    + destruct (String.eqb k0 k'); [reflexivity|exact IH].
Qed.

Lemma echo_loop_object d fields result :
  echo_loop (JObj d) fields result = Ok (echoed d fields result).
Proof.
  revert result. unfold echoed.
  induction fields as [|f fields IH]; intros result; simpl; [reflexivity|].
  unfold dict_mem. destruct (dict_get d f) as [v|]; simpl; apply IH.
Qed.

(** The echo loop on an argument object: a listed field that the input has
    ends up with the input's value, whatever the response held under that
    key; every other key keeps what it had. *)
Lemma echoed_fields d fields result :
  (forall f v, In f fields -> dict_get d f = Some v ->
               dict_get (echoed d fields result) f = Some v)
  /\ (forall k, (~ In k fields \/ dict_get d k = None) ->
                dict_get (echoed d fields result) k = dict_get result k).
Proof.
  unfold echoed. revert result.
  induction fields as [|f0 fields IH]; intros result; simpl.
  - split; [intros f v []|reflexivity].
  - destruct (IH (match dict_get d f0 with
                  | Some v => dict_set result f0 v
                  | None => result
                  end)) as [IH1 IH2].
    split.
    + intros f v [->|Hin] Hget.
      * destruct (in_dec string_dec f fields) as [Hin|Hnin].
        -- now apply IH1.
        -- rewrite IH2 by (now left). rewrite Hget. apply dict_get_set_same.
      * now apply IH1.
    + intros k Hk. rewrite IH2.
      * destruct (dict_get d f0) as [v|] eqn:E; [|reflexivity].
        apply dict_get_set_other. intros ->.
        destruct Hk as [Hk|Hk]; [apply Hk; now left|congruence].
      * destruct Hk as [Hk|Hk]; [left; intros Hin; apply Hk; now right|now right].
Qed.

(** With an argument named [ts], a template with a placeholder cannot be
    filled: the call of [format] raises [TypeError], which the [except] clause
    does not catch. *)
Lemma template_loop_ts_clash ts d items result :
  dict_mem d "ts" = true ->
  has_placeholder items ->
  template_loop ts (JObj d) items result = Raise TypeError.
Proof.
  intros Hts [key [s [Hin Hs]]]. revert result.
  induction items as [|[k v] items IH]; intros result; [contradiction|].
  simpl.
  assert (Hfill : forall s', fill_template ts (JObj d) s' = Raise TypeError).
  { intros s'. unfold fill_template, format_kwargs. now rewrite Hts. }
  destruct Hin as [Heq|Hin].
  - inversion Heq; subst. rewrite Hs, Hfill. reflexivity.
  - destruct v; try (now apply IH).
    destruct (contains "{" s0); [now rewrite Hfill|now apply IH].
Qed.

Lemma is_digit_digit n : is_digit (digit n) = true.
Proof.
  unfold digit. pose proof (Z.mod_pos_bound n 10 ltac:(lia)) as H.
  remember (Z.to_nat (n mod 10)) as k eqn:Hk.
  assert (Hlt : (k < 10)%nat) by lia. clear Hk H.
  do 10 (destruct k as [|k]; [reflexivity|]). lia.
Qed.

Lemma length_append (a b : string) :
  String.length (a ++ b) = (String.length a + String.length b)%nat.
Proof. induction a; simpl; congruence. Qed.

Lemma all_digits_append a b :
  all_digits a = true -> all_digits b = true -> all_digits (a ++ b) = true.
Proof.
  unfold all_digits. induction a as [|c a IH]; simpl; [auto|].
  intros H Hb. apply andb_true_iff in H as [Hc Ha].
  now rewrite Hc, IH.
Qed.

Lemma zfill_digits width n :
  String.length (zfill width n) = width /\ all_digits (zfill width n) = true.
Proof.
  revert n. induction width as [|w IH]; intros n; cbn [zfill];
    [split; reflexivity|].
  destruct (IH (n / 10)%Z) as [Hl Hd]. split.
  - rewrite length_append, Hl. cbn [String.length]. lia.
  - apply all_digits_append; [assumption|].
    unfold all_digits. cbn [list_ascii_of_string forallb].
    now rewrite is_digit_digit.
Qed.

(** The timestamp token is fourteen decimal digits. *)
Lemma strftime_ts_digits t :
  String.length (strftime_ts t) = 14%nat /\ all_digits (strftime_ts t) = true.
Proof.
  unfold strftime_ts. split.
  - repeat rewrite length_append.
    repeat rewrite (proj1 (zfill_digits _ _)). reflexivity.
  - repeat (apply all_digits_append; [apply zfill_digits|]).
    apply zfill_digits.
Qed.

(** The templates of the catalog are filled by replacing [{ts}], for an
    argument object that has no key [ts]. *)
Lemma catalog_template_loop tool_name default_response echo_fields irreversible
      ts d :
  table_get TOOL_CATALOG tool_name
  = Some (write_action default_response echo_fields irreversible) ->
  dict_mem d "ts" = false ->
  template_loop ts (JObj d) (template_of default_response)
                (template_of default_response)
  = Ok (filled_template ts (template_of default_response)).
Proof.
  intros H Hts. apply table_get_In in H. simpl in H.
  repeat (destruct H as [H|H];
          [inversion H; subst; clear H;
           cbn [template_of template_loop contains startswith Ascii.eqb Bool.eqb
                orb andb];
           unfold fill_template, format_kwargs; rewrite ?Hts; reflexivity|]).
  contradiction.
Qed.

(** A [write_action] tool of the catalog, called with an argument object that
    has no key [ts]: the response is the template with its timestamp
    placeholders filled from a fresh clock reading, then the echo fields of
    the input written over it. *)
Lemma write_action_response tool_name default_response echo_fields irreversible
      d w :
  table_get TOOL_CATALOG tool_name
  = Some (write_action default_response echo_fields irreversible) ->
  dict_mem d "ts" = false ->
  fst (handle_tool tool_name (Document (JObj d)) w)
  = Ok (JObj (echoed d echo_fields
                     (filled_template (strftime_ts (clock w (ticks w)))
                                      (template_of default_response)))).
Proof.
  intros Hcat Hts. rewrite (handle_tool_known _ _ _ _ Hcat). simpl.
  unfold run_write_action, bind, now, reading. simpl.
  fold (template_of default_response).
  rewrite (catalog_template_loop _ _ _ _ _ _ Hcat Hts). cbn [obind].
  rewrite echo_loop_object. reflexivity.
Qed.

(** When a placeholder names a key the input lacks, the value keeps it and
    only [{ts}] is replaced. *)
Lemma fill_template_fallback ts d val :
  dict_mem d "ts" = false ->
  str_format val (("ts", JStr ts) :: d) = FmtFail FmtKeyError ->
  fill_template ts (JObj d) val = Ok (replace "{ts}" ts val).
Proof.
  intros Hts Hf. unfold fill_template, format_kwargs. rewrite Hts. simpl.
  now rewrite Hf.
Qed.

(** C3 at a failing input.  A [write_action] tool whose template has a
    placeholder, called with an argument object that has a key [ts]: the
    dispatch raises [TypeError] and the client gets the server's 500 page. *)
Theorem write_action_ts_argument_raises
        tool_name default_response echo_fields irreversible d w :
  table_get TOOL_CATALOG tool_name
  = Some (write_action default_response echo_fields irreversible) ->
  has_placeholder (template_of default_response) ->
  dict_mem d "ts" = true ->
  fst (handle_tool tool_name (Document (JObj d)) w) = Raise TypeError
  /\ fst (post_tool tool_name (Document (JObj d)) w) = internal_server_error.
Proof.
  intros Hcat Hph Hts.
  assert (Hh : fst (handle_tool tool_name (Document (JObj d)) w) = Raise TypeError).
  { rewrite (handle_tool_known _ _ _ _ Hcat). simpl.
    unfold run_write_action, bind, now, reading. simpl.
    fold (template_of default_response).
    now rewrite (template_loop_ts_clash _ _ _ _ Hts Hph). }
  split; [exact Hh|].
  pose proof (post_tool_effect tool_name (Document (JObj d)) w) as [_ H].
  destruct (handle_tool tool_name (Document (JObj d)) w) as [[r|e] w1];
    simpl in Hh; [discriminate|]. inversion Hh; subst. apply H.
Qed.

Lemma write_action_ts_argument_raises_witness :
  fst (handle_tool "calendar.create" (Document (JObj [("ts", JStr "x")]))
                   sample_world)
  = Raise TypeError.
Proof.
  refine (proj1 (write_action_ts_argument_raises
                   "calendar.create"
                   (Some [("status", JStr "created"); ("event_id", JStr "evt_{ts}")])
                   ["title"; "start"; "end"] true [("ts", JStr "x")] sample_world
                   eq_refl _ eq_refl)).
  exists "event_id", "evt_{ts}". split; [simpl; tauto|reflexivity].
Defined.

(** C2 at a failing input.  [slack.post_message] called with a channel, a
    text and a key [ts]: the client gets the server's 500 page, with neither
    echo field in it, and nothing is written to the log of successful
    calls. *)
Theorem write_action_echo_lost w :
  let body := Document (JObj [("channel", JStr "#general"); ("text", JStr "hi");
                              ("ts", JStr "1700000000.000100")]) in
  fst (handle_tool "slack.post_message" body w) = Raise TypeError
  /\ fst (post_tool "slack.post_message" body w) = internal_server_error
  /\ tool_calls (snd (post_tool "slack.post_message" body w)) = tool_calls w.
Proof.
  intros body.
  pose proof (post_tool_effect "slack.post_message" body w) as [_ H].
  assert (Hh : fst (handle_tool "slack.post_message" body w) = Raise TypeError).
  { erewrite handle_tool_known by reflexivity. reflexivity. }
  split; [exact Hh|].
  destruct (handle_tool "slack.post_message" body w) as [[r|e] w1];
    simpl in Hh; [discriminate|]. inversion Hh; subst.
  destruct H as [H1 [H2 _]]. split; assumption.
Qed.

Lemma load_fixture_raises w scenario filename e :
  load_fixture w scenario filename = Raise e ->
  e = IsADirectoryError \/ e = JSONDecodeError.
Proof.
  unfold load_fixture.
  destruct (stat _ _ _) as [[text [v|]|]|]; intros H; inversion H; auto.
Qed.

(** C8 at a failing input.  [slack.read_messages] called with a channel that
    is a number: the handler raises (a number has no [lstrip]), the client
    gets the server's 500 page, and the failure is in neither log. *)
Theorem handler_exception_unrecorded w :
  let body := Document (JObj [("channel", JNum 5)]) in
  let after := snd (post_tool "slack.read_messages" body w) in
  (exists e, fst (handle_tool "slack.read_messages" body w) = Raise e
             /\ forall code detail, e <> HTTPException code detail)
  /\ fst (post_tool "slack.read_messages" body w) = internal_server_error
  /\ tool_calls after = tool_calls w
  /\ all_requests after = all_requests w.
Proof.
  intros body after.
  assert (Hh : exists e, fst (handle_tool "slack.read_messages" body w) = Raise e
                         /\ forall code detail, e <> HTTPException code detail).
  { erewrite handle_tool_known by reflexivity. simpl.
    unfold handle_slack_read_messages. cbn [_flexget py_get dict_get String.eqb
      Ascii.eqb Bool.eqb obind].
    destruct (load_fixture w (CURRENT_SCENARIO w) "slack_messages.json")
      as [v|e] eqn:E.
    - exists AttributeError. split; [reflexivity|discriminate].
    - exists e. split; [reflexivity|].
      apply load_fixture_raises in E. destruct E; subst; discriminate. }
  split; [exact Hh|].
  destruct Hh as [e [He Hne]].
  pose proof (post_tool_effect "slack.read_messages" body w) as [_ H].
  destruct (handle_tool "slack.read_messages" body w) as [[r|e'] w1];
    simpl in He; [discriminate|]. inversion He; subst e'.
  destruct e; try exact H. exfalso. eapply Hne. reflexivity.
Qed.

(* ------------------------------------------------------------------------- *)
(** ** Notes read outside the memory directory *)

Lemma flexget_requested_path d :
  _flexget (JObj d) ["path"; "key"] (JStr "") = Ok (requested_path d).
Proof.
  unfold requested_path, non_null. simpl.
  destruct (dict_get d "path") as [[]|]; simpl; try reflexivity;
    destruct (dict_get d "key") as [[]|]; reflexivity.
Qed.

Lemma split_on_name n rest :
  no_slash n = true ->
  split_on "/" (n ++ String "/" rest) = n :: split_on "/" rest.
Proof.
  unfold no_slash. induction n as [|c n IH]; simpl; [reflexivity|].
  intros H. apply andb_true_iff in H as [Hc Hn].
  apply negb_true_iff in Hc. rewrite Hc, (IH Hn). reflexivity.
Qed.

Lemma split_on_single n : no_slash n = true -> split_on "/" n = [n].
Proof.
  unfold no_slash. induction n as [|c n IH]; simpl; [reflexivity|].
  intros H. apply andb_true_iff in H as [Hc Hn].
  apply negb_true_iff in Hc. rewrite Hc, (IH Hn). reflexivity.
Qed.

Lemma valid_name_kept n : valid_name n = true -> kept n = true /\ no_slash n = true.
Proof.
  unfold valid_name, kept. intros H.
  apply andb_true_iff in H as [H Hs]. apply andb_true_iff in H as [H1 H2].
  apply negb_true_iff in H1, H2. now rewrite H1, H2.
Qed.

(** Joining names with slashes and parsing the text gives the names back. *)
Lemma parts_join names :
  Forall (fun n => valid_name n = true) names ->
  filter kept (split_on "/" (join "/" names)) = names.
Proof.
  induction 1 as [|n l Hn Hl IH]; [reflexivity|].
  destruct (valid_name_kept n Hn) as [Hk Hs].
  destruct l as [|n' l].
  - cbn [join]. rewrite (split_on_single n Hs). cbn [filter]. now rewrite Hk.
  - change (join "/" (n :: n' :: l)) with (n ++ String "/" (join "/" (n' :: l))).
    rewrite (split_on_name _ _ Hs). cbn [filter]. rewrite Hk. f_equal. exact IH.
Qed.

Lemma join_relative names :
  Forall (fun n => valid_name n = true) names ->
  startswith "/" (join "/" names) = false.
Proof.
  intros H. destruct H as [|n l Hn Hl]; [reflexivity|].
  destruct (valid_name_kept n Hn) as [Hk Hs].
  destruct n as [|c n]; [discriminate Hk|].
  unfold no_slash in Hs. cbn [list_ascii_of_string forallb] in Hs.
  apply andb_true_iff in Hs as [Hc _].
  apply negb_true_iff in Hc.
  destruct l; cbn [join startswith append]; rewrite Ascii.eqb_sym, Hc; reflexivity.
Qed.

Lemma Path_absolute_names names :
  Forall (fun n => valid_name n = true) names ->
  Path ("/" ++ join "/" names) = {| absolute := true; parts := names |}.
Proof.
  intros H. unfold Path. f_equal. fold kept.
  change (split_on "/" ("/" ++ join "/" names))
    with ("" :: split_on "/" (join "/" names)).
  cbn [filter]. change (kept "") with false. cbn iota. now apply parts_join.
Qed.

Lemma Path_relative_names names :
  Forall (fun n => valid_name n = true) names ->
  Path (join "/" names) = {| absolute := false; parts := names |}.
Proof.
  intros H. unfold Path. fold kept. now rewrite join_relative, parts_join.
Qed.

Lemma walk_walk_to stack cur ps :
  walk stack cur ps = option_map snd (walk_to stack cur ps).
Proof.
  revert stack cur. induction ps as [|p ps IH]; intros stack cur; simpl;
    [reflexivity|].
  destruct cur as [|entries]; [reflexivity|].
  destruct (String.eqb p "..").
  - destruct stack; apply IH.
  - destruct (entry p entries); [apply IH|reflexivity].
Qed.

Lemma walk_to_app stack cur ps qs :
  walk_to stack cur (ps ++ qs)
  = match walk_to stack cur ps with
    | Some (st, c) => walk_to st c qs
    | None => None
    end.
Proof.
  revert stack cur. induction ps as [|p ps IH]; intros stack cur; simpl;
    [reflexivity|].
  destruct cur as [|entries]; [reflexivity|].
  destruct (String.eqb p "..").
  - destruct stack; apply IH.
  - destruct (entry p entries); [apply IH|reflexivity].
Qed.

Lemma walk_to_chain ps : forall stack cur stack' cur' r,
  walk_to stack cur ps = Some (stack', cur') ->
  Forall is_dir stack -> bottom stack cur = r ->
  Forall is_dir stack' /\ bottom stack' cur' = r
  /\ (List.length stack' <= List.length stack + List.length ps)%nat.
Proof.
  induction ps as [|p ps IH]; intros stack cur stack' cur' r Hw Hd Hb; simpl in Hw.
  - inversion Hw; subst. repeat split; [assumption|simpl; lia].
  - destruct cur as [|entries]; [discriminate|].
    destruct (String.eqb p "..").
    + destruct stack as [|up stack0].
      * destruct (IH _ _ _ _ r Hw Hd Hb) as [H1 [H2 H3]].
        repeat split; try assumption. simpl in *. lia.
      * inversion Hd; subst.
        destruct (IH _ _ _ _ (bottom stack0 up) Hw H2 eq_refl) as [H4 [H5 H6]].
        repeat split; try assumption. simpl in *. lia.
    + destruct (entry p entries) as [child|]; [|discriminate].
      assert (Hd' : Forall is_dir (Dir entries :: stack))
        by (constructor; [exact I|assumption]).
      destruct (IH _ _ _ _ r Hw Hd' Hb) as [H1 [H2 H3]].
      repeat split; try assumption. simpl in *. lia.
Qed.

(** Enough [..] lead back to the root. *)
Lemma walk_to_up n : forall stack cur,
  Forall is_dir stack -> is_dir cur -> (List.length stack <= n)%nat ->
  walk_to stack cur (repeat ".." n) = Some ([], bottom stack cur).
Proof.
  induction n as [|n IH]; intros stack cur Hd Hc Hlen.
  - destruct stack; [reflexivity|simpl in Hlen; lia].
  - destruct cur as [|entries]; [contradiction|].
    cbn [repeat walk_to]. rewrite String.eqb_refl.
    destruct stack as [|up stack0].
    + apply (IH [] (Dir entries)); [constructor|exact I|simpl; lia].
    + inversion Hd; subst. apply (IH stack0 up); [assumption| |simpl in Hlen; lia].
      assumption.
Qed.

(** From a directory that exists, enough [..] followed by the location of a
    file lead to that file. *)
Lemma walk_escape rt base entries n names :
  walk [] rt base = Some (Dir entries) ->
  (List.length base <= n)%nat ->
  walk [] rt (base ++ repeat ".." n ++ names) = walk [] rt names.
Proof.
  intros Hbase Hn. rewrite walk_walk_to in Hbase.
  destruct (walk_to [] rt base) as [[st c]|] eqn:E; [|discriminate].
  simpl in Hbase. inversion Hbase; subst c.
  destruct (walk_to_chain _ _ _ _ _ rt E (Forall_nil _) eq_refl) as [Hd [Hb Hlen]].
  rewrite !walk_walk_to, walk_to_app, E, walk_to_app.
  rewrite (walk_to_up n st (Dir entries) Hd I) by (simpl in Hlen; lia).
  now rewrite Hb.
Qed.

Lemma valid_names_up n names :
  Forall (fun x => valid_name x = true) names ->
  Forall (fun x => valid_name x = true) (repeat ".." n ++ names).
Proof.
  intros H. apply Forall_app. split; [|assumption].
  apply Forall_forall. intros x Hx. apply repeat_spec in Hx. now subst.
Qed.

(** C10.  [handle_memory_read] joins the requested path to the memory
    directory as it is.  For any regular file of the host, at the location
    [names] from the root, wherever that is: asked by the absolute path of
    the file, the handler answers with the text of the file; and when the
    memory directory exists, asked by a relative path that climbs with enough
    [..] and then follows [names], it answers with that text too. *)
Theorem memory_read_unconfined w names text doc :
  Forall (fun n => valid_name n = true) names ->
  walk [] (root w) names = Some (File text doc) ->
  (forall d,
      requested_path d = JStr ("/" ++ join "/" names) ->
      handle_memory_read w (JObj d) = Ok (disclosed text))
  /\ (forall d entries n,
         walk [] (root w) (memory_dir_parts w) = Some (Dir entries) ->
         (List.length (memory_dir_parts w) <= n)%nat ->
         requested_path d = JStr (join "/" (repeat ".." n ++ names)) ->
         handle_memory_read w (JObj d) = Ok (disclosed text)).
Proof.
  intros Hnames Hfile. split.
  - intros d Hreq. unfold handle_memory_read.
    rewrite flexget_requested_path, Hreq. cbn [obind].
    unfold path_join at 1. rewrite (Path_absolute_names _ Hnames).
    cbn [absolute]. unfold stat. cbn [absolute parts]. now rewrite Hfile.
  - intros d entries n Hmem Hn Hreq. unfold handle_memory_read.
    rewrite flexget_requested_path, Hreq. cbn [obind].
    unfold path_join at 1.
    rewrite (Path_relative_names _ (valid_names_up n _ Hnames)).
    cbn [absolute parts]. unfold stat. cbn [absolute parts].
    match goal with
    | |- context [walk [] (root w) ?ps] =>
        replace ps with (memory_dir_parts w ++ repeat ".." n ++ names)%list
    end.
    + rewrite (walk_escape _ _ _ _ _ Hmem Hn), Hfile. reflexivity.
    + unfold memory_dir_parts.
      destruct (absolute (path_join (path_join (FIXTURES_PATH w)
                                               (CURRENT_SCENARIO w)) "memory"));
        [reflexivity|now rewrite <- app_assoc].
Qed.

Lemma memory_read_unconfined_witness :
  handle_memory_read sample_world (JObj [("path", JStr "/etc/passwd")])
  = Ok (disclosed "root:x:0:0")
  /\ handle_memory_read sample_world (JObj [("key", JStr "../../../../srv/secret.txt")])
     = Ok (disclosed "s3cret")
  /\ handle_memory_read sample_world
                        (JObj [("path", JStr "../../../../../../etc/passwd")])
     = Ok (disclosed "root:x:0:0").
Proof.
  assert (Hv : forall l, forallb valid_name l = true ->
                         Forall (fun n => valid_name n = true) l).
  { intros l H. apply Forall_forall. intros x Hx.
    rewrite forallb_forall in H. now apply H. }
  destruct (memory_read_unconfined sample_world ["etc"; "passwd"] "root:x:0:0" None
              (Hv ["etc"; "passwd"] eq_refl) eq_refl) as [Habs Hrel].
  destruct (memory_read_unconfined sample_world ["srv"; "secret.txt"] "s3cret" None
              (Hv ["srv"; "secret.txt"] eq_refl) eq_refl) as [_ Hrel'].
  split; [|split].
  - exact (Habs [("path", JStr "/etc/passwd")] eq_refl).
  - exact (Hrel' [("key", JStr "../../../../srv/secret.txt")]
                 [("notes.md", File "remember" None)] 4%nat eq_refl
                 (le_n 4) eq_refl).
  - exact (Hrel [("path", JStr "../../../../../../etc/passwd")]
                [("notes.md", File "remember" None)] 6%nat eq_refl
                (le_S _ _ (le_S _ _ (le_n 4))) eq_refl).
Defined.

(* ------------------------------------------------------------------------- *)
(** ** The log of successful calls *)

(** A dispatch adds to the log of successful calls exactly when it returns. *)
Lemma success_log_iff_returns tool_name body w :
  (exists result, fst (handle_tool tool_name body w) = Ok result)
  <-> tool_calls (snd (handle_tool tool_name body w)) <> tool_calls w.
Proof.
  pose proof (handle_tool_effect tool_name body w) as H.
  destruct (handle_tool tool_name body w) as [[r|e] w']; simpl.
  - destruct H as [[t Ht] _]. split; [|eauto].
    intros _ Heq. rewrite Ht in Heq.
    apply (f_equal (@List.length json)) in Heq.
    rewrite length_app in Heq. simpl in Heq. lia.
  - destruct H as [Hc _]. split.
    + intros [r Hr]. discriminate.
    + intros Hne. contradiction.
Qed.

(* ------------------------------------------------------------------------- *)
(** ** Alias resolution *)

Lemma flexget_object d keys default :
  _flexget (JObj d) keys default = Ok (first_non_null d keys default).
Proof.
  induction keys as [|k keys IH]; [reflexivity|].
  cbn [_flexget py_get obind first_non_null]. unfold non_null.
  destruct (dict_get d k) as [[]|]; try reflexivity; exact IH.
Qed.

Lemma first_non_null_skip d pre rest default :
  Forall (unset d) pre ->
  first_non_null d (pre ++ rest) default = first_non_null d rest default.
Proof.
  induction 1 as [|k pre Hk _ IH]; [reflexivity|].
  cbn [app first_non_null]. unfold unset in Hk. now rewrite Hk.
Qed.

(** X1.  [_flexget] on an argument object returns the value of the first
    key, in the order given, that is bound to something else than [None]:
    keys before it that are missing or null are passed over, and a value
    that is merely falsy counts.  With no such key it returns the default.
    On a value that is not an object it raises as soon as there is a key to
    look up. *)
Theorem flexget_first_non_null d keys default :
  (forall pre k post v,
      keys = (pre ++ k :: post)%list ->
      Forall (unset d) pre ->
      dict_get d k = Some v -> v <> JNull ->
      _flexget (JObj d) keys default = Ok v)
  /\ (Forall (unset d) keys -> _flexget (JObj d) keys default = Ok default)
  /\ (forall data k keys',
         ~ is_record data -> keys = k :: keys' ->
         _flexget data keys default = Raise AttributeError).
Proof.
  split; [|split].
  - intros pre k post v -> Hpre Hget Hv.
    rewrite flexget_object, (first_non_null_skip _ _ _ _ Hpre).
    cbn [first_non_null]. rewrite Hget. destruct v; try reflexivity.
    contradiction.
  - intros Hall. rewrite flexget_object.
    rewrite <- (app_nil_r keys). now rewrite (first_non_null_skip _ _ _ _ Hall).
  - intros data k keys' Hdata ->.
    destruct data; try reflexivity. exfalso. apply Hdata. exact I.
Qed.

Lemma flexget_first_non_null_witness :
  _flexget (JObj [("message_id", JNull); ("id", JNum 0)])
           ["message_id"; "messageId"; "id"] (JStr "unknown")
  = Ok (JNum 0).
Proof.
  refine (proj1 (flexget_first_non_null
                   [("message_id", JNull); ("id", JNum 0)]
                   ["message_id"; "messageId"; "id"] (JStr "unknown"))
                ["message_id"; "messageId"] "id" [] (JNum 0) eq_refl _ eq_refl _).
  - repeat constructor.
  - discriminate.
Defined.

(* ------------------------------------------------------------------------- *)
(** ** Draft replies *)

Lemma length_take n s : (String.length (take n s) <= n)%nat.
Proof.
  revert s. induction n as [|n IH]; intros s; [simpl; lia|].
  destruct s as [|c s]; simpl; [lia|]. specialize (IH s). lia.
Qed.

(** X2.  [handle_email_draft] answers every argument object.  The target is
    the first non-null of its five aliases, else [unknown]; the draft id is
    [draft_] followed by the text of the target; the preview quotes at most
    100 characters of the instructions (first non-null of six aliases, else
    a fixed sentence), whatever their type, so its length is bounded by the
    length of the target's text plus 122. *)
Theorem email_draft_always_answers w d :
  let target := py_str (first_non_null d message_id_aliases (JStr "unknown")) in
  let instructions :=
    py_str (first_non_null d instructions_aliases
                           (JStr "No instructions provided")) in
  exists preview,
    handle_email_draft w (JObj d)
    = Ok (JObj [("draft_id", JStr ("draft_" ++ target));
                ("preview", JStr preview)])
    /\ preview = "[Draft reply to " ++ target ++ "]: "
                 ++ take 100 instructions ++ "..."
    /\ (String.length preview <= String.length target + 122)%nat.
Proof.
  intros target instructions.
  exists ("[Draft reply to " ++ target ++ "]: " ++ take 100 instructions ++ "...").
  split; [|split].
  - unfold handle_email_draft.
    rewrite !flexget_object. cbn [obind]. reflexivity.
  - reflexivity.
  - rewrite !length_append.
    pose proof (length_take 100 instructions) as H.
    cbn [String.length]. lia.
Qed.

(* ------------------------------------------------------------------------- *)
(** ** Message summaries *)

Lemma inbox_summary_record fields :
  exists s, inbox_summary (JObj fields) = Ok s
            /\ summary_shape s
            /\ field_of "id" s = field_of "id" (JObj fields)
            /\ dict_get (match s with JObj f => f | _ => [] end) "body" = None.
Proof.
  eexists. split; [reflexivity|]. split; [|split; reflexivity].
  eexists. eexists. split; [reflexivity|]. split; [reflexivity|].
  split; [reflexivity|]. apply length_take.
Qed.

Lemma omap_inbox_summary_records records :
  Forall is_record records ->
  exists summaries,
    omap inbox_summary records = Ok summaries
    /\ List.length summaries = List.length records
    /\ map (field_of "id") summaries = map (field_of "id") records
    /\ Forall summary_shape summaries.
Proof.
  induction 1 as [|r l Hr _ [ss [Hss [Hlen [Hid Hshape]]]]].
  - exists []. repeat split. constructor.
  - destruct r as [| | | | |fields]; try contradiction.
    destruct (inbox_summary_record fields) as [s [Hs [Hsh [Hi _]]]].
    exists (s :: ss). cbn [omap]. rewrite Hs, Hss. cbn [obind].
    repeat split.
    + simpl. now rewrite Hlen.
    + cbn [map]. now rewrite Hi, Hid.
    + now constructor.
Qed.

(** X3.  [inbox.list] summarises its fixture.  Over a fixture of records the
    answer has one summary per record, in file order with the record's id,
    each with exactly the seven summary keys (so never the body) and a
    snippet of at most 100 characters; a record without any field gives the
    blank summary.  With no fixture file the list is empty.  A fixture with
    an element that is not a record makes the dispatch raise. *)
Theorem inbox_list_summaries body w :
  let file := fixture_file w "inbox.json" in
  let answer := fst (handle_tool "inbox.list" body w) in
  (file = None -> answer = Ok (JObj [("messages", JArr [])]))
  /\ (forall text records,
         file = Some (File text (Some (JArr records))) ->
         Forall is_record records ->
         exists summaries,
           answer = Ok (JObj [("messages", JArr summaries)])
           /\ List.length summaries = List.length records
           /\ map (field_of "id") summaries = map (field_of "id") records
           /\ Forall summary_shape summaries)
  /\ (forall text pre x post,
         file = Some (File text (Some (JArr (pre ++ x :: post)))) ->
         Forall is_record pre -> ~ is_record x ->
         answer = Raise AttributeError)
  /\ inbox_summary (JObj []) = Ok blank_summary.
Proof.
  intros file answer.
  assert (Hans : answer = run_fixture_list w "inbox.json" "messages"
                                           (Some "inbox_summary")).
  { unfold answer. now erewrite handle_tool_known by reflexivity. }
  split; [|split; [|split]].
  - intros Hfile. rewrite Hans. unfold run_fixture_list, load_fixture.
    unfold file, fixture_file, fixture_path in Hfile. now rewrite Hfile.
  - intros text records Hfile Hrec. rewrite Hans.
    unfold run_fixture_list, load_fixture.
    unfold file, fixture_file, fixture_path in Hfile. rewrite Hfile.
    destruct (omap_inbox_summary_records _ Hrec) as [ss [Hss [Hlen [Hid Hsh]]]].
    exists ss. cbn [obind String.eqb Ascii.eqb Bool.eqb py_iter].
    rewrite Hss. repeat split; assumption.
  - intros text pre x post Hfile Hpre Hx. rewrite Hans.
    unfold run_fixture_list, load_fixture.
    unfold file, fixture_file, fixture_path in Hfile. rewrite Hfile.
    cbn [obind String.eqb Ascii.eqb Bool.eqb py_iter].
    assert (Hom : omap inbox_summary (pre ++ x :: post) = Raise AttributeError).
    { clear Hfile. induction Hpre as [|r l Hr _ IH].
      - cbn [app omap]. destruct x; try reflexivity. exfalso. apply Hx. exact I.
      - destruct r as [| | | | |fields]; try contradiction.
        destruct (inbox_summary_record fields) as [s [Hs _]].
        cbn [app omap]. rewrite Hs. cbn [obind]. now rewrite IH. }
    now rewrite Hom.
  - reflexivity.
Qed.

Lemma inbox_list_summaries_witness :
  exists summaries,
    fst (handle_tool "inbox.list" EmptyBody sample_world)
    = Ok (JObj [("messages", JArr summaries)])
    /\ List.length summaries = 2%nat.
Proof.
  destruct (proj1 (proj2 (inbox_list_summaries EmptyBody sample_world))
              "[...]"
              [JObj [("id", JStr "41"); ("sender", JStr "b@x.com"); ("subject", JStr "Yo")];
               JObj [("id", JNum 42); ("sender", JStr "a@x.com"); ("subject", JStr "Hi")]]
              eq_refl) as [ss [H1 [H2 _]]].
  - repeat constructor.
  - exists ss. split; assumption.
Defined.

(* ------------------------------------------------------------------------- *)
(** ** Exceptions a dispatch can raise *)

Lemma plain_obind {A B} (x : outcome A) (k : A -> outcome B) :
  plain x -> (forall a, plain (k a)) -> plain (obind x k).
Proof.
  destruct x as [a|e]; simpl; intros Hx Hk; [apply Hk|exact Hx].
Qed.

Lemma plain_py_get v k default : plain (py_get v k default).
Proof. destruct v; exact I. Qed.

Lemma plain_py_iter v : plain (py_iter v).
Proof. destruct v; exact I. Qed.

Lemma plain_py_contains v k : plain (py_contains v k).
Proof. destruct v; exact I. Qed.

Lemma plain_py_getitem v k : plain (py_getitem v k).
Proof. destruct v; try exact I. simpl. destruct (dict_get fields k); exact I. Qed.

Lemma plain_py_lstrip_hash v : plain (py_lstrip_hash v).
Proof. destruct v; exact I. Qed.

Lemma plain_flexget data keys default : plain (_flexget data keys default).
Proof.
  induction keys as [|k keys IH]; [exact I|].
  cbn [_flexget]. apply plain_obind; [apply plain_py_get|].
  intros a. destruct a; try exact I. exact IH.
Qed.

Lemma plain_load_fixture w scenario filename :
  plain (load_fixture w scenario filename).
Proof.
  unfold load_fixture. destruct (stat _ _ _) as [[text [v|]|]|]; exact I.
Qed.

Lemma plain_omap {A B} (f : A -> outcome B) l :
  (forall a, plain (f a)) -> plain (omap f l).
Proof.
  intros Hf. induction l as [|a l IH]; [exact I|].
  cbn [omap]. apply plain_obind; [apply Hf|]. intros b.
  apply plain_obind; [exact IH|]. intros bs. exact I.
Qed.

Lemma plain_inbox_summary msg : plain (inbox_summary msg).
Proof. destruct msg; exact I. Qed.

Lemma plain_first_match field v items : plain (first_match field v items).
Proof.
  induction items as [|x items IH]; [exact I|].
  cbn [first_match]. apply plain_obind; [apply plain_py_get|].
  intros a. destruct (String.eqb _ _); [exact I|exact IH].
Qed.

Lemma plain_filter_channel ch items : plain (filter_channel ch items).
Proof.
  induction items as [|m items IH]; [exact I|].
  cbn [filter_channel]. apply plain_obind; [apply plain_py_get|]. intros c.
  apply plain_obind; [apply plain_py_lstrip_hash|]. intros c'.
  apply plain_obind; [exact IH|]. intros rest. exact I.
Qed.

Lemma plain_fill_template ts data val : plain (fill_template ts data val).
Proof.
  unfold fill_template. apply plain_obind.
  - unfold format_kwargs. destruct data; try exact I.
    destruct (dict_mem fields "ts"); exact I.
  - intros kw. destruct (str_format val kw) as [s|[]]; exact I.
Qed.

Lemma plain_template_loop ts data items result :
  plain (template_loop ts data items result).
Proof.
  revert result. induction items as [|[k v] items IH]; intros result; [exact I|].
  cbn [template_loop]. destruct v; try apply IH.
  destruct (contains "{" s); [|apply IH].
  apply plain_obind; [apply plain_fill_template|]. intros s'. apply IH.
Qed.

Lemma plain_echo_loop data fields result : plain (echo_loop data fields result).
Proof.
  revert result. induction fields as [|f fields IH]; intros result; [exact I|].
  cbn [echo_loop]. apply plain_obind; [apply plain_py_contains|].
  intros present. destruct present; [|apply IH].
  apply plain_obind; [apply plain_py_getitem|]. intros v. apply IH.
Qed.

Lemma plain_handle_email_draft w data : plain (handle_email_draft w data).
Proof.
  unfold handle_email_draft. apply plain_obind; [apply plain_flexget|].
  intros a. apply plain_obind; [apply plain_flexget|]. intros b. exact I.
Qed.

Lemma plain_handle_memory_read w data : plain (handle_memory_read w data).
Proof.
  unfold handle_memory_read. apply plain_obind; [apply plain_flexget|].
  intros a. destruct a; try exact I.
  destruct (stat _ _ _) as [[|]|]; exact I.
Qed.

Lemma plain_handle_slack_read_messages w data :
  plain (handle_slack_read_messages w data).
Proof.
  unfold handle_slack_read_messages. apply plain_obind; [apply plain_flexget|].
  intros channel. apply plain_obind; [apply plain_load_fixture|].
  intros loaded. destruct (truthy channel); [|exact I].
  apply plain_obind; [apply plain_py_lstrip_hash|]. intros ch.
  apply plain_obind; [apply plain_py_iter|]. intros items.
  apply plain_obind; [apply plain_filter_channel|]. intros kept. exact I.
Qed.

Lemma plain_handle_search_web w data : plain (handle_search_web w data).
Proof.
  unfold handle_search_web. apply plain_obind; [apply plain_flexget|].
  intros query. apply plain_obind; [apply plain_load_fixture|].
  intros results. destruct (truthy results); [|exact I].
  destruct results; try exact I.
  apply plain_obind; [destruct query; exact I|].
  intros hit. destruct hit; [|exact I].
  apply plain_obind; [apply plain_py_getitem|]. intros r. exact I.
Qed.

(** The handler of every [custom] entry of the catalog is registered, and
    none of the behaviours of the catalog raises an [HTTPException]. *)
Lemma plain_run_behavior tool_name t data w :
  table_get TOOL_CATALOG tool_name = Some t ->
  plain (fst (run_behavior t data w)).
Proof.
  intros H. apply table_get_In in H.
  destruct t as [f k tr|f lf pf k|dr ef irr|h]; simpl.
  - unfold run_fixture_list. apply plain_obind; [apply plain_load_fixture|].
    intros loaded. apply plain_obind; [|intros x; exact I].
    destruct tr as [t|]; [|exact I].
    destruct (String.eqb t "inbox_summary"); [|exact I].
    apply plain_obind; [apply plain_py_iter|]. intros items.
    apply plain_obind; [apply plain_omap, plain_inbox_summary|].
    intros ss. exact I.
  - unfold run_fixture_lookup. apply plain_obind; [apply plain_load_fixture|].
    intros fx.
    assert (Hrest : plain (let? lookup_val := _flexget data [pf; "id"] (JStr "") in
                           let? items := py_iter fx in
                           let? item := first_match lf lookup_val items in
                           Ok (JObj (dict_literal [(k, item);
                                                   ("found", JBool (is_not_none item))])))).
    { apply plain_obind; [apply plain_flexget|]. intros v.
      apply plain_obind; [apply plain_py_iter|]. intros items.
      apply plain_obind; [apply plain_first_match|]. intros item. exact I. }
    destruct fx; try exact Hrest. exact I.
  - unfold run_write_action, bind, now, reading. simpl.
    apply plain_obind; [apply plain_template_loop|]. intros r1.
    apply plain_obind; [apply plain_echo_loop|]. intros r2. exact I.
  - simpl in H.
    repeat (destruct H as [H|H];
            [inversion H; subst; clear H; unfold run_custom; simpl;
             first [ apply plain_handle_email_draft
                   | apply plain_handle_memory_read
                   | apply plain_handle_slack_read_messages
                   | apply plain_handle_search_web ]|]).
    contradiction.
Qed.

Lemma table_get_not_In {A} (t : list (string * A)) k :
  table_get t k = None -> ~ In k (map fst t).
Proof.
  induction t as [|[k' a] t IH]; simpl; [tauto|].
  destruct (String.eqb k' k) eqn:E; [discriminate|].
  intros H [Heq|Hin]; [|now apply IH].
  subst. now rewrite String.eqb_refl in E.
Qed.

Lemma table_get_Some_In {A} (t : list (string * A)) k a :
  table_get t k = Some a -> In k (map fst t).
Proof.
  intros H. apply table_get_In in H. apply (in_map fst) in H. exact H.
Qed.

(** X4.  The only HTTP error a dispatch raises is the 404 of an unknown
    tool: a tool of the catalog never answers with [Missing handler] or any
    other [HTTPException], whatever the body and the fixtures.  A request to
    a tool is therefore answered 200, 404 (exactly for the names outside the
    catalog) or by the server's 500 page. *)
Theorem only_unknown_tool_is_http_error tool_name body w :
  (forall code detail,
      fst (handle_tool tool_name body w) = Raise (HTTPException code detail) ->
      code = 404%Z /\ ~ In tool_name (map fst TOOL_CATALOG)
      /\ detail = unknown_tool_detail tool_name)
  /\ (status (fst (post_tool tool_name body w)) = 404%Z
      <-> ~ In tool_name (map fst TOOL_CATALOG))
  /\ (status (fst (post_tool tool_name body w)) = 200%Z
      \/ status (fst (post_tool tool_name body w)) = 404%Z
      \/ fst (post_tool tool_name body w) = internal_server_error).
Proof.
  assert (Hcases :
            (table_get TOOL_CATALOG tool_name = None
             /\ handle_tool tool_name body w
                = (Raise (HTTPException 404 (unknown_tool_detail tool_name)), w))
            \/ (exists t, table_get TOOL_CATALOG tool_name = Some t
                          /\ plain (fst (handle_tool tool_name body w)))).
  { destruct (table_get TOOL_CATALOG tool_name) as [t|] eqn:E.
    - right. exists t. split; [reflexivity|].
      rewrite (handle_tool_known _ _ _ _ E). now apply plain_run_behavior with tool_name.
    - left. split; [reflexivity|]. unfold handle_tool. now rewrite E. }
  pose proof (post_tool_effect tool_name body w) as [_ Hp].
  split; [|split].
  - intros code detail Hh. destruct Hcases as [[E Hu]|[t [E Hpl]]].
    + rewrite Hu in Hh. cbn [fst] in Hh. inversion Hh; subst.
      split; [reflexivity|]. split; [exact (table_get_not_In _ _ E)|reflexivity].
    + rewrite Hh in Hpl. contradiction.
  - destruct Hcases as [[E Hu]|[t [E Hpl]]].
    + rewrite Hu in Hp. destruct Hp as [Hp _]. rewrite Hp. cbn [status].
      split; [intros _; exact (table_get_not_In _ _ E)|reflexivity].
    + split.
      * intros Hs. exfalso.
        destruct (handle_tool tool_name body w) as [[r|e] w1]; cbn [fst] in Hpl.
        -- destruct Hp as [Hp _]. rewrite Hp in Hs. discriminate.
        -- destruct e; try contradiction;
             destruct Hp as [Hp _]; rewrite Hp in Hs; discriminate.
      * intros Hn. exfalso. apply Hn. exact (table_get_Some_In _ _ _ E).
  - destruct (handle_tool tool_name body w) as [[r|e] w1].
    + left. destruct Hp as [Hp _]. now rewrite Hp.
    + destruct Hcases as [[E Hu]|[t [E Hpl]]].
      * inversion Hu; subst. right. left. destruct Hp as [Hp _]. now rewrite Hp.
      * cbn [fst] in Hpl.
        destruct e; try contradiction; right; right; apply Hp.
Qed.

Lemma only_unknown_tool_is_http_error_witness :
  status (fst (post_tool "exec" EmptyBody sample_world)) = 404%Z.
Proof.
  apply (proj2 (proj1 (proj2 (only_unknown_tool_is_http_error
                                "exec" EmptyBody sample_world)))).
  simpl. intros H.
  repeat (destruct H as [H|H]; [discriminate H|]). exact H.
Defined.

(* ------------------------------------------------------------------------- *)
(** ** One request, with everything it changes *)

Lemma handle_tool_unfold tool_name body t w :
  table_get TOOL_CATALOG tool_name = Some t ->
  handle_tool tool_name body w
  = match run_behavior t (parse_body body) w with
    | (Ok r, w1) => (Ok r, snd (log_tool_call tool_name (parse_body body) r w1))
    | (Raise e, w1) => (Raise e, w1)
    end.
Proof.
  intros H. unfold handle_tool. rewrite H. unfold bind.
  destruct (run_behavior t (parse_body body) w) as [[r|e] w1]; [|reflexivity].
  destruct (log_tool_call_ok tool_name (parse_body body) r w1) as [w2 Hw2].
  rewrite Hw2. reflexivity.
Qed.

Lemma post_tool_step tool_name body w :
  tool_step tool_name body w (snd (post_tool tool_name body w))
            (fst (post_tool tool_name body w)).
Proof.
  destruct (table_get TOOL_CATALOG tool_name) as [t|] eqn:E.
  - pose proof (handle_tool_unfold tool_name body t w E) as Hh.
    pose proof (plain_run_behavior tool_name t (parse_body body) w E) as Hpl.
    destruct (run_behavior_world t (parse_body body) w) as [n Hn].
    destruct (run_behavior t (parse_body body) w) as [[r|e] w1];
      cbn [fst snd] in *; subst w1.
    + unfold post_tool, log_all_requests_middleware, bind, call_next.
      rewrite Hh. cbn [fst snd].
      eapply step_returned with (t1 := clock w n) (t2 := clock w (S n)).
      * exact (table_get_Some_In _ _ _ E).
      * rewrite Hh. reflexivity.
      * reflexivity.
      * reflexivity.
      * reflexivity.
    + unfold post_tool, log_all_requests_middleware, bind, call_next.
      rewrite Hh.
      destruct e; try contradiction; cbn [fst snd];
        (eapply step_crashed;
         [ exact (table_get_Some_In _ _ _ E)
         | rewrite Hh; reflexivity
         | discriminate
         | reflexivity | reflexivity | reflexivity ]).
  - assert (Hh : handle_tool tool_name body w
                 = (Raise (HTTPException 404 (unknown_tool_detail tool_name)), w)).
    { unfold handle_tool. now rewrite E. }
    unfold post_tool, log_all_requests_middleware, bind, call_next.
    rewrite Hh. cbn [fst snd].
    eapply step_unknown with (t2 := clock w (ticks w)).
    + exact (table_get_not_In _ _ E).
    + reflexivity.
    + reflexivity.
    + reflexivity.
Qed.

(* ------------------------------------------------------------------------- *)
(** ** Invariants of the logs over sequences of requests *)

Lemma serve_all_invariant (P : world -> Prop) :
  (forall w r, P w -> P (serve w r)) ->
  forall rs w, P w -> P (serve_all w rs).
Proof.
  intros Hstep. induction rs as [|r rs IH]; intros w Hw; [exact Hw|].
  apply IH. now apply Hstep.
Qed.

Lemma file_entries_append_same files name e :
  file_entries (file_append files name e) name
  = (file_entries files name ++ [e])%list.
Proof.
  induction files as [|[n es] files IH]; simpl.
  - now rewrite String.eqb_refl.
  - destruct (String.eqb n name) eqn:E; simpl; rewrite E; [reflexivity|exact IH].
Qed.

Lemma file_entries_append_other files name e name' :
  name <> name' ->
  file_entries (file_append files name e) name' = file_entries files name'.
Proof.
  intros Hne. induction files as [|[n es] files IH]; simpl.
  - destruct (String.eqb name name') eqn:E; [|reflexivity].
    apply String.eqb_eq in E. contradiction.
  - destruct (String.eqb n name) eqn:E; simpl.
    + apply String.eqb_eq in E. subst n.
      destruct (String.eqb name name') eqn:E'; [|reflexivity].
      apply String.eqb_eq in E'. contradiction.
    + destruct (String.eqb n name'); [reflexivity|exact IH].
Qed.

Lemma append_inj_l (s a b : string) : s ++ a = s ++ b -> a = b.
Proof. induction s as [|c s IH]; simpl; [auto|]. intros [= H]. auto. Qed.

Lemma calls_log_not_requests_log s s' : s = s' -> calls_log s <> requests_log s'.
Proof.
  intros <- H. unfold calls_log, requests_log in H.
  apply append_inj_l in H. discriminate H.
Qed.

(** What one request does to a log file: nothing, or one or two entries
    at its end. *)
Lemma serve_file_grows w r name :
  exists newer,
    file_entries (log_files (serve w r)) name
    = (file_entries (log_files w) name ++ newer)%list.
Proof.
  destruct r as [tool_name body|scenario]; cbn [serve].
  - destruct (post_tool_step tool_name body w)
      as [t1 t2 result _ _ _ _ Hl|t2 _ _ _ Hl|e _ _ _ _ _ Hl]; rewrite Hl.
    + destruct (string_dec (requests_log (CURRENT_SCENARIO w)) name) as [<-|Hr].
      * rewrite file_entries_append_same.
        rewrite file_entries_append_other
          by (apply calls_log_not_requests_log; reflexivity).
        eexists. reflexivity.
      * rewrite (file_entries_append_other _ _ _ _ Hr).
        destruct (string_dec (calls_log (CURRENT_SCENARIO w)) name) as [<-|Hc].
        -- rewrite file_entries_append_same. eexists. reflexivity.
        -- rewrite (file_entries_append_other _ _ _ _ Hc).
           exists []. now rewrite app_nil_r.
    + destruct (string_dec (requests_log (CURRENT_SCENARIO w)) name) as [<-|Hr].
      * rewrite file_entries_append_same. eexists. reflexivity.
      * rewrite (file_entries_append_other _ _ _ _ Hr).
        exists []. now rewrite app_nil_r.
    + exists []. now rewrite app_nil_r.
  - exists []. now rewrite app_nil_r.
Qed.

(** X5.  The log files are append-only: over any sequence of tool requests
    and scenario switches, every log file keeps the entries it had, in
    order, and only gains entries at its end.  A scenario switch empties the
    in-memory logs and leaves the files alone. *)
Theorem log_files_append_only w rs name :
  (exists newer,
      file_entries (log_files (serve_all w rs)) name
      = (file_entries (log_files w) name ++ newer)%list)
  /\ (forall scenario, log_files (serve w (SetScenario scenario)) = log_files w).
Proof.
  split; [|reflexivity].
  revert w. induction rs as [|r rs IH]; intros w.
  - exists []. now rewrite app_nil_r.
  - cbn [serve_all fold_left]. destruct (IH (serve w r)) as [n2 H2].
    destruct (serve_file_grows w r name) as [n1 H1].
    exists (n1 ++ n2)%list. unfold serve_all in H2. rewrite H2, H1.
    now rewrite app_assoc.
Qed.

Lemma serve_logs_mirrored w r : logs_mirrored w -> logs_mirrored (serve w r).
Proof.
  intros [[p Hp] [q Hq]]. destruct r as [tool_name body|scenario]; cbn [serve].
  - destruct (post_tool_effect tool_name body w) as [[_ [Hs _]] _].
    unfold logs_mirrored. rewrite Hs.
    destruct (post_tool_step tool_name body w)
      as [t1 t2 result _ _ Hc Ha Hl|t2 _ Hc Ha Hl|e _ _ _ Hc Ha Hl];
      rewrite Hc, Ha, Hl.
    + split.
      * exists p.
        rewrite file_entries_append_other
          by (intros H; symmetry in H; revert H;
              apply calls_log_not_requests_log; reflexivity).
        rewrite file_entries_append_same, Hp. now rewrite app_assoc.
      * exists q. rewrite file_entries_append_same.
        rewrite file_entries_append_other
          by (apply calls_log_not_requests_log; reflexivity).
        rewrite Hq. now rewrite app_assoc.
    + split.
      * exists p.
        rewrite file_entries_append_other
          by (intros H; symmetry in H; revert H;
              apply calls_log_not_requests_log; reflexivity).
        exact Hp.
      * exists q. rewrite file_entries_append_same, Hq. now rewrite app_assoc.
    + split; [exists p; exact Hp|exists q; exact Hq].
  - split; eexists; cbn; rewrite app_nil_r; reflexivity.
Qed.

(** X6.  From a start with empty in-memory logs, and after any sequence of
    tool requests and scenario switches, what [/tool_calls] holds is the
    tail of the current scenario's calls file, and what [/all_requests]
    holds is the tail of its all-requests file: every entry in memory is
    also on disk, in the same order. *)
Theorem memory_logs_mirror_files w rs :
  started w -> logs_mirrored (serve_all w rs).
Proof.
  intros [Hc Ha]. apply serve_all_invariant; [apply serve_logs_mirrored|].
  split; eexists; [rewrite Hc|rewrite Ha]; rewrite app_nil_r; reflexivity.
Qed.

Lemma memory_logs_mirror_files_witness :
  logs_mirrored
    (serve_all sample_world
               [PostTool "email.read" (Document (JObj [("message_id", JStr "42")]));
                PostTool "exec" EmptyBody;
                SetScenario "standup";
                PostTool "calendar.read" EmptyBody]).
Proof.
  apply memory_logs_mirror_files. split; reflexivity.
Defined.








Lemma serve_logged_calls w r :
  Forall logged_call (tool_calls w) -> Forall logged_call (tool_calls (serve w r)).
Proof.
  intros H. destruct r as [tool_name body|scenario]; cbn [serve].
  - destruct (post_tool_step tool_name body w)
      as [t1 t2 result Hin _ Hc _ _|t2 _ Hc _ _|e _ _ _ Hc _ _];
      rewrite Hc; try exact H.
    apply Forall_app. split; [exact H|]. constructor; [|constructor].
    eexists. eexists. eexists. eexists. split; [reflexivity|].
    split; [exact Hin|apply length_take].
  - constructor.
Qed.

(** X8.  From a start with empty in-memory logs, and after any sequence of
    tool requests and scenario switches, every entry of the log of
    successful calls has the four fields [ts], [tool], [args] and
    [result_summary], names a tool of the catalog (an unknown tool is never
    logged there), and carries a result summary of at most 200
    characters. *)
Theorem success_log_entries_well_formed w rs :
  started w -> Forall logged_call (tool_calls (serve_all w rs)).
Proof.
  intros [Hc _].
  apply (serve_all_invariant (fun w => Forall logged_call (tool_calls w)));
    [apply serve_logged_calls|].
  rewrite Hc. constructor.
Qed.

Lemma success_log_entries_well_formed_witness :
  Forall logged_call
         (tool_calls
            (serve_all sample_world
               [PostTool "email.read" (Document (JObj [("message_id", JStr "42")]));
                PostTool "exec" EmptyBody])).
Proof.
  apply success_log_entries_well_formed. split; reflexivity.
Defined.

(* ------------------------------------------------------------------------- *)
(** ** Tools that only read *)

Ltac same_fields H :=
  match type of H with
  | same_context ?w ?w' =>
      destruct w, w'; unfold same_context in H; cbn in H;
      destruct H as (? & ? & ? & ?); subst
  end.

Lemma run_fixture_list_context w w' f k tr :
  same_context w w' -> run_fixture_list w' f k tr = run_fixture_list w f k tr.
Proof. intros H. same_fields H. reflexivity. Qed.

Lemma run_fixture_lookup_context w w' data f lf pf k :
  same_context w w' ->
  run_fixture_lookup w' data f lf pf k = run_fixture_lookup w data f lf pf k.
Proof. intros H. same_fields H. reflexivity. Qed.

Lemma handle_email_draft_context w w' data :
  same_context w w' -> handle_email_draft w' data = handle_email_draft w data.
Proof. reflexivity. Qed.

Lemma handle_memory_read_context w w' data :
  same_context w w' -> handle_memory_read w' data = handle_memory_read w data.
Proof. intros H. same_fields H. reflexivity. Qed.

Lemma handle_slack_read_messages_context w w' data :
  same_context w w' ->
  handle_slack_read_messages w' data = handle_slack_read_messages w data.
Proof. intros H. same_fields H. reflexivity. Qed.

Lemma handle_search_web_context w w' data :
  same_context w w' -> handle_search_web w' data = handle_search_web w data.
Proof. intros H. same_fields H. reflexivity. Qed.

Lemma same_context_refl w : same_context w w.
Proof. repeat split. Qed.

Lemma same_context_trans w1 w2 w3 :
  same_context w1 w2 -> same_context w2 w3 -> same_context w1 w3.
Proof.
  intros (A1 & A2 & A3 & A4) (B1 & B2 & B3 & B4).
  repeat split; congruence.
Qed.

Lemma serve_all_only_tools_context rs : forall w,
  only_tools rs -> same_context w (serve_all w rs).
Proof.
  induction rs as [|r rs IH]; intros w H; [apply same_context_refl|].
  inversion H; subst. destruct r as [tool_name body|s]; [|contradiction].
  cbn [serve_all fold_left]. apply same_context_trans with (serve w (PostTool tool_name body)).
  - cbn [serve]. apply (post_tool_effect tool_name body w).
  - now apply IH.
Qed.

Lemma read_tool_context tool_name body w w' :
  read_tool tool_name -> same_context w w' ->
  fst (handle_tool tool_name body w') = fst (handle_tool tool_name body w).
Proof.
  unfold read_tool. intros Hread Hctx.
  destruct (table_get TOOL_CATALOG tool_name) as [t|] eqn:E.
  - rewrite !(handle_tool_known _ _ _ _ E).
    destruct t as [f k tr|f lf pf k|dr ef irr|h]; [| |contradiction|]; simpl.
    + now apply run_fixture_list_context.
    + now apply run_fixture_lookup_context.
    + apply table_get_In in E. simpl in E.
      repeat (destruct E as [E|E];
              [inversion E; subst; clear E; unfold run_custom; simpl;
               first [ now apply handle_email_draft_context
                     | now apply handle_memory_read_context
                     | now apply handle_slack_read_messages_context
                     | now apply handle_search_web_context ]|]).
      contradiction.
  - unfold handle_tool. rewrite E. reflexivity.
Qed.

Lemma fixture_reader_read_tool tool_name :
  fixture_reader tool_name -> read_tool tool_name.
Proof.
  unfold fixture_reader, read_tool.
  destruct (table_get TOOL_CATALOG tool_name) as [[]|]; tauto.
Qed.

Lemma last_char_app s t : t <> "" -> last_char (s ++ t) = last_char t.
Proof.
  intros Ht. induction s as [|c s IH]; [reflexivity|].
  cbn [append last_char]. rewrite <- IH.
  destruct (s ++ t) eqn:E; [|reflexivity].
  destruct s; [|discriminate E]. now elim Ht.
Qed.

(** X9.  A tool that is neither a write action nor [memory.read] answers
    from the scenario, the fixtures and its arguments alone.  Whatever
    requests to tools came before (reads, write actions, failures) its
    answer is the same: a write action changes nothing a later read returns,
    and a read called twice gives the same answer twice.  What the requests
    in between write are the two log files, whose names end in
    [_calls.jsonl] and [_all_requests.jsonl] and are no fixture's name
    (every fixture's name ends in [n], every log's in [l]); [memory.read]
    is left out because it reads any file it is asked for, the log files
    included. *)
Theorem fixture_tools_are_repeatable tool_name body w rs :
  fixture_reader tool_name -> only_tools rs ->
  fst (handle_tool tool_name body (serve_all w rs))
  = fst (handle_tool tool_name body w)
  /\ fst (post_tool tool_name body (snd (post_tool tool_name body w)))
     = fst (post_tool tool_name body w)
  /\ (forall fixture scenario,
         In fixture fixture_names ->
         last_char fixture = Some "n"%char
         /\ last_char (calls_log scenario) = Some "l"%char
         /\ last_char (requests_log scenario) = Some "l"%char).
Proof.
  intros Hfix Hrs. pose proof (fixture_reader_read_tool _ Hfix) as Hread.
  split; [|split]; cycle 2.
  { intros fixture scenario Hin. split; [|split].
    - simpl in Hin.
      repeat (destruct Hin as [<-|Hin]; [reflexivity|]). contradiction.
    - unfold calls_log. now rewrite last_char_app.
    - unfold requests_log. now rewrite last_char_app. }
  - apply read_tool_context; [exact Hread|].
    now apply serve_all_only_tools_context.
  - assert (Hctx : same_context w (snd (post_tool tool_name body w)))
      by apply (post_tool_effect tool_name body w).
    pose proof (read_tool_context tool_name body _ _ Hread Hctx) as Hsame.
    pose proof (post_tool_effect tool_name body w) as [_ H1].
    pose proof (post_tool_effect tool_name body (snd (post_tool tool_name body w)))
      as [_ H2].
    destruct (handle_tool tool_name body w) as [[r|e] w1];
      destruct (handle_tool tool_name body (snd (post_tool tool_name body w)))
        as [[r'|e'] w1']; cbn [fst] in Hsame; try discriminate;
      inversion Hsame; subst.
    + destruct H1 as [H1 _]. destruct H2 as [H2 _]. now rewrite H1, H2.
    + destruct e; destruct H1 as [H1 _]; destruct H2 as [H2 _]; now rewrite H1, H2.
Qed.

Lemma fixture_tools_are_repeatable_witness :
  fst (handle_tool "inbox.list" EmptyBody
         (serve_all sample_world
            [PostTool "email.archive" (Document (JObj [("message_id", JStr "42")]));
             PostTool "email.send" (Document (JObj [("draft_id", JStr "d1")]))]))
  = fst (handle_tool "inbox.list" EmptyBody sample_world).
Proof.
  refine (proj1 (fixture_tools_are_repeatable "inbox.list" EmptyBody sample_world _ _ _)).
  - exact I.
  - repeat constructor.
Defined.

(* ------------------------------------------------------------------------- *)
(** ** Notes that cannot be read *)

(** X10.  [handle_memory_read] swallows what goes wrong once it has the
    requested path: for an argument object the answer is always a result,
    the text of a regular file with [exists: true] or else
    [{content: null, exists: false}], which is what a requested path that is
    not a string, a path that leads nowhere and a path that leads to a
    directory all give.  Only a body that is not an object makes the handler
    raise, since the path is looked up before the [try]. *)
Theorem memory_read_swallows_failures w :
  (forall d, ~ is_string (requested_path d) ->
             handle_memory_read w (JObj d) = Ok missing_note)
  /\ (forall d s,
         requested_path d = JStr s ->
         stat (root w) (cwd w) (note_path w s) = None ->
         handle_memory_read w (JObj d) = Ok missing_note)
  /\ (forall d s entries,
         requested_path d = JStr s ->
         stat (root w) (cwd w) (note_path w s) = Some (Dir entries) ->
         handle_memory_read w (JObj d) = Ok missing_note)
  /\ (forall d s text doc,
         requested_path d = JStr s ->
         stat (root w) (cwd w) (note_path w s) = Some (File text doc) ->
         handle_memory_read w (JObj d) = Ok (disclosed text))
  /\ (forall data, ~ is_record data ->
                   handle_memory_read w data = Raise AttributeError).
Proof.
  split; [|split; [|split; [|split]]].
  - intros d Hs. unfold handle_memory_read.
    rewrite flexget_requested_path. cbn [obind].
    destruct (requested_path d); try reflexivity. exfalso. apply Hs. exact I.
  - intros d s Hreq Hstat. unfold handle_memory_read.
    rewrite flexget_requested_path, Hreq. cbn [obind].
    unfold note_path in Hstat. now rewrite Hstat.
  - intros d s entries Hreq Hstat. unfold handle_memory_read.
    rewrite flexget_requested_path, Hreq. cbn [obind].
    unfold note_path in Hstat. now rewrite Hstat.
  - intros d s text doc Hreq Hstat. unfold handle_memory_read.
    rewrite flexget_requested_path, Hreq. cbn [obind].
    unfold note_path in Hstat. now rewrite Hstat.
  - intros data Hdata. destruct data; try reflexivity.
    exfalso. apply Hdata. exact I.
Qed.

Lemma memory_read_swallows_failures_witness :
  handle_memory_read sample_world (JObj [("path", JNum 7)]) = Ok missing_note
  /\ handle_memory_read sample_world (JObj [("path", JStr "no-such-note.md")])
     = Ok missing_note
  /\ handle_memory_read sample_world (JObj []) = Ok missing_note
  /\ handle_memory_read sample_world (JArr []) = Raise AttributeError.
Proof.
  destruct (memory_read_swallows_failures sample_world)
    as [H1 [H2 [H3 [_ H5]]]].
  split; [|split; [|split]].
  - apply H1. simpl. tauto.
  - apply (H2 _ "no-such-note.md"); reflexivity.
  - apply (H3 [] "" [("notes.md", File "remember" None)]); reflexivity.
  - apply H5. simpl. tauto.
Defined.

(* ------------------------------------------------------------------------- *)
(** ** Fixtures with elements that are not records *)

Lemma first_match_not_record field v pre x post :
  Forall is_record pre ->
  Forall (fun r => ~ matches field v r) pre ->
  ~ is_record x ->
  first_match field v (pre ++ x :: post) = Raise AttributeError.
Proof.
  unfold matches. intros Hpre Hno Hx.
  induction pre as [|r pre IH]; simpl.
  - destruct x; try reflexivity. exfalso. apply Hx. exact I.
  - inversion Hpre; subst. inversion Hno; subst.
    destruct r; try contradiction. simpl in *.
    destruct (String.eqb _ _) eqn:E.
    + apply String.eqb_eq in E. contradiction.
    + now apply IH.
Qed.

(** X11.  A lookup scans the fixture lazily.  When the records before some
    element do not match: if that element is a matching record it is the
    answer, whatever follows it in the file (what follows is never looked
    at, so it need not even be a record); if that element is not a record
    the dispatch raises.  A fixture file that holds [null] is answered like
    a missing file. *)
Theorem lookup_scans_lazily
        tool_name fixture lookup_field param_field response_key body d w :
  table_get TOOL_CATALOG tool_name
  = Some (fixture_lookup fixture lookup_field param_field response_key) ->
  parse_body body = JObj d ->
  let file := fixture_file w fixture in
  let lookup_val := lookup_value d param_field in
  let answer := fst (handle_tool tool_name body w) in
  (forall text pre x post,
      file = Some (File text (Some (JArr (pre ++ x :: post)))) ->
      Forall is_record pre ->
      Forall (fun r => ~ matches lookup_field lookup_val r) pre ->
      (is_record x -> matches lookup_field lookup_val x ->
       answer = Ok (JObj [(response_key, x); ("found", JBool true)]))
      /\ (~ is_record x -> answer = Raise AttributeError))
  /\ (forall text,
         file = Some (File text (Some JNull)) ->
         answer = Ok (JObj [(response_key, JNull); ("found", JBool false)])).
Proof.
  intros Hcat Hbody file lookup_val answer.
  pose proof (lookup_response_key _ _ _ _ _ Hcat) as Hkey.
  assert (Hans : answer = run_fixture_lookup w (JObj d) fixture lookup_field
                                             param_field response_key).
  { unfold answer. rewrite (handle_tool_known _ _ _ _ Hcat), Hbody. reflexivity. }
  split.
  - intros text pre x post Hfile Hpre Hno.
    assert (Hrun : answer =
                   (let? item := first_match lookup_field lookup_val
                                             (pre ++ x :: post) in
                    Ok (JObj (dict_literal [(response_key, item);
                                            ("found", JBool (is_not_none item))])))).
    { rewrite Hans. unfold run_fixture_lookup.
      unfold file, fixture_file in Hfile.
      rewrite (load_fixture_doc _ _ _ _ _ Hfile). cbn [obind].
      rewrite flexget_lookup_value. reflexivity. }
    split.
    + intros Hx Hm.
      rewrite Hrun, (first_match_found _ _ _ _ _ Hpre Hx Hno Hm). simpl.
      rewrite dict_literal_pair by assumption.
      destruct x; try contradiction. reflexivity.
    + intros Hx. rewrite Hrun.
      now rewrite (first_match_not_record _ _ _ _ _ Hpre Hno Hx).
  - intros text Hfile. rewrite Hans. unfold run_fixture_lookup.
    unfold file, fixture_file in Hfile.
    rewrite (load_fixture_doc _ _ _ _ _ Hfile). simpl.
    now rewrite dict_literal_pair.
Qed.

Lemma lookup_scans_lazily_witness :
  fst (handle_tool "email.read" (Document (JObj [("id", JStr "7")]))
                   junk_tail_world)
  = Ok (JObj [("email", JObj [("id", JNum 7)]); ("found", JBool true)]).
Proof.
  destruct (lookup_scans_lazily
              "email.read" "inbox.json" "id" "message_id" "email"
              (Document (JObj [("id", JStr "7")])) [("id", JStr "7")]
              junk_tail_world eq_refl eq_refl) as [H _].
  destruct (H "[...]" [] (JObj [("id", JNum 7)]) [JStr "junk"] eq_refl)
    as [Hfound _].
  - constructor.
  - constructor.
  - apply Hfound; [exact I|reflexivity].
Defined.

(* ------------------------------------------------------------------------- *)
(** ** Queries that are not strings *)

(** X12.  [handle_search_web] against a non-empty mapping fixture, for a
    query that is not a string: a number or a boolean is no key of the
    mapping and gets the placeholder, which quotes its text; a list or a
    dict cannot be hashed, and the handler raises [TypeError]. *)
Theorem search_web_query_types w d text m :
  fixture_file w "web_search_results.json" = Some (File text (Some (JObj m))) ->
  m <> [] ->
  let query := search_query d in
  (unhashable query -> handle_search_web w (JObj d) = Raise TypeError)
  /\ (~ unhashable query -> ~ is_string query ->
      handle_search_web w (JObj d) = Ok (search_placeholder query)).
Proof.
  intros Hfile Hm query.
  assert (Hans : handle_search_web w (JObj d)
                 = (let? hit := dict_contains m query in
                    if hit then
                      let? r := py_getitem (JObj m) (py_str query) in
                      Ok (JObj [("results", r)])
                    else Ok (search_placeholder query))).
  { unfold handle_search_web. rewrite flexget_search_query. cbn [obind].
    unfold load_fixture. unfold fixture_file, fixture_path in Hfile.
    rewrite Hfile. cbn [obind]. destruct m; [contradiction|reflexivity]. }
  rewrite Hans. split.
  - intros Hq. destruct query; try contradiction; reflexivity.
  - intros Hq Hs. destruct query; try reflexivity; exfalso;
      first [apply Hq; exact I | apply Hs; exact I].
Qed.

Lemma search_web_query_types_witness :
  handle_search_web search_map_world (JObj [("query", JArr [JStr "rocq"])])
  = Raise TypeError
  /\ handle_search_web search_map_world (JObj [("q", JNum 7)])
     = Ok (search_placeholder (JNum 7)).
Proof.
  split.
  - refine (proj1 (search_web_query_types
                     search_map_world [("query", JArr [JStr "rocq"])] "{...}"
                     [("rocq", JArr [JStr "hit"])] eq_refl _) I).
    discriminate.
  - refine (proj2 (search_web_query_types
                     search_map_world [("q", JNum 7)] "{...}"
                     [("rocq", JArr [JStr "hit"])] eq_refl _) _ _).
    + discriminate.
    + simpl. tauto.
    + simpl. tauto.
Defined.

(* ------------------------------------------------------------------------- *)
(** ** Write actions on inputs without a key [ts] *)

Lemma dict_get_filled_template ts template k :
  dict_get (filled_template ts template) k
  = option_map (filled ts) (dict_get template k).
Proof.
  unfold filled_template.
  induction template as [|[k' v] template IH]; [reflexivity|].
  simpl. destruct (String.eqb k' k); [reflexivity|exact IH].
Qed.

Lemma dict_get_In_keys d k v : dict_get d k = Some v -> In k (dict_keys d).
Proof.
  induction d as [|[k' v'] d IH]; simpl; [discriminate|].
  destruct (String.eqb k' k) eqn:E; [|auto].
  apply String.eqb_eq in E. auto.
Qed.

(** X13.  A [write_action] tool of the catalog called with an argument
    object that has no key [ts] returns a response.  Its timestamp is 14
    decimal digits, read from the clock at the call.  A field of the echo
    list that the input has carries the input's value; any other key keeps
    the template's value with [{ts}] replaced by the timestamp; and the
    response has no key besides those of the template and of the echo list:
    an argument outside the echo list is never reflected. *)
Theorem write_action_without_ts
        tool_name default_response echo_fields irreversible d w :
  table_get TOOL_CATALOG tool_name
  = Some (write_action default_response echo_fields irreversible) ->
  dict_mem d "ts" = false ->
  let template := template_of default_response in
  exists stamp res,
    fst (handle_tool tool_name (Document (JObj d)) w) = Ok (JObj res)
    /\ stamp = strftime_ts (clock w (ticks w))
    /\ String.length stamp = 14%nat /\ all_digits stamp = true
    /\ (forall f v, In f echo_fields -> dict_get d f = Some v ->
                    dict_get res f = Some v)
    /\ (forall k, (~ In k echo_fields \/ dict_get d k = None) ->
                  dict_get res k = option_map (filled stamp) (dict_get template k))
    /\ (forall k v, dict_get res k = Some v ->
                    In k (dict_keys template) \/ In k echo_fields).
Proof.
  intros Hcat Hts template.
  exists (strftime_ts (clock w (ticks w))).
  exists (echoed d echo_fields
                 (filled_template (strftime_ts (clock w (ticks w))) template)).
  destruct (echoed_fields d echo_fields
              (filled_template (strftime_ts (clock w (ticks w))) template))
    as [Hecho Hkeep].
  split; [exact (write_action_response _ _ _ _ _ _ Hcat Hts)|].
  split; [reflexivity|].
  split; [apply strftime_ts_digits|]. split; [apply strftime_ts_digits|].
  split; [exact Hecho|]. split.
  - intros k Hk. rewrite (Hkeep k Hk). apply dict_get_filled_template.
  - intros k v Hget.
    destruct (in_dec string_dec k echo_fields) as [Hin|Hnin]; [now right|].
    left. rewrite (Hkeep k (or_introl Hnin)), dict_get_filled_template in Hget.
    destruct (dict_get template k) as [v0|] eqn:E; [|discriminate].
    exact (dict_get_In_keys _ _ _ E).
Qed.

Lemma write_action_without_ts_witness :
  exists stamp res,
    fst (handle_tool "calendar.create"
                     (Document (JObj [("title", JStr "Standup");
                                      ("attendees", JArr [JStr "ann"])]))
                     sample_world) = Ok (JObj res)
    /\ stamp = "20240309120005"
    /\ dict_get res "title" = Some (JStr "Standup")
    /\ dict_get res "event_id" = Some (JStr "evt_20240309120005")
    /\ dict_get res "attendees" = None.
Proof.
  destruct (write_action_without_ts
              "calendar.create"
              (Some [("status", JStr "created"); ("event_id", JStr "evt_{ts}")])
              ["title"; "start"; "end"] true
              [("title", JStr "Standup"); ("attendees", JArr [JStr "ann"])]
              sample_world eq_refl eq_refl)
    as [stamp [res [Hres [Hstamp [_ [_ [Hecho [Hkeep Hkeys]]]]]]]].
  exists stamp, res. split; [exact Hres|]. split; [exact Hstamp|].
  split; [|split].
  - apply Hecho; [simpl; tauto|reflexivity].
  - rewrite (Hkeep "event_id"); [|right; reflexivity].
    rewrite Hstamp. reflexivity.
  - destruct (dict_get res "attendees") as [v|] eqn:E; [|reflexivity].
    exfalso. destruct (Hkeys _ _ E) as [H|H]; simpl in H;
      repeat (destruct H as [H|H]; [discriminate H|]); exact H.
Defined.

(* ------------------------------------------------------------------------- *)
(** ** The entry of the log of all requests *)





Lemma wire_body_json_settled b : Wire.body_json (Wire.Settled b) = Ok (logged_body b).
Proof. now destruct b. Qed.

(** A request sent without percent escapes, with a body [json.loads]
    settles, is served as [post_tool] has it. *)
Lemma wire_post_tool_plain tool_name b w :
  Wire.post_tool (Wire.plain_request tool_name b) w = post_tool tool_name b w.
Proof.
  unfold Wire.post_tool, post_tool, Wire.log_all_requests_middleware,
    log_all_requests_middleware, Wire.plain_request, bind, reading.
  cbn [Wire.url_path Wire.payload Wire.tool_name].
  change (startswith "/tools/" ("/tools/" ++ tool_name)) with true.
  cbn iota. rewrite wire_body_json_settled.
  unfold Wire.call_next, call_next. cbn [Wire.tool_name Wire.payload].
  rewrite wire_handle_tool_settled.
  destruct (handle_tool tool_name b w) as [[result|e] w1]; [reflexivity|].
  destruct e; reflexivity.
Qed.

Example logged_inner_tools : replace "/tools/" "" "/tools/a/tools/b" = "ab".
Proof. reflexivity. Qed.




(* ------------------------------------------------------------------------- *)
(** ** A scenario without a directory *)

Lemma walk_none_app rt ps qs :
  walk [] rt ps = None -> walk [] rt (ps ++ qs) = None.
Proof.
  rewrite !walk_walk_to, walk_to_app.
  destruct (walk_to [] rt ps) as [[st c]|]; [discriminate|reflexivity].
Qed.

Lemma stat_extend_none rt wd p extra :
  stat rt wd p = None -> stat rt wd (path_extend p extra) = None.
Proof.
  unfold stat, path_extend. cbn [absolute parts].
  destruct (absolute p); intros H.
  - now apply walk_none_app.
  - rewrite app_assoc. now apply walk_none_app.
Qed.

Lemma catalog_fixture_absent w tool_name t f :
  table_get TOOL_CATALOG tool_name = Some t ->
  fixture_of t = JStr f ->
  stat (root w) (cwd w) (scenario_dir w) = None ->
  load_fixture w (CURRENT_SCENARIO w) f = Ok JNull.
Proof.
  intros Hcat Hf Hdir. apply load_fixture_absent.
  apply table_get_In in Hcat. simpl in Hcat.
  repeat (destruct Hcat as [Hcat|Hcat];
          [inversion Hcat; subst; clear Hcat;
           first [ discriminate Hf
                 | inversion Hf; subst;
                   exact (stat_extend_none _ _ _ [_] Hdir) ]|]).
  contradiction.
Qed.

(** X15.  When the current scenario has no directory under the fixtures
    path (a name [set_scenario] accepts all the same), no read fails for
    want of a fixture: every [fixture_list] tool answers with an empty
    list, every [fixture_lookup] tool with [found: false], the message
    handler with no message and the web search with the placeholder. *)
Theorem scenario_without_directory w :
  stat (root w) (cwd w) (scenario_dir w) = None ->
  (forall tool_name fixture response_key transform body,
      table_get TOOL_CATALOG tool_name
      = Some (fixture_list fixture response_key transform) ->
      fst (handle_tool tool_name body w) = Ok (JObj [(response_key, JArr [])]))
  /\ (forall tool_name fixture lookup_field param_field response_key body d,
         table_get TOOL_CATALOG tool_name
         = Some (fixture_lookup fixture lookup_field param_field response_key) ->
         parse_body body = JObj d ->
         fst (handle_tool tool_name body w)
         = Ok (JObj [(response_key, JNull); ("found", JBool false)]))
  /\ (forall rest c,
         handle_slack_read_messages w (JObj (("channel", JStr c) :: rest))
         = Ok (JObj [("messages", JArr [])]))
  /\ (forall d, handle_search_web w (JObj d)
                = Ok (search_placeholder (search_query d))).
Proof.
  intros Hdir.
  assert (Hslack : load_fixture w (CURRENT_SCENARIO w) "slack_messages.json"
                   = Ok JNull).
  { apply load_fixture_absent.
    exact (stat_extend_none _ _ _ ["slack_messages.json"] Hdir). }
  assert (Hsearch : load_fixture w (CURRENT_SCENARIO w) "web_search_results.json"
                    = Ok JNull).
  { apply load_fixture_absent.
    exact (stat_extend_none _ _ _ ["web_search_results.json"] Hdir). }
  split; [|split; [|split]].
  - intros tool_name fixture response_key transform body Hcat.
    rewrite (handle_tool_known _ _ _ _ Hcat). simpl. unfold run_fixture_list.
    rewrite (catalog_fixture_absent w _ _ fixture Hcat eq_refl Hdir).
    cbn [obind].
    destruct transform as [t|]; [destruct (String.eqb t "inbox_summary")|];
      reflexivity.
  - intros tool_name fixture lookup_field param_field response_key body d
           Hcat Hbody.
    rewrite (handle_tool_known _ _ _ _ Hcat). simpl. unfold run_fixture_lookup.
    rewrite (catalog_fixture_absent w _ _ fixture Hcat eq_refl Hdir).
    cbn [obind]. rewrite dict_literal_pair; [reflexivity|].
    exact (lookup_response_key _ _ _ _ _ Hcat).
  - intros rest c. unfold handle_slack_read_messages.
    cbn [_flexget py_get dict_get String.eqb Ascii.eqb Bool.eqb obind].
    rewrite Hslack. cbn [obind truthy].
    destruct c as [|a c]; [reflexivity|].
    cbn [truthy String.eqb negb py_lstrip_hash obind py_iter filter_channel].
    reflexivity.
  - intros d. unfold handle_search_web.
    rewrite flexget_search_query. cbn [obind]. rewrite Hsearch. reflexivity.
Qed.

Lemma scenario_without_directory_witness :
  fst (handle_tool "task.list" EmptyBody
                   (snd (set_scenario "no_such_scenario" sample_world)))
  = Ok (JObj [("tasks", JArr [])]).
Proof.
  refine (proj1 (scenario_without_directory
                   (snd (set_scenario "no_such_scenario" sample_world)) _)
                "task.list" "tasks.json" "tasks" None EmptyBody eq_refl).
  reflexivity.
Defined.

(* ------------------------------------------------------------------------- *)
(** ** The runner's tools and the server's catalog *)

Lemma offered_not_in_catalog name :
  In name offered_tools -> ~ In name (map fst TOOL_CATALOG).
Proof.
  intros H. simpl in H.
  repeat (destruct H as [<-|H];
          [simpl; intros K;
           repeat (destruct K as [K|K]; [discriminate K|]); exact K|]).
  contradiction.
Qed.

Lemma post_unknown_tool tool_name body w :
  ~ In tool_name (map fst TOOL_CATALOG) ->
  fst (post_tool tool_name body w)
  = {| status := 404;
       content := JObj [("detail", JStr (unknown_tool_detail tool_name))] |}
  /\ tool_calls (snd (post_tool tool_name body w)) = tool_calls w.
Proof.
  intros Hn.
  destruct (post_tool_step tool_name body w)
    as [t1 t2 result Hin _ _ _ _|t2 _ Hc _ _|e Hin _ _ _ _ _];
    try contradiction.
  split; [reflexivity|exact Hc].
Qed.

Lemma serve_all_unknown_tools calls : forall w,
  Forall (fun c => In (fst c) offered_tools) calls ->
  tool_calls (serve_all w (episode_requests calls)) = tool_calls w.
Proof.
  induction calls as [|c calls IH]; intros w H; [reflexivity|].
  inversion H; subst. cbn [episode_requests map serve_all fold_left serve].
  fold (episode_requests calls).
  fold (serve_all (snd (post_tool (fst c) (Document (snd c)) w))
                  (episode_requests calls)).
  rewrite (IH _ H3).
  now apply post_unknown_tool, offered_not_in_catalog.
Qed.

(** X16.  None of the six tools the runner offers to the model ([exec],
    [slack], [memory_search], [memory_get], [web_search], [read]) is a key
    of the server's catalog.  So [call_mock_tool] answers each of their
    calls with the body of the 404, whatever the arguments, and after
    [reset_scenario] an episode in which the model calls only offered tools
    ends with an empty log of tool calls: [tool_calls_raw] is empty and
    [tool_calls_by_type] has no key. *)
Theorem runner_tools_unknown_to_server scenario calls w :
  Forall (fun c => In (fst c) offered_tools) calls ->
  let after := serve_all (reset_scenario scenario w) (episode_requests calls) in
  (forall name, In name offered_tools -> table_get TOOL_CATALOG name = None)
  /\ (forall name args w0,
         In name offered_tools ->
         fst (call_mock_tool name args w0)
         = JObj [("detail", JStr (unknown_tool_detail name))]
         /\ tool_calls (snd (call_mock_tool name args w0)) = tool_calls w0)
  /\ get_tool_calls_log after = Ok (JArr [])
  /\ (forall logged, get_tool_calls_log after = Ok (JArr logged) ->
                     _count_by_type logged = Ok []).
Proof.
  intros Hcalls after.
  assert (Hlog : tool_calls after = []).
  { unfold after. now rewrite (serve_all_unknown_tools _ _ Hcalls). }
  split; [|split; [|split]].
  - intros name Hin. apply table_get_None. now apply offered_not_in_catalog.
  - intros name args w0 Hin. unfold call_mock_tool.
    destruct (post_unknown_tool name (Document args) w0
                                (offered_not_in_catalog _ Hin)) as [H1 H2].
    destruct (post_tool name (Document args) w0) as [resp w']. cbn [fst snd] in *.
    subst resp. split; [reflexivity|exact H2].
  - unfold get_tool_calls_log, get_tool_calls. rewrite Hlog. reflexivity.
  - unfold get_tool_calls_log, get_tool_calls. rewrite Hlog.
    intros logged [= <-]. reflexivity.
Qed.

Lemma runner_tools_unknown_to_server_witness :
  get_tool_calls_log
    (serve_all (reset_scenario "inbox_triage" sample_world)
               (episode_requests
                  [("exec", JObj [("command", JStr "himalaya envelope list")]);
                   ("slack", JObj [("action", JStr "readMessages");
                                   ("channelId", JStr "C_ENG")]);
                   ("memory_get", JObj [("path", JStr "goals.md")])]))
  = Ok (JArr []).
Proof.
  refine (proj1 (proj2 (proj2 (runner_tools_unknown_to_server
                                 "inbox_triage" _ sample_world _)))).
  repeat constructor; simpl; tauto.
Defined.

(* ------------------------------------------------------------------------- *)
(** ** Counting calls by tool *)

Lemma counts_get_set_same counts s n :
  counts_get (counts_set counts (JStr s) n) (JStr s) = Some n.
Proof.
  induction counts as [|[k m] counts IH]; simpl.
  - now rewrite String.eqb_refl.
  - destruct (py_key_eqb k (JStr s)) eqn:E; simpl; rewrite E; [reflexivity|exact IH].
Qed.

Lemma py_key_eqb_str k s s' :
  py_key_eqb k (JStr s) = true -> s <> s' -> py_key_eqb k (JStr s') = false.
Proof.
  destruct k; simpl; try discriminate.
  intros H Hne. apply String.eqb_eq in H. subst.
  destruct (String.eqb s s') eqn:E; [|reflexivity].
  apply String.eqb_eq in E. contradiction.
Qed.

Lemma counts_get_set_other counts s n s' :
  s <> s' ->
  counts_get (counts_set counts (JStr s) n) (JStr s')
  = counts_get counts (JStr s').
Proof.
  intros Hne. induction counts as [|[k m] counts IH]; simpl.
  - destruct (String.eqb s s') eqn:E; [|reflexivity].
    apply String.eqb_eq in E. contradiction.
  - destruct (py_key_eqb k (JStr s)) eqn:E; simpl.
    + now rewrite (py_key_eqb_str _ _ _ E Hne).
    + destruct (py_key_eqb k (JStr s')); [reflexivity|exact IH].
Qed.

Lemma total_count_set counts s :
  total_count (counts_set counts (JStr s) (count_of counts s + 1))
  = (total_count counts + 1)%Z.
Proof.
  unfold count_of. induction counts as [|[k m] counts IH]; simpl; [lia|].
  destruct (py_key_eqb k (JStr s)) eqn:E; simpl; [lia|].
  rewrite IH. lia.
Qed.

Lemma count_loop_counts calls : forall counts,
  Forall tool_named calls ->
  exists result,
    count_loop calls counts = Ok result
    /\ total_count result = (total_count counts + Z.of_nat (List.length calls))%Z
    /\ forall name,
         count_of result name
         = (count_of counts name
            + Z.of_nat (List.length (calls_of name calls)))%Z.
Proof.
  induction calls as [|c calls IH]; intros counts H.
  - exists counts. split; [reflexivity|]. split; [simpl; lia|].
    intros name. simpl. lia.
  - inversion H as [|c' l Hc Hl]; subst.
    assert (Hstep : count_loop (c :: calls) counts
                    = count_loop calls
                        (counts_set counts (JStr (counted_tool c))
                                    (count_of counts (counted_tool c) + 1))).
    { destruct c as [| | | | |f]; try contradiction.
      unfold counted_tool, count_of. simpl in Hc. cbn [count_loop py_get obind].
      destruct (dict_get f "tool") as [[]|]; try contradiction; reflexivity. }
    destruct (IH (counts_set counts (JStr (counted_tool c))
                             (count_of counts (counted_tool c) + 1)) Hl)
      as [result [Hr [Ht Hn]]].
    exists result. split; [now rewrite Hstep|]. split.
    + rewrite Ht, total_count_set. cbn [List.length]. lia.
    + intros name. rewrite Hn. unfold calls_of. cbn [filter].
      destruct (String.eqb (counted_tool c) name) eqn:E.
      * apply String.eqb_eq in E. subst name.
        unfold count_of at 1. rewrite counts_get_set_same.
        cbn [List.length]. lia.
      * assert (Hne : counted_tool c <> name)
          by (intros Heq; rewrite Heq, String.eqb_refl in E; discriminate E).
        unfold count_of at 1. rewrite (counts_get_set_other _ _ _ _ Hne).
        fold (count_of counts name). lia.
Qed.

(** X17.  [_count_by_type], on call records whose tool is a string or is
    missing, returns counts that add up to the number of calls; the count of
    a tool name is the number of calls with that tool, and a call without a
    tool is counted under [unknown].  A call that is not a record makes it
    raise. *)
Theorem count_by_type_totals calls :
  Forall tool_named calls ->
  (exists counts,
      _count_by_type calls = Ok counts
      /\ total_count counts = Z.of_nat (List.length calls)
      /\ forall name,
           count_of counts name = Z.of_nat (List.length (calls_of name calls)))
  /\ counted_tool (JObj []) = "unknown"
  /\ (forall x rest, ~ is_record x ->
                     _count_by_type (x :: rest) = Raise AttributeError).
Proof.
  intros H. split; [|split].
  - destruct (count_loop_counts calls [] H) as [result [Hr [Ht Hn]]].
    exists result. split; [exact Hr|]. split.
    + rewrite Ht. reflexivity.
    + intros name. rewrite Hn. reflexivity.
  - reflexivity.
  - intros x rest Hx. destruct x; try reflexivity. exfalso. apply Hx. exact I.
Qed.

Lemma count_by_type_totals_witness :
  exists counts,
    _count_by_type [JObj [("tool", JStr "inbox.list")];
                    JObj [("tool", JStr "email.read")];
                    JObj [("args", JObj [])];
                    JObj [("tool", JStr "inbox.list")]]
    = Ok counts
    /\ total_count counts = 4%Z
    /\ count_of counts "inbox.list" = 2%Z
    /\ count_of counts "unknown" = 1%Z.
Proof.
  destruct (proj1 (count_by_type_totals
                     [JObj [("tool", JStr "inbox.list")];
                      JObj [("tool", JStr "email.read")];
                      JObj [("args", JObj [])];
                      JObj [("tool", JStr "inbox.list")]]
                     ltac:(repeat constructor)))
    as [counts [Hc [Ht Hn]]].
  exists counts. split; [exact Hc|]. split; [exact Ht|].
  split; [exact (Hn "inbox.list")|exact (Hn "unknown")].
Defined.

(* ------------------------------------------------------------------------- *)
(** ** Messages that cannot be filtered *)

Lemma filter_channel_bad ch pre m post :
  Forall is_message pre -> ~ is_message m ->
  filter_channel ch (pre ++ m :: post) = Raise AttributeError.
Proof.
  intros Hpre Hm. induction Hpre as [|x pre Hx _ IH].
  - cbn [app filter_channel].
    destruct m as [| | | | |f]; try reflexivity.
    simpl in Hm. cbn [py_get].
    destruct (dict_get f "channel") as [[]|]; try reflexivity;
      exfalso; apply Hm; exact I.
  - cbn [app filter_channel].
    destruct x as [| | | | |f]; try contradiction.
    simpl in Hx. cbn [py_get].
    destruct (dict_get f "channel") as [[]|]; try contradiction;
      cbn [obind py_lstrip_hash]; now rewrite IH.
Qed.

(** X18.  The channel filter is applied to every message of the fixture.
    When one element is not a message record (not an object, or an object
    whose channel is not a string), a read with a non-empty channel argument
    raises, wherever that element stands in the file, while a read without a
    channel argument returns the whole fixture, that element included. *)
Theorem channel_filter_needs_string_channels w text pre m post :
  fixture_file w "slack_messages.json"
  = Some (File text (Some (JArr (pre ++ m :: post)))) ->
  Forall is_message pre -> ~ is_message m ->
  (forall rest c,
      c <> "" ->
      handle_slack_read_messages w (JObj (("channel", JStr c) :: rest))
      = Raise AttributeError)
  /\ (forall d, no_channel d ->
                handle_slack_read_messages w (JObj d)
                = Ok (JObj [("messages", JArr (pre ++ m :: post))])).
Proof.
  intros Hfile Hpre Hm.
  assert (Hload : load_fixture w (CURRENT_SCENARIO w) "slack_messages.json"
                  = Ok (JArr (pre ++ m :: post))).
  { unfold fixture_file in Hfile. exact (load_fixture_doc _ _ _ _ _ Hfile). }
  assert (Htruthy : truthy (JArr (pre ++ m :: post)) = true)
    by (destruct pre; reflexivity).
  split.
  - intros rest c Hc. unfold handle_slack_read_messages.
    cbn [_flexget py_get dict_get String.eqb Ascii.eqb Bool.eqb obind].
    rewrite Hload. cbn [obind]. rewrite Htruthy.
    destruct c as [|a c]; [contradiction|].
    cbn [truthy String.eqb negb py_lstrip_hash obind py_iter].
    now rewrite (filter_channel_bad _ _ _ _ Hpre Hm).
  - intros d [H1 H2]. unfold handle_slack_read_messages.
    assert (Hnone : _flexget (JObj d) ["channel"; "channel_id"] JNull = Ok JNull).
    { unfold non_null in *. simpl.
      destruct (dict_get d "channel") as [[]|]; try discriminate; simpl;
        destruct (dict_get d "channel_id") as [[]|]; try discriminate;
        reflexivity. }
    rewrite Hnone. cbn [obind]. rewrite Hload. cbn [obind]. rewrite Htruthy.
    reflexivity.
Qed.

Lemma channel_filter_needs_string_channels_witness :
  handle_slack_read_messages numeric_channel_world
                             (JObj [("channel", JStr "general")])
  = Raise AttributeError.
Proof.
  refine (proj1 (channel_filter_needs_string_channels
                   numeric_channel_world "[...]"
                   [JObj [("channel", JStr "general")]]
                   (JObj [("channel", JNum 7)]) [] eq_refl _ _)
                [] "general" _).
  - repeat constructor.
  - simpl. tauto.
  - discriminate.
Defined.

(* ------------------------------------------------------------------------- *)
(** ** Bodies that are JSON but not an object *)

Lemma flexget_not_record data k keys default :
  ~ is_record data -> _flexget data (k :: keys) default = Raise AttributeError.
Proof.
  intros H. destruct data; try reflexivity. exfalso. apply H. exact I.
Qed.

(** X19.  A body that is a JSON document but not an object (a list, a
    string, a number): a [fixture_list] tool does not look at it and answers
    as for an empty body; every custom handler raises on it; a
    [fixture_lookup] tool raises on it when its fixture file holds a
    document, and still answers [found: false] when the fixture file is
    missing, since the fixture is loaded first. *)
Theorem non_object_body data w :
  ~ is_record data ->
  (forall tool_name fixture response_key transform,
      table_get TOOL_CATALOG tool_name
      = Some (fixture_list fixture response_key transform) ->
      fst (handle_tool tool_name (Document data) w)
      = fst (handle_tool tool_name EmptyBody w))
  /\ (forall tool_name,
         custom_tool tool_name ->
         fst (handle_tool tool_name (Document data) w) = Raise AttributeError)
  /\ (forall tool_name fixture lookup_field param_field response_key,
         table_get TOOL_CATALOG tool_name
         = Some (fixture_lookup fixture lookup_field param_field response_key) ->
         (fixture_file w fixture = None ->
          fst (handle_tool tool_name (Document data) w)
          = Ok (JObj [(response_key, JNull); ("found", JBool false)]))
         /\ (forall text v,
                fixture_file w fixture = Some (File text (Some v)) ->
                v <> JNull ->
                fst (handle_tool tool_name (Document data) w)
                = Raise AttributeError)).
Proof.
  intros Hdata. split; [|split].
  - intros tool_name fixture response_key transform Hcat.
    now rewrite !(handle_tool_known _ _ _ _ Hcat).
  - intros tool_name [h Hcat]. rewrite (handle_tool_known _ _ _ _ Hcat).
    apply table_get_In in Hcat. simpl in Hcat.
    repeat (destruct Hcat as [Hcat|Hcat];
            [inversion Hcat; subst; clear Hcat;
             unfold run_behavior, run_custom, CUSTOM_HANDLERS;
             cbn [table_get String.eqb Ascii.eqb Bool.eqb];
             unfold reading; cbn [fst parse_body];
             unfold handle_email_draft, handle_memory_read,
               handle_slack_read_messages, handle_search_web;
             now rewrite (flexget_not_record _ _ _ _ Hdata)|]).
    contradiction.
  - intros tool_name fixture lookup_field param_field response_key Hcat.
    rewrite (handle_tool_known _ _ _ _ Hcat). simpl. unfold run_fixture_lookup.
    split.
    + intros Hfile. unfold fixture_file in Hfile.
      rewrite (load_fixture_absent _ _ _ Hfile). cbn [obind].
      rewrite dict_literal_pair; [reflexivity|].
      exact (lookup_response_key _ _ _ _ _ Hcat).
    + intros text v Hfile Hv. unfold fixture_file in Hfile.
      rewrite (load_fixture_doc _ _ _ _ _ Hfile). cbn [obind].
      rewrite (flexget_not_record _ _ _ _ Hdata).
      destruct v; try reflexivity. contradiction.
Qed.

Lemma non_object_body_witness :
  fst (handle_tool "email.read" (Document (JArr [JStr "42"])) sample_world)
  = Raise AttributeError.
Proof.
  refine (proj2 (proj2 (proj2 (non_object_body (JArr [JStr "42"]) sample_world _))
                       "email.read" "inbox.json" "id" "message_id" "email" eq_refl)
                "[...]" sample_inbox eq_refl _).
  - simpl. tauto.
  - discriminate.
Defined.

(* ------------------------------------------------------------------------- *)
(** ** Notes read inside the memory directory *)

Lemma walk_descend names : forall stack cur,
  Forall (fun n => plain_name n = true) names ->
  walk stack cur names = descend cur names.
Proof.
  induction names as [|n names IH]; intros stack cur H; [reflexivity|].
  inversion H as [|n' l Hn Hl]; subst.
  cbn [walk descend]. destruct cur as [|entries]; [reflexivity|].
  unfold plain_name in Hn. apply andb_true_iff in Hn as [_ Hn].
  apply negb_true_iff in Hn. rewrite Hn.
  destruct (entry n entries); [now apply IH|reflexivity].
Qed.

Lemma plain_names_valid names :
  Forall (fun n => plain_name n = true) names ->
  Forall (fun n => valid_name n = true) names.
Proof.
  intros H. eapply Forall_impl; [|exact H].
  intros n Hn. unfold plain_name in Hn. now apply andb_true_iff in Hn as [Hn _].
Qed.

(** X20.  Asked for a relative path made of plain names (no [..], no
    empty or [.] component), [handle_memory_read] stays inside the memory
    directory of the current scenario: its answer is decided by the descent
    from that directory along the names, the text of the regular file found
    there, and [exists: false] when the descent finds nothing or a
    directory, or when there is no memory directory. *)
Theorem memory_read_confined_for_plain_names w d names :
  Forall (fun n => plain_name n = true) names ->
  requested_path d = JStr (join "/" names) ->
  (forall memory,
      walk [] (root w) (memory_dir_parts w) = Some memory ->
      handle_memory_read w (JObj d)
      = match descend memory names with
        | Some (File text _) => Ok (disclosed text)
        | _ => Ok missing_note
        end)
  /\ (walk [] (root w) (memory_dir_parts w) = None ->
      handle_memory_read w (JObj d) = Ok missing_note).
Proof.
  intros Hnames Hreq.
  assert (Hstat : stat (root w) (cwd w) (note_path w (join "/" names))
                  = walk [] (root w) (memory_dir_parts w ++ names)).
  { unfold note_path. unfold path_join at 1.
    rewrite (Path_relative_names _ (plain_names_valid _ Hnames)).
    cbn [absolute parts]. unfold stat. cbn [absolute parts].
    unfold memory_dir_parts.
    destruct (absolute (path_join (path_join (FIXTURES_PATH w)
                                             (CURRENT_SCENARIO w)) "memory"));
      [reflexivity|now rewrite app_assoc]. }
  assert (Hans : handle_memory_read w (JObj d)
                 = match walk [] (root w) (memory_dir_parts w ++ names) with
                   | Some (File text _) => Ok (disclosed text)
                   | _ => Ok missing_note
                   end).
  { unfold handle_memory_read. rewrite flexget_requested_path, Hreq.
    cbn [obind]. fold (note_path w (join "/" names)). rewrite Hstat.
    destruct (walk _ _ _) as [[|]|]; reflexivity. }
  rewrite Hans. rewrite !walk_walk_to, walk_to_app.
  split.
  - intros memory Hmem.
    destruct (walk_to [] (root w) (memory_dir_parts w)) as [[st c]|];
      [|discriminate].
    cbn [option_map snd] in Hmem. inversion Hmem; subst c.
    rewrite <- walk_walk_to, (walk_descend _ _ _ Hnames). reflexivity.
  - intros Hnone.
    destruct (walk_to [] (root w) (memory_dir_parts w)) as [[st c]|];
      [discriminate|reflexivity].
Qed.

Lemma memory_read_confined_for_plain_names_witness :
  handle_memory_read sample_world (JObj [("path", JStr "notes.md")])
  = Ok (disclosed "remember")
  /\ handle_memory_read sample_world (JObj [("path", JStr "etc/passwd")])
     = Ok missing_note.
Proof.
  split.
  - refine (proj1 (memory_read_confined_for_plain_names
                     sample_world [("path", JStr "notes.md")] ["notes.md"] _ eq_refl)
                  (Dir [("notes.md", File "remember" None)]) eq_refl).
    repeat constructor.
  - refine (proj1 (memory_read_confined_for_plain_names
                     sample_world [("path", JStr "etc/passwd")] ["etc"; "passwd"]
                     _ eq_refl)
                  (Dir [("notes.md", File "remember" None)]) eq_refl).
    repeat constructor.
Defined.
